(** * Konnect identifier: LDAP backend and HTTP handlers

    A shallow embedding of [identifier/backends/ldap.go] and
    [identifier/handlers.go].  Go strings are byte strings and are modelled
    by [string] (a list of 8-bit characters); Go maps are [gmap]s; a nil
    pointer, nil slice or nil error is [None].  Library code the two files
    call into (net/url, gopkg.in/ldap.v2, net/http) is modelled in modules
    named after the Go packages. *)

From Stdlib Require Import Ascii String NArith ZArith Lia.
From stdpp Require Import base option list gmap strings sorting.

Local Open Scope Z_scope.
Set Warnings "-register-all".

(* ===================================================================== *)
(** ** Package net/url: query escaping, [Values.Encode], [ParseQuery]     *)
(* ===================================================================== *)

Module url.

(** [ishex]: a hexadecimal digit, either case. *)
Definition ishex (c : ascii) : bool :=
  let n := N_of_ascii c in
  ((48 <=? n) && (n <=? 57) || (97 <=? n) && (n <=? 102)
   || (65 <=? n) && (n <=? 70))%N.

(** [unhex]: the value of a hexadecimal digit, 0 for any other byte. *)
Definition unhex (c : ascii) : N :=
  let n := N_of_ascii c in
  (if (48 <=? n) && (n <=? 57) then n - 48
   else if (97 <=? n) && (n <=? 102) then n - 97 + 10
   else if (65 <=? n) && (n <=? 70) then n - 65 + 10
   else 0)%N.

(** [shouldEscape c encodeQueryComponent]: letters, digits and [-_.~] are
    kept; the reserved bytes [$&+,/:;=?@] and every other byte are escaped. *)
Definition shouldEscape (c : ascii) : bool :=
  let n := N_of_ascii c in
  if ((97 <=? n) && (n <=? 122) || (65 <=? n) && (n <=? 90)
      || (48 <=? n) && (n <=? 57))%N then false
  else if ((n =? 45) || (n =? 95) || (n =? 46) || (n =? 126))%N then false
  else true.

(** The digit table ["0123456789ABCDEF"] indexed by a nibble. *)
Definition upperhex (n : N) : ascii :=
  ascii_of_N (if (n <? 10)%N then 48 + n else 65 + (n - 10))%N.

(** [QueryEscape]: a space becomes [+], an escaped byte [c] becomes
    [%] followed by [upperhex[c>>4]] and [upperhex[c&15]]. *)
Fixpoint QueryEscape (s : string) : string :=
  match s with
  | EmptyString => EmptyString
  | String c r =>
      if Ascii.eqb c " " then String "+" (QueryEscape r)
      else if shouldEscape c then
        let n := N_of_ascii c in
        String "%" (String (upperhex (N.shiftr n 4))
                      (String (upperhex (N.land n 15)) (QueryEscape r)))
      else String c (QueryEscape r)
  end.

(** [QueryUnescape]: [None] is the [EscapeError] Go reports for a [%] that
    is not followed by two hexadecimal digits; otherwise [%XY] is the byte
    [unhex X << 4 | unhex Y] and [+] is a space. *)
Fixpoint QueryUnescape (s : string) : option string :=
  match s with
  | EmptyString => Some EmptyString
  | String c r =>
      if Ascii.eqb c "%" then
        match r with
        | String h (String l r') =>
            if ishex h && ishex l then
              String (ascii_of_N (N.lor (N.shiftl (unhex h) 4) (unhex l)))
                <$> QueryUnescape r'
            else None
        | _ => None
        end
      else if Ascii.eqb c "+" then String " "%char <$> QueryUnescape r
      else String c <$> QueryUnescape r
  end.

(** [strings.Cut s sep] for a one-byte separator: the text before the first
    [sep], the text after it, and whether [sep] was found. *)
Fixpoint Cut (s : string) (sep : ascii) : string * string * bool :=
  match s with
  | EmptyString => (EmptyString, EmptyString, false)
  | String c r =>
      if Ascii.eqb c sep then (EmptyString, r, true)
      else let '(before, after, found) := Cut r sep in
           (String c before, after, found)
  end.

(** [strings.Contains s sep] for a one-byte [sep]. *)
Fixpoint Contains (s : string) (sep : ascii) : bool :=
  match s with
  | EmptyString => false
  | String c r => Ascii.eqb c sep || Contains r sep
  end.

(** [url.Values] is [map[string][]string]. *)
Abbreviation Values := (gmap string (list string)).

(** The errors [ParseQuery] can report. *)
Inductive ParseError := InvalidSemicolon | EscapeError.

(** One pass of the two nested loops of [Values.Encode] over the values of a
    key: [&] is written whenever the buffer is not empty. *)
Definition encode_value (keyEscaped : string) (buf : string) (v : string) : string :=
  (if decide (buf = EmptyString) then buf else buf +:+ "&")
    +:+ keyEscaped +:+ "=" +:+ QueryEscape v.

Definition encode_key (v : Values) (buf : string) (k : string) : string :=
  foldl (encode_value (QueryEscape k)) buf (default [] (v !! k)).

(** [Values.Encode]: keys sorted, then [key=value] joined by [&].  The
    key slice is collected from the map and sorted by Go's [<] on strings,
    the bytewise lexicographic order ([String.le]). *)
Definition Encode (v : Values) : string :=
  if decide (v = ∅) then EmptyString
  else foldl (encode_key v) EmptyString
         (merge_sort String.le (map_to_list v).*1).

(** One iteration of the loop of [parseQuery] on the segment [key]. *)
Definition parse_segment (m : Values) (err : option ParseError) (key : string)
  : Values * option ParseError :=
  if Contains key ";" then (m, Some InvalidSemicolon)
  else if decide (key = EmptyString) then (m, err)
  else
    let '(key, value, _) := Cut key "=" in
    match QueryUnescape key with
    | None => (m, Some (default EscapeError err))
    | Some key =>
        match QueryUnescape value with
        | None => (m, Some (default EscapeError err))
        | Some value => (<[key := default [] (m !! key) ++ [value]]> m, err)
        end
    end.

(** [parseQuery]: [for query != ""] cuts the next segment at [&].  Every
    iteration shortens [query], so [String.length query] iterations are
    enough; [fuel] counts them. *)
Fixpoint parseQuery (fuel : nat) (m : Values) (err : option ParseError)
    (query : string) : Values * option ParseError :=
  match fuel with
  | O => (m, err)
  | S fuel =>
      if decide (query = EmptyString) then (m, err)
      else
        let '(key, query, _) := Cut query "&" in
        let '(m, err) := parse_segment m err key in
        parseQuery fuel m err query
  end.

Definition ParseQuery (query : string) : Values * option ParseError :=
  parseQuery (String.length query) ∅ None query.

End url.

(* ===================================================================== *)
(** ** Package gopkg.in/ldap.v2: errors, entries, connections             *)
(* ===================================================================== *)

(** A Go call returning [(T, error)]. *)
Inductive result (E A : Type) : Type :=
| Ok (a : A)
| Err (e : E).
Arguments Ok {E A} a.
Arguments Err {E A} e.

Module ldap.

Definition LDAPResultNoSuchObject : N := 32.
Definition LDAPResultInvalidCredentials : N := 49.
Definition ErrorNetwork : N := 200.

Definition ScopeBaseObject : Z := 0.
Definition ScopeSingleLevel : Z := 1.
Definition ScopeWholeSubtree : Z := 2.
Definition NeverDerefAliases : Z := 0.

(** Go [error] values met by the backend: an [*ldap.Error] made by
    [ldap.NewError] (its wrapped error may be nil), an error made by
    [fmt.Errorf] (with no argument, an error argument or a string argument),
    and any other error (network, context, rate limiter). *)
Inductive error : Type :=
| NewError (ResultCode : N) (Err : option error)
| Errorf (format : string)
| ErrorfErr (format : string) (v : error)
| ErrorfStr (format : string) (v : string)
| OtherError (text : string).

(** [IsErrorWithCode]: false on nil and on anything that is not an
    [*ldap.Error]; otherwise compares the result code. *)
Definition IsErrorWithCode (err : option error) (desiredResultCode : N) : bool :=
  match err with
  | Some (NewError code _) => (code =? desiredResultCode)%N
  | _ => false
  end.

Record EntryAttribute := {
  Name : string;
  Values : list string;
}.

Record Entry := {
  DN : string;
  Attributes : list EntryAttribute;
}.

(** [GetAttributeValues]: the values of the first attribute whose name is
    exactly [attribute], the empty slice when there is none. *)
Fixpoint attributeValues (attrs : list EntryAttribute) (attribute : string)
  : list string :=
  match attrs with
  | [] => []
  | attr :: rest =>
      if decide (Name attr = attribute) then Values attr
      else attributeValues rest attribute
  end.

Definition GetAttributeValues (e : Entry) (attribute : string) : list string :=
  attributeValues (Attributes e) attribute.

Definition GetAttributeValue (e : Entry) (attribute : string) : string :=
  match GetAttributeValues e attribute with
  | [] => EmptyString
  | v :: _ => v
  end.

Record SearchRequest := NewSearchRequest {
  BaseDN : string;
  Scope : Z;
  DerefAliases : Z;
  SizeLimit : Z;
  TimeLimit : Z;
  TypesOnly : bool;
  Filter : string;
  ReqAttributes : list string;
  Controls : list string;
}.

Record SearchResult := {
  Entries : list Entry;
}.

(** An established connection, seen through the two requests the backend
    sends over it. *)
Record Conn := {
  Bind : string -> string -> option error;
  Search : SearchRequest -> result error SearchResult;
}.

End ldap.

(* ===================================================================== *)
(** ** Package backends: [ldap.go]                                        *)
(* ===================================================================== *)

Module backends.
Import ldap.

(** What [ldap.go] takes from the Go runtime and from other libraries:
    [strings.EqualFold], [fmt.Sprintf] with a format held in a variable and
    one string argument, [ldap.ParseDN] (its error only), and the order in
    which [range] visits a map.  Go leaves that order unspecified; every
    entry is visited once, which is [range_visits]. *)
Record Runtime := {
  EqualFold : string -> string -> bool;
  Sprintf : string -> string -> string;
  ParseDN : string -> option error;
  range : forall V : Type, gmap string V -> list (string * V);
  range_visits : forall V (m : gmap string V), range V m ≡ₚ map_to_list m;
}.
Arguments range _ {V} _.

(** Constants of packages [ldapDefinitions] and [konnect], which are not
    part of the two files; their values stay arbitrary. *)
Record Definitions := {
  AttributeDN : string;
  AttributeLogin : string;
  IdentifiedUserIDClaim : string;
}.

(** The outside world of one operation: the rate limiter, the dialer, the
    TLS handshake and the directory server reached by the connection. *)
Record Network := {
  limiter_Wait : option error;
  DialContext : string -> string -> option error;
  Handshake : option error;
  server : Conn;
}.

(** The fields of [LDAPIdentifierBackend] that hold data.  A nil
    [entryIDMapping] is [None]. *)
Record LDAPIdentifierBackend := {
  addr : string;
  isTLS : bool;
  bindDN : string;
  bindPassword : string;
  baseDN : string;
  scope : Z;
  searchFilter : string;
  getFilter : string;
  entryIDMapping : option (list string);
  attributeMapping : gmap string string;
  timeout : Z;
}.

(** What [Logon] returns: [(bool, *string, *string, map, error)]. *)
Record LogonResult := {
  success : bool;
  subject : option string;
  sessionRef : option string;
  claims : option (gmap string string);
  err : option error;
}.

Definition failed (e : error) : LogonResult :=
  {| success := false; subject := None; sessionRef := None; claims := None;
     err := Some e |}.

Definition nonMatch : LogonResult :=
  {| success := false; subject := None; sessionRef := None; claims := None;
     err := None |}.

Section Backend.
Context (rt : Runtime) (defs : Definitions).

(** [ldapAttributeMapping.attributes]: the DN attribute, then every mapped
    attribute in [range] order. *)
Definition attributes (m : gmap string string) : list string :=
  AttributeDN defs :: (range rt m).*2.

(** [connect]: limiter slot, dial, optional TLS handshake, optional bind
    with the general user. *)
Definition connect (b : LDAPIdentifierBackend) (net : Network)
  : result error Conn :=
  match limiter_Wait net with
  | Some err => Err err
  | None =>
      match DialContext net "tcp" (addr b) with
      | Some err => Err (NewError ErrorNetwork (Some err))
      | None =>
          match (if isTLS b then Handshake net else None) with
          | Some err => Err (NewError ErrorNetwork (Some err))
          | None =>
              let l := server net in
              if decide (bindDN b <> EmptyString) then
                match Bind l (bindDN b) (bindPassword b) with
                | Some err => Err err
                | None => Ok l
                end
              else Ok l
          end
      end
  end.

Definition baseAndSearchFilterFromUsername (b : LDAPIdentifierBackend)
    (username : string) : string * string :=
  (baseDN b, Sprintf rt (searchFilter b) username).

Definition searchUsername (b : LDAPIdentifierBackend) (l : Conn)
    (username : string) (attrs : list string) : result error Entry :=
  let '(base, filter) := baseAndSearchFilterFromUsername b username in
  let searchRequest :=
    NewSearchRequest base (scope b) NeverDerefAliases 1 (timeout b) false
      filter attrs [] in
  match Search l searchRequest with
  | Err err => Err err
  | Ok sr =>
      match Entries sr with
      | [] => Err (NewError LDAPResultNoSuchObject None)
      | [entry] => Ok entry
      | _ => Err (Errorf "user too many entries returned")
      end
  end.

(** The loop of [entryIDFromEntry] filling [values]. *)
Definition entryValues (mapping : list string) (entry : Entry) : url.Values :=
  foldl (fun values k =>
           let v := GetAttributeValues entry k in
           if decide (0 < length v)%nat then <[k := v]> values else values)
        ∅ mapping.

Definition entryIDFromEntry (b : LDAPIdentifierBackend) (entry : Entry) : string :=
  match entryIDMapping b with
  | Some mapping => url.Encode (entryValues mapping entry)
  | None => DN entry
  end.

(** The two nested loops of [baseAndGetFilterFromEntryID]:
    [filter = fmt.Sprintf("%s(%s=%s)", filter, k, value)]. *)
Definition filterTerm (k : string) (filter value : string) : string :=
  filter +:+ "(" +:+ k +:+ "=" +:+ value +:+ ")".

Definition filterOf (values : url.Values) : string :=
  foldl (fun filter kv => foldl (filterTerm kv.1) filter kv.2)
        EmptyString (range rt values).

Definition baseAndGetFilterFromEntryID (b : LDAPIdentifierBackend)
    (entryID : string) : string * string :=
  match entryIDMapping b with
  | Some _ =>
      match url.ParseQuery entryID with
      | (values, None) =>
          let filter := filterOf values in
          if decide (filter <> EmptyString)
          then (baseDN b, "(&" +:+ getFilter b +:+ filter +:+ ")")
          else (EmptyString, EmptyString)
      | (_, Some _) => (EmptyString, EmptyString)
      end
  | None =>
      match ParseDN rt entryID with
      | Some _ => (EmptyString, EmptyString)
      | None => (entryID, getFilter b)
      end
  end.

(** [Logon].  [newLdapUser] is called only for [BackendClaims], which reads
    nothing but the entry ID, so the claims are built from [entryID]. *)
Definition Logon (b : LDAPIdentifierBackend) (net : Network)
    (audience username password : string) : LogonResult :=
  let loginAttributeName := default EmptyString (attributeMapping b !! AttributeLogin defs) in
  if decide (loginAttributeName = EmptyString) then
    failed (Errorf "ldap identifier backend logon impossible as no login attribute is set")
  else
    match connect b net with
    | Err err => failed (ErrorfErr "ldap identifier backend logon connect error: %v" err)
    | Ok l =>
        match searchUsername b l username (attributes (attributeMapping b)) with
        | Err err =>
            if IsErrorWithCode (Some err) LDAPResultNoSuchObject then nonMatch
            else failed (ErrorfErr "ldap identifier backend logon search error: %v" err)
        | Ok entry =>
            if negb (EqualFold rt (GetAttributeValue entry loginAttributeName) username)
            then failed (Errorf "ldap identifier backend logon search returned wrong user")
            else
              match Bind l (DN entry) password with
              | Some err =>
                  if IsErrorWithCode (Some err) LDAPResultInvalidCredentials
                  then nonMatch
                  else failed (ErrorfErr "ldap identifier backend logon error: %v" err)
              | None =>
                  let entryID := entryIDFromEntry b entry in
                  if decide (entryID = EmptyString) then
                    failed (ErrorfStr "ldap identifier backend logon entry without entry ID: %v" (DN entry))
                  else
                    {| success := true; subject := Some entryID;
                       sessionRef := None;
                       claims := Some {[ IdentifiedUserIDClaim defs := entryID ]};
                       err := None |}
              end
        end
    end.

Definition getUser (b : LDAPIdentifierBackend) (l : Conn) (entryID : string)
    (attrs : list string) : result error Entry :=
  let '(base, filter) := baseAndGetFilterFromEntryID b entryID in
  if decide (base = EmptyString \/ filter = EmptyString \/ entryID = EmptyString) then
    Err (ErrorfStr "ldap identifier backend get user invalid user ID: %v" entryID)
  else
    let scope := if decide (base = entryID) then ScopeBaseObject else scope b in
    let searchRequest :=
      NewSearchRequest base scope NeverDerefAliases 1 (timeout b) false
        filter attrs [] in
    match Search l searchRequest with
    | Err err => Err err
    | Ok sr =>
        match Entries sr with
        | [entry] => Ok entry
        | _ => Err (Errorf "user does not exist or too many entries returned")
        end
    end.

(** [GetUser].  The result stands for [newLdapUser(newEntryID, mapping,
    entry)]: the entry ID of the user and the entry its data is read from. *)
Definition GetUser (b : LDAPIdentifierBackend) (net : Network) (entryID : string)
  : result error (string * Entry) :=
  match connect b net with
  | Err err => Err (ErrorfErr "ldap identifier backend get user connect error: %v" err)
  | Ok l =>
      match getUser b l entryID (attributes (attributeMapping b)) with
      | Err err => Err (ErrorfErr "ldap identifier backend get user error: %v" err)
      | Ok entry =>
          let newEntryID := entryIDFromEntry b entry in
          if negb (EqualFold rt newEntryID entryID)
          then Err (Errorf "ldap identifier backend get user returned wrong user")
          else Ok (newEntryID, entry)
      end
  end.

End Backend.

End backends.

(* ===================================================================== *)
(** ** Package net/http: headers and requests                             *)
(* ===================================================================== *)

Module http.

Definition StatusOK : Z := 200.
Definition StatusNoContent : Z := 204.
Definition StatusBadRequest : Z := 400.
Definition StatusInternalServerError : Z := 500.

(** [http.Header] is [map[string][]string]. *)
Abbreviation Header := (gmap string (list string)).

(** A byte allowed in a header field name (an RFC 7230 token byte). *)
Definition validHeaderFieldByte (c : ascii) : bool :=
  let n := N_of_ascii c in
  ((97 <=? n) && (n <=? 122) || (65 <=? n) && (n <=? 90)
   || (48 <=? n) && (n <=? 57)
   || existsb (N.eqb n) [33; 35; 36; 37; 38; 39; 42; 43; 45; 46; 94; 95; 96; 124; 126])%N.

Fixpoint validHeaderField (s : string) : bool :=
  match s with
  | EmptyString => true
  | String c r => validHeaderFieldByte c && validHeaderField r
  end.

(** The rewriting loop of [canonicalMIMEHeaderKey]: upper case at the start
    and after [-], lower case elsewhere. *)
Fixpoint canonical (upper : bool) (s : string) : string :=
  match s with
  | EmptyString => EmptyString
  | String c r =>
      let n := N_of_ascii c in
      let c' :=
        if (upper && (97 <=? n) && (n <=? 122))%N then ascii_of_N (n - 32)
        else if (negb upper && (65 <=? n) && (n <=? 90))%N then ascii_of_N (n + 32)
        else c in
      String c' (canonical (Ascii.eqb c' "-") r)
  end.

(** [textproto.CanonicalMIMEHeaderKey]: a key with a byte that is not a
    token byte is returned unchanged. *)
Definition CanonicalMIMEHeaderKey (s : string) : string :=
  if validHeaderField s then canonical true s else s.

(** [Header.Get]: the first value stored under the canonical key, or [""]. *)
Definition Get (h : Header) (key : string) : string :=
  match h !! CanonicalMIMEHeaderKey key with
  | Some (v :: _) => v
  | _ => EmptyString
  end.

(** The parts of [*http.Request] the handlers read. *)
Record Request := {
  Host : string;
  Headers : Header;
  Body : string;
}.

End http.

(* ===================================================================== *)
(** ** Package identifier: [handlers.go]                                  *)
(* ===================================================================== *)

Module identifier.
Import http.

(** In this package an [error] is known by its message; nil is [None]. *)
Abbreviation error := string (only parsing).

(** Modelled from the spec: [IdentifiedUser] is declared outside the two
    files; the handlers build it from [sub] and [username] and read it
    through [Subject()], [Username()] and [Name()]. *)
Record IdentifiedUser := {
  sub : string;
  username : string;
  displayName : string;
}.
Definition Subject (u : IdentifiedUser) : string := sub u.
Definition Username (u : IdentifiedUser) : string := username u.
Definition Name (u : IdentifiedUser) : string := displayName u.

(** [clients.Details]: the handlers read [Trusted] and pass the rest on. *)
Record Details := {
  ID : string;
  Trusted : bool;
}.

Module HelloRequest.
Record t := {
  State : string;
  Flow : string;
  Scopes : gmap string bool;
  Prompts : gmap string bool;
  ClientID : string;
  RedirectURI : string;
}.
End HelloRequest.

Module HelloResponse.
Record t := {
  State : string;
  Flow : string;
  Success : bool;
  Username : string;
  DisplayName : string;
  Next : string;
  ContinueURI : string;
  RequestedScopes : gmap string bool;
  ClientDetails : option Details;
}.
(** [&HelloResponse{State: state}]. *)
Definition new (state : string) : t :=
  {| State := state; Flow := EmptyString; Success := false;
     Username := EmptyString; DisplayName := EmptyString;
     Next := EmptyString; ContinueURI := EmptyString;
     RequestedScopes := ∅; ClientDetails := None |}.
Definition setUser (name display : string) (r : t) : t :=
  {| State := State r; Flow := Flow r; Success := Success r;
     Username := name; DisplayName := display;
     Next := Next r; ContinueURI := ContinueURI r;
     RequestedScopes := RequestedScopes r; ClientDetails := ClientDetails r |}.
Definition setUsername (name : string) (r : t) : t :=
  setUser name (DisplayName r) r.
Definition setSuccess (b : bool) (r : t) : t :=
  {| State := State r; Flow := Flow r; Success := b;
     Username := Username r; DisplayName := DisplayName r;
     Next := Next r; ContinueURI := ContinueURI r;
     RequestedScopes := RequestedScopes r; ClientDetails := ClientDetails r |}.
Definition setConsent (next : string) (scopes : gmap string bool)
    (details : option Details) (r : t) : t :=
  {| State := State r; Flow := Flow r; Success := Success r;
     Username := Username r; DisplayName := DisplayName r;
     Next := next; ContinueURI := ContinueURI r;
     RequestedScopes := scopes; ClientDetails := details |}.
Definition setContinue (uri flow : string) (r : t) : t :=
  {| State := State r; Flow := flow; Success := Success r;
     Username := Username r; DisplayName := DisplayName r;
     Next := Next r; ContinueURI := uri;
     RequestedScopes := RequestedScopes r; ClientDetails := ClientDetails r |}.
End HelloResponse.

Module LogonRequest.
Record t := {
  State : string;
  Params : list string;
  Hello : option HelloRequest.t;
}.
End LogonRequest.

Module LogonResponse.
Record t := {
  State : string;
  Success : bool;
  Hello : option HelloResponse.t;
}.
End LogonResponse.

Inductive Level := Debug | Warn | Error.

(** What a handler does that can be seen from outside: log lines (level,
    message, attached error), writes to the [ResponseWriter], and calls to
    the collaborators of the [Identifier]. *)
Inductive Event : Type :=
| Log (level : Level) (message : string) (err : option error)
| AddNoCacheResponseHeaders
| HeaderSet (key value : string)
| WriteHeader (status : Z)
| ErrorPage (status : Z) (title text : string)
| WriteLogonJSON (status : Z) (response : LogonResponse.t)
| WriteHelloJSON (status : Z) (response : HelloResponse.t)
| CallGetUserFromLogonCookie
| CallResolveUser (username : string)
| CallBackendLogon (username password : string)
| CallUpdateUser (user : IdentifiedUser)
| CallClientsLookup (clientID redirectURI : string)
| CallSetLogonCookie (user : IdentifiedUser).

(** A run-time panic of the Go program. *)
Inductive Fault := IndexOutOfRange | NilDereference.

(** A computation of a handler: the events so far, then a value or a
    panic. *)
Definition M (A : Type) : Type := list Event * result Fault A.

Definition ret {A} (a : A) : M A := ([], Ok a).
Definition bind {A B} (m : M A) (k : A -> M B) : M B :=
  match m with
  | (t, Ok a) => let '(t', r) := k a in (t ++ t', r)
  | (t, Err f) => (t, Err f)
  end.
Definition emit (e : Event) : M unit := ([e], Ok tt).
Definition panic {A} (f : Fault) : M A := ([], Err f).
Definition trace {A} (m : M A) : list Event := m.1.

Declare Scope go_scope.
Delimit Scope go_scope with go.
Notation "x ← y ; z" := (bind y (fun x => z))
  (at level 20, y at level 100, z at level 200, only parsing) : go_scope.
Notation "' x ← y ; z" := (bind y (fun x => z))
  (at level 20, x pattern, y at level 100, z at level 200, only parsing) : go_scope.
Notation "x ;; z" := (bind x (fun _ => z))
  (at level 100, z at level 200, only parsing, right associativity) : go_scope.
Local Open Scope go_scope.

(** [s[n]] on a slice. *)
Definition index (s : list string) (n : nat) : M string :=
  match s !! n with
  | Some x => ret x
  | None => panic IndexOutOfRange
  end.

(** [*p] on a pointer. *)
Definition deref {A} (p : option A) : M A :=
  match p with
  | Some x => ret x
  | None => panic NilDereference
  end.

(** [a && b]: [b] is evaluated only when [a] holds. *)
Definition andThen (a : bool) (b : M bool) : M bool :=
  if a then b else ret false.

(** When [err != nil], log it. *)
Definition logIf (err : option error) (level : Level) (message : string) : M unit :=
  match err with
  | Some e => emit (Log level message (Some e))
  | None => ret tt
  end.

(** Names declared in packages [oidc] and [identifier] outside the two
    files; their values stay arbitrary. *)
Record Constants := {
  PromptNone : string;
  PromptLogin : string;
  PromptConsent : string;
  FlowOAuth : string;
  FlowConsent : string;
  FlowOIDC : string;
}.

(** Library calls of the handlers: [json.Decoder.Decode] into the request
    types, [HelloRequest.parse] (which fills [Scopes] and [Prompts]),
    [url.Parse] (its [Host] only), and the error [utils.WriteJSON] may
    return after writing. *)
Record Runtime := {
  DecodeLogonRequest : string -> result error LogonRequest.t;
  DecodeHelloRequest : string -> result error HelloRequest.t;
  parse : HelloRequest.t -> result error HelloRequest.t;
  url_Parse : string -> result error string;
  WriteJSON : option error;
}.

(** The [Identifier] seen through the collaborators the handlers call.  A
    Go result [(x, err)] is a pair; pointers may be nil. *)
Record Identifier := {
  GetUserFromLogonCookie : Request -> option IdentifiedUser * option error;
  resolveUser : string -> option IdentifiedUser * option error;
  updateUser : IdentifiedUser -> IdentifiedUser * option error;
  setLogonCookie : IdentifiedUser -> option error;
  backend_Logon : string -> string -> bool * option string * option error;
  clients_Lookup : string -> string -> option Details * option error;
  authorizationEndpointURI : string;
}.

Section Handlers.
Context (c : Constants) (rt : Runtime) (i : Identifier).

(** How the [for] loop of [secureHandler] ends: the wrapped handler is
    served (after a warning, or not), or the loop is left with [err]. *)
Inductive Screening :=
| Serve (warning : bool)
| Reject (err : option error).

Definition screen (req : Request) : Screening :=
  let requiredHost := Host req in
  if decide (Get (Headers req) "Kopano-Konnect-XSRF" <> "1") then
    Reject (Some "missing xsrf header")
  else
    let origin := Get (Headers req) "Origin" in
    let referer := Get (Headers req) "Referer" in
    if decide (origin = EmptyString /\ referer = EmptyString) then
      Reject (Some "missing origin or referer header")
    else if decide (origin <> EmptyString) then
      match url_Parse rt origin with
      | Err urlParseErr => Reject (Some ("invalid origin value: " +:+ urlParseErr))
      | Ok originHost =>
          if decide (originHost <> requiredHost)
          then Reject (Some "origin does not match request URL")
          else Serve false
      end
    else if decide (referer <> EmptyString) then
      match url_Parse rt referer with
      | Err urlParseErr => Reject (Some ("invalid referer value: " +:+ urlParseErr))
      | Ok refererHost =>
          if decide (refererHost <> requiredHost)
          then Reject (Some "referer does not match request URL")
          else Serve false
      end
    else Serve true.

Definition secureHandler (handler : Request -> M unit) (req : Request) : M unit :=
  match screen req with
  | Serve warning =>
      (if warning
       then emit (Log Warn "identifier HTTP request is insecure with no Origin and Referer" None)
       else ret tt);;
      handler req
  | Reject err =>
      logIf err Warn "rejecting identifier HTTP request";;
      emit (ErrorPage StatusBadRequest "" "")
  end.

(** [m[k] == true] on a [map[string]bool]. *)
Definition isSet (m : gmap string bool) (k : string) : bool :=
  default false (m !! k).

(** The labelled loop of [newHelloResponse]: the response when the loop is
    left by a [break], or the error returned from inside it. *)
Definition helloLoop (req : Request) (r : HelloRequest.t)
    (identifiedUser : option IdentifiedUser) : M (result error HelloResponse.t) :=
  let response := HelloResponse.new (HelloRequest.State r) in
  if isSet (HelloRequest.Prompts r) (PromptNone c) then
    ret (Err "prompt none requested")
  else if isSet (HelloRequest.Prompts r) (PromptLogin c) then
    ret (Ok response)
  else
    identifiedUser ←
      match identifiedUser with
      | None =>
          emit CallGetUserFromLogonCookie;;
          let '(user, err) := GetUserFromLogonCookie i req in
          logIf err Debug "identifier failed to decode logon cookie in hello";;
          ret user
      | Some user => ret (Some user)
      end;
    let response :=
      match identifiedUser with
      | Some user => HelloResponse.setUser (Username user) (Name user) response
      | None => response
      end in
    if decide (is_Some identifiedUser /\ HelloResponse.Username response <> EmptyString)
    then ret (Ok (HelloResponse.setSuccess true response))
    else
      let forwardedUser := Get (Headers req) "X-Forwarded-User" in
      if decide (forwardedUser <> EmptyString) then
        ret (Ok (HelloResponse.setSuccess true
                   (HelloResponse.setUsername forwardedUser response)))
      else ret (Ok response).

Definition newHelloResponse (req : Request) (r : HelloRequest.t)
    (identifiedUser : option IdentifiedUser)
  : M (option HelloResponse.t * option error) :=
  looped ← helloLoop req r identifiedUser;
  match looped with
  | Err err => ret (None, Some err)
  | Ok response =>
      if negb (HelloResponse.Success response) then ret (Some response, None)
      else if decide (HelloRequest.Flow r = FlowOAuth c
                      \/ HelloRequest.Flow r = FlowConsent c
                      \/ HelloRequest.Flow r = FlowOIDC c) then
        emit (CallClientsLookup (HelloRequest.ClientID r) (HelloRequest.RedirectURI r));;
        let '(clientDetails, err) :=
          clients_Lookup i (HelloRequest.ClientID r) (HelloRequest.RedirectURI r) in
        match err with
        | Some err => ret (None, Some err)
        | None =>
            let promptConsent := isSet (HelloRequest.Prompts r) (PromptConsent c) in
            details ← deref clientDetails;
            let promptConsent := if negb (Trusted details) then true else promptConsent in
            let response :=
              if promptConsent
              then HelloResponse.setConsent (FlowConsent c) (HelloRequest.Scopes r)
                     clientDetails response
              else response in
            ret (Some (HelloResponse.setContinue (authorizationEndpointURI i)
                         (HelloRequest.Flow r) response), None)
        end
      else ret (Some response, None)
  end.

(** The two statements that answer 204 with the echoed state. *)
Definition noContent (state : string) : M unit :=
  emit (HeaderSet "Kopano-Konnect-State" state);;
  emit (WriteHeader StatusNoContent).

Definition handleHello (req : Request) : M unit :=
  match DecodeHelloRequest rt (Body req) with
  | Err err =>
      emit (Log Debug "identifier failed to decode hello request" (Some err));;
      emit (ErrorPage StatusBadRequest "" "failed to decode request JSON")
  | Ok r =>
      match parse rt r with
      | Err err =>
          emit (Log Debug "identifier failed to parse hello request" (Some err));;
          emit (ErrorPage StatusBadRequest "" "failed to parse request values")
      | Ok r =>
          emit AddNoCacheResponseHeaders;;
          '(response, err) ← newHelloResponse req r None;
          match err with
          | Some err =>
              emit (Log Debug "rejecting identifier hello request" (Some err));;
              emit (ErrorPage StatusBadRequest "" err)
          | None =>
              response ← deref response;
              if negb (HelloResponse.Success response) then
                noContent (HelloResponse.State response)
              else
                emit (WriteHelloJSON StatusOK response);;
                logIf (WriteJSON rt) Error "hello request failed writing response"
          end
      end
  end.

(** How the [for] loop of [handleLogon] ends: by [break] with the value of
    [user], or by a [return] out of the handler. *)
Inductive LoopExit :=
| Break (user : option IdentifiedUser)
| Return.

Definition len (params : list string) : Z := Z.of_nat (length params).

(** The first [if] of the loop: the user of the logon cookie, when the
    branch is taken and the cookie names [params[0]]. *)
Definition passiveReuse (req : Request) (params : list string)
  : M (option IdentifiedUser) :=
  cond ← andThen (bool_decide (len params >= 3))
            (p1 ← index params 1;
             andThen (bool_decide (p1 = EmptyString))
               (p2 ← index params 2; ret (bool_decide (p2 = "1"))));
  if cond then
    emit CallGetUserFromLogonCookie;;
    let '(identifiedUser, cookieErr) := GetUserFromLogonCookie i req in
    logIf cookieErr Debug "identifier failed to decode logon cookie in logon request";;
    match identifiedUser with
    | Some identifiedUser =>
        p0 ← index params 0;
        if decide (Username identifiedUser = p0) then ret (Some identifiedUser)
        else ret None
    | None => ret None
    end
  else ret None.

Definition logonLoop (req : Request) (params : list string) : M LoopExit :=
  reused ← passiveReuse req params;
  match reused with
  | Some user => ret (Break (Some user))
  | None =>
      let forwardedUser := Get (Headers req) "X-Forwarded-User" in
      if decide (forwardedUser <> EmptyString) then
        cond ← andThen (bool_decide (len params >= 1))
                  (p0 ← index params 0; ret (bool_decide (forwardedUser = p0)));
        if cond then
          p0 ← index params 0;
          emit (CallResolveUser p0);;
          let '(user, err) := resolveUser i p0 in
          match err with
          | Some err =>
              emit (Log Error "identifier failed to resolve user with backend" (Some err));;
              emit (ErrorPage StatusInternalServerError "" "failed to resolve user");;
              ret Return
          | None => ret (Break user)
          end
        else ret (Break None)
      else
        emptyPassword ← andThen (bool_decide (len params >= 2))
                           (p1 ← index params 1; ret (bool_decide (p1 = EmptyString)));
        if emptyPassword then ret (Break None)
        else
          withPassword ← andThen (bool_decide (len params >= 3))
                            (p2 ← index params 2; ret (bool_decide (p2 = "1")));
          if withPassword then
            p0 ← index params 0;
            p1 ← index params 1;
            emit (CallBackendLogon p0 p1);;
            let '(success, subject, err) := backend_Logon i p0 p1 in
            match err with
            | Some err =>
                emit (Log Error "identifier failed to logon with backend" (Some err));;
                emit (ErrorPage StatusInternalServerError "" "failed to logon");;
                ret Return
            | None =>
                if success then
                  s ← deref subject;
                  p0 ← index params 0;
                  ret (Break (Some {| sub := s; username := p0;
                                      displayName := EmptyString |}))
                else ret (Break None)
            end
          else ret (Break None)
  end.

(** The [if r.Hello != nil] block of [handleLogon]: [None] when the handler
    has answered and returned, otherwise the value of [response.Hello]. *)
Definition logonHello (req : Request) (r : LogonRequest.t) (user : IdentifiedUser)
  : M (option (option HelloResponse.t)) :=
  match LogonRequest.Hello r with
  | None => ret (Some None)
  | Some h =>
      match parse rt h with
      | Err err =>
          emit (Log Debug "identifier failed to parse logon request hello" (Some err));;
          emit (ErrorPage StatusBadRequest "" "failed to parse request values");;
          ret None
      | Ok h =>
          '(hello, errHello) ← newHelloResponse req h (Some user);
          match errHello with
          | Some errHello =>
              emit (Log Debug "rejecting identifier logon request" (Some errHello));;
              emit (ErrorPage StatusBadRequest "" errHello);;
              ret None
          | None =>
              hello ← deref hello;
              if negb (HelloResponse.Success hello) then
                noContent (LogonRequest.State r);;
                ret None
              else ret (Some (Some hello))
          end
      end
  end.

Definition handleLogon (req : Request) : M unit :=
  match DecodeLogonRequest rt (Body req) with
  | Err err =>
      emit (Log Debug "identifier failed to decode logon request" (Some err));;
      emit (ErrorPage StatusBadRequest "" "failed to decode request JSON")
  | Ok r =>
      emit AddNoCacheResponseHeaders;;
      exit ← logonLoop req (LogonRequest.Params r);
      match exit with
      | Return => ret tt
      | Break user =>
          match user with
          | None => noContent (LogonRequest.State r)
          | Some user =>
              if decide (Subject user = EmptyString) then
                noContent (LogonRequest.State r)
              else
                emit (CallUpdateUser user);;
                let '(user, err) := updateUser i user in
                logIf err Debug "identifier failed to update user data in logon request";;
                hello ← logonHello req r user;
                match hello with
                | None => ret tt
                | Some hello =>
                    emit (CallSetLogonCookie user);;
                    match setLogonCookie i user with
                    | Some err =>
                        emit (Log Error "failed to serialize logon ticket" (Some err));;
                        emit (ErrorPage StatusInternalServerError "" "failed to serialize logon ticket")
                    | None =>
                        emit (WriteLogonJSON StatusOK
                                {| LogonResponse.State := LogonRequest.State r;
                                   LogonResponse.Success := true;
                                   LogonResponse.Hello := hello |});;
                        logIf (WriteJSON rt) Error "logon request failed writing response"
                    end
                end
          end
      end
  end.

End Handlers.

End identifier.

(* ===================================================================== *)
(** ** Concrete surroundings used in the examples                         *)
(* ===================================================================== *)

Module examples.
Import http identifier.

Definition constants : Constants :=
  {| PromptNone := "none"; PromptLogin := "login"; PromptConsent := "consent";
     FlowOAuth := "oauth"; FlowConsent := "consent"; FlowOIDC := "oidc" |}.

(** A stand-in for the host [url.Parse] finds in an absolute URL: the text
    between [//] and the next [/]. *)
Fixpoint afterSlashes (s : string) : option string :=
  match s with
  | EmptyString => None
  | String a r =>
      match r with
      | String b r' =>
          if Ascii.eqb a "/" && Ascii.eqb b "/" then Some r' else afterSlashes r
      | EmptyString => None
      end
  end.

Definition hostOf (s : string) : result string string :=
  match afterSlashes s with
  | Some r => Ok (url.Cut r "/").1.1
  | None => Ok EmptyString
  end.

Definition helloOf (prompts : list string) (flow : string) : HelloRequest.t :=
  {| HelloRequest.State := "st8"; HelloRequest.Flow := flow;
     HelloRequest.Scopes := {[ "openid" := true ]};
     HelloRequest.Prompts := list_to_map ((fun p => (p, true)) <$> prompts);
     HelloRequest.ClientID := "client"; HelloRequest.RedirectURI := "https://rp.example/cb" |}.

(** A runtime that decodes every body to the given requests. *)
Definition runtime (logon : LogonRequest.t) (hello : HelloRequest.t) : Runtime :=
  {| DecodeLogonRequest := fun _ => Ok logon;
     DecodeHelloRequest := fun _ => Ok hello;
     parse := fun r => Ok r;
     url_Parse := hostOf;
     WriteJSON := None |}.

Definition alice : IdentifiedUser :=
  {| sub := "uid=alice,dc=example"; username := "alice"; displayName := "Alice" |}.

(** An identifier whose cookie always names alice and whose backend knows
    the password [secret] of alice. *)
Definition identifier : Identifier :=
  {| GetUserFromLogonCookie := fun _ => (Some alice, None);
     resolveUser := fun u => (if decide (u = "alice") then Some alice else None, None);
     updateUser := fun u => (u, None);
     setLogonCookie := fun _ => None;
     backend_Logon := fun u p =>
       if decide (u = "alice" /\ p = "secret")
       then (true, Some "uid=alice,dc=example", None)
       else (false, None, None);
     clients_Lookup := fun _ _ => (Some {| ID := "client"; Trusted := true |}, None);
     authorizationEndpointURI := "https://idp.example/authorize" |}.


Definition request (headers : list (string * string)) : Request :=
  {| Host := "idp.example";
     Headers := list_to_map ((fun kv => (kv.1, [kv.2])) <$> headers);
     Body := "{}" |}.

Definition logonOf (params : list string) (hello : option HelloRequest.t)
  : LogonRequest.t :=
  {| LogonRequest.State := "st8"; LogonRequest.Params := params;
     LogonRequest.Hello := hello |}.

(** A wrapped handler that answers 200. *)
Definition okHandler (req : Request) : M unit := emit (WriteHeader StatusOK).

Definition secured : list (string * string) :=
  [("Kopano-Konnect-Xsrf", "1"); ("Origin", "https://idp.example")].

End examples.

(** A directory with one entry for alice, two entries matching bob, and a
    search that fails for the user name [down]. *)
Module directory.
Import ldap backends.

Definition lower (c : ascii) : ascii :=
  let n := N_of_ascii c in
  if ((65 <=? n) && (n <=? 90))%N then ascii_of_N (n + 32) else c.

Fixpoint lowered (s : string) : string :=
  match s with
  | EmptyString => EmptyString
  | String c r => String (lower c) (lowered r)
  end.

(** Stand-ins: [EqualFold] on ASCII letters, [Sprintf] for a format with
    one [%s], a [ParseDN] that accepts everything, and [range] in the order
    of [map_to_list]. *)
Fixpoint sprintf (format arg : string) : string :=
  match format with
  | EmptyString => EmptyString
  | String a r =>
      match r with
      | String b r' =>
          if Ascii.eqb a "%" && Ascii.eqb b "s" then arg +:+ r'
          else String a (sprintf r arg)
      | EmptyString => format
      end
  end.

Definition runtime : Runtime :=
  {| EqualFold := fun s t => String.eqb (lowered s) (lowered t);
     Sprintf := sprintf;
     ParseDN := fun _ => None;
     range := fun V m => map_to_list m;
     range_visits := fun V m => reflexivity (map_to_list m) |}.

Definition definitions : Definitions :=
  {| AttributeDN := "dn"; AttributeLogin := "uid";
     IdentifiedUserIDClaim := "kc.identity" |}.

Definition backend (mapping : option (list string)) : LDAPIdentifierBackend :=
  {| addr := "ldap.example:389"; isTLS := false;
     bindDN := "cn=reader,dc=example"; bindPassword := "readonly";
     baseDN := "dc=example"; scope := ScopeWholeSubtree;
     searchFilter := "(&((objectClass=inetOrgPerson))(uid=%s))";
     getFilter := "(objectClass=inetOrgPerson)";
     entryIDMapping := mapping;
     attributeMapping := {[ "uid" := "uid"; "mail" := "mail" ]};
     timeout := 60 |}.

Definition aliceEntry : Entry :=
  {| DN := "uid=alice,dc=example";
     Attributes := [ {| Name := "uid"; Values := ["Alice"] |};
                     {| Name := "mail"; Values := ["alice@example.com"; "a&b=c d"] |} ] |}.

Definition bobEntry (ou : string) : Entry :=
  {| DN := "uid=bob,ou=" +:+ ou +:+ ",dc=example";
     Attributes := [ {| Name := "uid"; Values := ["bob"] |} ] |}.

Definition filterFor (username : string) : string :=
  "(&((objectClass=inetOrgPerson))(uid=" +:+ username +:+ "))".

Definition conn : Conn :=
  {| Bind := fun dn password =>
       if decide (dn = "cn=reader,dc=example" /\ password = "readonly"
                  \/ dn = "uid=alice,dc=example" /\ password = "secret")
       then None
       else Some (NewError LDAPResultInvalidCredentials None);
     Search := fun req =>
       if decide (Filter req = filterFor "alice"
                  \/ Filter req = "(&(objectClass=inetOrgPerson)(mail=alice@example.com)(mail=a&b=c d)(uid=Alice))")
       then Ok {| Entries := [aliceEntry] |}
       else if decide (Filter req = filterFor "bob")
            then Ok {| Entries := [bobEntry "sales"; bobEntry "dev"] |}
       else if decide (Filter req = filterFor "down")
            then Err (NewError 52 (Some (OtherError "unavailable")))
       else Ok {| Entries := [] |} |}.

Definition network : Network :=
  {| limiter_Wait := None; DialContext := fun _ _ => None; Handshake := None;
     server := conn |}.

(** The same server behind a dialer that fails. *)
Definition offline : Network :=
  {| limiter_Wait := None;
     DialContext := fun _ _ => Some (OtherError "connection refused");
     Handshake := None; server := conn |}.

End directory.

(* ===================================================================== *)
(** ** Package identifier, continued: [handleLogoff], [handleConsent]     *)
(* ===================================================================== *)

Module tickets.
Import http identifier.

Record StateRequest := {
  State : string;
}.

Record StateResponse := {
  ResponseState : string;
  Success : bool;
}.

Record ConsentRequest := {
  ConsentState : string;
  Allow : bool;
  RawScope : string;
  ClientID : string;
  RawRedirectURI : string;
}.

Record Consent := {
  ConsentAllow : bool;
  ConsentRawScope : string;
}.

(** The events of the two handlers: those of the other handlers, the JSON
    body of a [StateResponse], and the calls that clear the logon cookie
    and seal the consent cookie. *)
Inductive TicketEvent : Type :=
| Base (e : Event)
| WriteStateJSON (status : Z) (response : StateResponse)
| CallRemoveLogonCookie
| CallSetConsentCookie (r : ConsentRequest) (consent : Consent).

(** What the two handlers call besides the [Runtime] of the others:
    [json.Decoder.Decode] into their request types, [removeLogonCookie]
    and [setConsentCookie]. *)
Record Tickets := {
  DecodeStateRequest : string -> result error StateRequest;
  DecodeConsentRequest : string -> result error ConsentRequest;
  removeLogonCookie : option error;
  setConsentCookie : Request -> ConsentRequest -> Consent -> option error;
}.

Section Handlers.
Context (rt : Runtime) (tk : Tickets).

(** When writing the body failed, the error is logged. *)
Definition logWrite (message : string) : list TicketEvent :=
  match WriteJSON rt with
  | Some err => [Base (Log Error message (Some err))]
  | None => []
  end.

Definition handleLogoff (req : Request) : list TicketEvent :=
  match DecodeStateRequest tk (Body req) with
  | Err err =>
      [Base (Log Debug "identifier failed to decode logoff request" (Some err));
       Base (ErrorPage StatusBadRequest "" "failed to decode request JSON")]
  | Ok r =>
      Base AddNoCacheResponseHeaders :: CallRemoveLogonCookie ::
      match removeLogonCookie tk with
      | Some err =>
          [Base (Log Error "identifier failed to set logoff ticket" (Some err));
           Base (ErrorPage StatusInternalServerError "" "failed to set logoff ticket")]
      | None =>
          WriteStateJSON StatusOK {| ResponseState := State r; Success := true |}
            :: logWrite "logoff request failed writing response"
      end
  end.

Definition handleConsent (req : Request) : list TicketEvent :=
  match DecodeConsentRequest tk (Body req) with
  | Err err =>
      [Base (Log Debug "identifier failed to decode consent request" (Some err));
       Base (ErrorPage StatusBadRequest "" "failed to decode request JSON")]
  | Ok r =>
      Base AddNoCacheResponseHeaders ::
      if negb (Allow r) then
        [Base (HeaderSet "Kopano-Konnect-State" (ConsentState r));
         Base (WriteHeader StatusNoContent)]
      else
        let consent := {| ConsentAllow := Allow r; ConsentRawScope := RawScope r |} in
        CallSetConsentCookie r consent ::
        match setConsentCookie tk req r consent with
        | Some err =>
            [Base (Log Error "failed to serialize consent ticket" (Some err));
             Base (ErrorPage StatusInternalServerError "" "failed to serialize consent ticket")]
        | None =>
            WriteStateJSON StatusOK {| ResponseState := ConsentState r; Success := true |}
              :: logWrite "logoff request failed writing response"
        end
  end.

End Handlers.

End tickets.

(* ===================================================================== *)
(** ** Package backends, continued: lookup by user name, construction     *)
(* ===================================================================== *)

Module configuration.
Import ldap backends.

(** What [url.Parse] gives of the server URI, and [URL.Port]. *)
Record URL := {
  Scheme : string;
  Host : string;
}.

Record Parser := {
  Parse : string -> result error URL;
  Port : URL -> string;
}.

(** The other attribute names of package [ldapDefinitions]. *)
Record AttributeNames := {
  AttributeEmail : string;
  AttributeName : string;
  AttributeFamilyName : string;
  AttributeGivenName : string;
  AttributeUUID : string;
  AttributeValueTypeText : string;
}.

Section Configuration.
Context (rt : Runtime) (defs : Definitions) (names : AttributeNames) (parser : Parser).

(** [ResolveUserByUsername].  The result stands for
    [newLdapUser(entry.DN, mapping, entry)]; no user is [Ok None]. *)
Definition ResolveUserByUsername (b : LDAPIdentifierBackend) (net : Network)
    (username : string) : result error (option (string * Entry)) :=
  let loginAttributeName := default EmptyString (attributeMapping b !! AttributeLogin defs) in
  if decide (loginAttributeName = EmptyString) then
    Err (Errorf "ldap identifier backend resolve impossible as no login attribute is set")
  else
    match connect b net with
    | Err err => Err (ErrorfErr "ldap identifier backend resolve connect error: %v" err)
    | Ok l =>
        match searchUsername rt b l username (attributes rt defs (attributeMapping b)) with
        | Err err =>
            if IsErrorWithCode (Some err) LDAPResultNoSuchObject then Ok None
            else Err (ErrorfErr "ldap identifier backend resolve search error: %v" err)
        | Ok entry =>
            if negb (EqualFold rt (GetAttributeValue entry loginAttributeName) username)
            then Err (Errorf "ldap identifier backend resolve search returned wrong user")
            else Ok (Some (DN entry, entry))
        end
    end.

(** [ldapDefaultAttributeMapping], its entries in the order of the
    literal. *)
Definition ldapDefaultAttributeMapping : gmap string string :=
  <[AttributeUUID names +:+ "_type" := AttributeValueTypeText names]>
  (<[AttributeUUID names := AttributeUUID names]>
  (<[AttributeGivenName names := AttributeGivenName names]>
  (<[AttributeFamilyName names := AttributeFamilyName names]>
  (<[AttributeName names := AttributeName names]>
  (<[AttributeEmail names := AttributeEmail names]>
  (<[AttributeLogin defs := AttributeLogin defs]> ∅)))))).

(** The first loop of [NewLDAPIdentifierBackend]: the checks of the
    arguments, giving the scope and the parsed URI. *)
Definition checkArguments (uriString bindDN bindPassword baseDN scopeString : string)
  : result error (Z * URL) :=
  if decide (uriString = EmptyString) then Err (Errorf "server must not be empty")
  else
    match Parse parser uriString with
    | Err err => Err err
    | Ok uri =>
        if decide (bindDN = EmptyString /\ bindPassword <> EmptyString) then
          Err (Errorf "bind DN must not be empty when bind password is given")
        else if decide (baseDN = EmptyString) then
          Err (Errorf "base DN must not be empty")
        else if decide (scopeString = "sub") then Ok (ScopeWholeSubtree, uri)
        else if decide (scopeString = "one") then Ok (ScopeSingleLevel, uri)
        else if decide (scopeString = "base") then Ok (ScopeBaseObject, uri)
        else if decide (scopeString = EmptyString) then Ok (ScopeWholeSubtree, uri)
        else Err (ErrorfStr "unknown scope value: %v, must be one of sub, one or base"
                    scopeString)
    end.

(** The loop that fills [attributeMapping]: every default entry, with the
    mapped attribute in place of the default when one is given and not
    empty. *)
Definition mapAttributes (mappedAttributes : gmap string string) : gmap string string :=
  foldl (fun attributeMapping kv =>
           let v := match mappedAttributes !! kv.1 with
                    | Some mapped => if decide (mapped <> EmptyString) then mapped else kv.2
                    | None => kv.2
                    end in
           <[kv.1 := v]> attributeMapping)
        ∅ (range rt ldapDefaultAttributeMapping).

(** The switch on the URI scheme: the address with its default port and
    whether TLS is used. *)
Definition address (uri : URL) : result error (string * bool) :=
  if decide (Scheme uri = EmptyString \/ Scheme uri = "ldap") then
    Ok (if decide (Port parser uri = EmptyString) then Host uri +:+ ":389" else Host uri,
        false)
  else if decide (Scheme uri = "ldaps") then
    Ok (if decide (Port parser uri = EmptyString) then Host uri +:+ ":636" else Host uri,
        true)
  else Err (ErrorfStr "invalid URI scheme: %v" (Scheme uri)).

Definition NewLDAPIdentifierBackend
    (uriString bindDN bindPassword baseDN scopeString filter : string)
    (subAttributes : list string) (mappedAttributes : gmap string string)
  : result error LDAPIdentifierBackend :=
  match checkArguments uriString bindDN bindPassword baseDN scopeString with
  | Err err => Err (ErrorfErr "ldap identifier backend %v" err)
  | Ok (scope, uri) =>
      let attributeMapping := mapAttributes mappedAttributes in
      let filter :=
        if decide (filter = EmptyString) then "(objectClass=inetOrgPerson)" else filter in
      let loginAttribute :=
        default EmptyString (attributeMapping !! AttributeLogin defs) in
      match address uri with
      | Err err => Err (ErrorfErr "ldap identifier backend %v" err)
      | Ok (addr, isTLS) =>
          let entryIDMapping :=
            if decide (0 < length subAttributes)%nat then Some subAttributes else None in
          Ok {| addr := addr;
                isTLS := isTLS;
                bindDN := bindDN;
                bindPassword := bindPassword;
                baseDN := baseDN;
                scope := scope;
                searchFilter := "(&(" +:+ filter +:+ ")(" +:+ loginAttribute +:+ "=%s))";
                getFilter := filter;
                entryIDMapping := entryIDMapping;
                attributeMapping := attributeMapping;
                timeout := 60 |}
      end
  end.

End Configuration.

End configuration.

(** Concrete surroundings for the construction of a backend and for the
    two ticket handlers. *)
Module setup.
Import ldap backends configuration.

(** The attribute names as package [ldapDefinitions] has them. *)
Definition names : AttributeNames :=
  {| AttributeEmail := "mail"; AttributeName := "cn";
     AttributeFamilyName := "sn"; AttributeGivenName := "givenName";
     AttributeUUID := "uuid"; AttributeValueTypeText := "text" |}.

(** A stand-in for [url.Parse] on the URIs of the examples: the scheme is
    the text before [://], the host the text from there to the next [/];
    a text without [:] is a host without scheme.  [Port] is the text after
    the [:] of the host. *)
Definition parse (s : string) : result error URL :=
  let '(scheme, rest, found) := url.Cut s ":" in
  if found then
    match rest with
    | String "/" (String "/" host) =>
        Ok {| Scheme := scheme; Host := (url.Cut host "/").1.1 |}
    | _ => Err (Errorf "parse: first path segment in URL cannot contain colon")
    end
  else Ok {| Scheme := EmptyString; Host := s |}.

Definition parser : Parser :=
  {| Parse := parse; Port := fun uri => (url.Cut (Host uri) ":").1.2 |}.

(** Ticket handling that decodes every body to the given requests and
    whose cookies never fail. *)
Definition tickets (state : string) (allow : bool) : tickets.Tickets :=
  {| tickets.DecodeStateRequest := fun _ => Ok {| tickets.State := state |};
     tickets.DecodeConsentRequest := fun _ =>
       Ok {| tickets.ConsentState := state; tickets.Allow := allow;
             tickets.RawScope := "openid profile"; tickets.ClientID := "client";
             tickets.RawRedirectURI := "https://rp.example/cb" |};
     tickets.removeLogonCookie := None;
     tickets.setConsentCookie := fun _ _ _ => None |}.

End setup.

(* ===================================================================== *)
(** ** Vocabulary of the statements                                       *)
(* ===================================================================== *)

Section HandlerStatements.
Import http identifier.

(** What a rejected request gets: the reason is logged, the client sees a
    bare 400 page, and the wrapped handler is not run. *)
Definition rejected (reason : string) : M unit :=
  ([Log Warn "rejecting identifier HTTP request" (Some reason);
    ErrorPage StatusBadRequest "" ""], Ok tt).

(** The answer 204 with the echoed state, as a computation. *)
Definition answeredNoContent (before : list Event) (state : string) : M unit :=
  (before ++ [HeaderSet "Kopano-Konnect-State" state; WriteHeader StatusNoContent],
   Ok tt).

(** Whether a computation ends in an index-out-of-range panic. *)
Definition outOfRange {A} (m : M A) : bool :=
  match m.2 with
  | Err IndexOutOfRange => true
  | _ => false
  end.

(** The flows for which [newHelloResponse] looks the client up. *)
Definition clientFlow (c : Constants) (flow : string) : Prop :=
  flow = FlowOAuth c \/ flow = FlowConsent c \/ flow = FlowOIDC c.

End HandlerStatements.

Section BackendStatements.
Import ldap backends.

(** The login attribute [Logon] reads from the mapping. *)
Definition loginAttribute (defs : Definitions) (b : LDAPIdentifierBackend) : string :=
  default EmptyString (attributeMapping b !! AttributeLogin defs).

(** The request [searchUsername] sends for [username]. *)
Definition usernameSearch (rt : Runtime) (defs : Definitions)
    (b : LDAPIdentifierBackend) (username : string) : SearchRequest :=
  NewSearchRequest (baseDN b) (scope b) NeverDerefAliases 1 (timeout b) false
    (Sprintf rt (searchFilter b) username)
    (attributes rt defs (attributeMapping b)) [].


(** [Logon] has failed to attempt: an error and no success. *)
Definition fatal (r : LogonResult) : Prop :=
  is_Some (err r) /\ success r = false.

(** The values of [k] that go into the entry ID: those of the entry, when
    [k] is mapped and the entry has some. *)
Definition mappedValues (mapping : list string) (entry : Entry) (k : string)
  : option (list string) :=
  if decide (k ∈ mapping /\ GetAttributeValues entry k <> [])
  then Some (GetAttributeValues entry k) else None.




End BackendStatements.

Section QueryStatements.
Import url.

(** A byte that separates nothing in a query: not [&], [;] or [=]. *)
Definition plain (c : ascii) : bool :=
  negb (Ascii.eqb c "&") && negb (Ascii.eqb c ";") && negb (Ascii.eqb c "=").

Fixpoint allPlain (s : string) : bool :=
  match s with
  | EmptyString => true
  | String c r => plain c && allPlain r
  end.

(** One [key=value] segment of an encoded query. *)
Definition segment (kv : string * string) : string :=
  QueryEscape kv.1 +:+ "=" +:+ QueryEscape kv.2.

(** What [parseQuery] does to the map for one decoded pair:
    [m[key] = append(m[key], value)]. *)
Definition add (m : Values) (kv : string * string) : Values :=
  <[kv.1 := default [] (m !! kv.1) ++ [kv.2]]> m.

(** The keys of [v] in the order [Encode] writes them, and the pairs it
    writes: for each key its values in their own order. *)
Definition sortedKeys (v : Values) : list string :=
  merge_sort String.le (map_to_list v).*1.

Definition pairsOf (v : Values) (keys : list string) : list (string * string) :=
  flat_map (fun k => pair k <$> default [] (v !! k)) keys.

(** Every list of values stored in [v] has an element. *)
Definition populated (v : Values) : Prop :=
  forall k vs, v !! k = Some vs -> vs <> [].

(** The buffer discipline of [Encode]: [&] before every segment but the
    first. *)
Definition write (buf s : string) : string :=
  (if decide (buf = EmptyString) then buf else buf +:+ "&") +:+ s.

End QueryStatements.

Section FurtherHandlerStatements.
Import http identifier.

(** The header the middleware compares with the request's Host: Origin
    when it is there, Referer otherwise. *)
Definition provenance (req : Request) : string :=
  if decide (Get (Headers req) "Origin" <> EmptyString)
  then Get (Headers req) "Origin" else Get (Headers req) "Referer".

(** The requests the middleware lets through. *)
Definition admitted (rt : Runtime) (req : Request) : Prop :=
  Get (Headers req) "Kopano-Konnect-XSRF" = "1"
  /\ provenance req <> EmptyString
  /\ url_Parse rt (provenance req) = Ok (Host req).

(** The events that answer the client: an error page, a bare status, a
    JSON body. *)
Definition isResponse (e : Event) : bool :=
  match e with
  | ErrorPage _ _ _ | WriteHeader _ | WriteLogonJSON _ _ | WriteHelloJSON _ _ => true
  | _ => false
  end.

Definition responses (t : list Event) : nat := length (filter (fun e => isResponse e = true) t).

(** How often a finished computation must have answered: once, unless it
    panicked before. *)
Definition answered {A} (m : M A) : nat :=
  match m.2 with
  | Ok _ => 1%nat
  | Err _ => 0%nat
  end.

(** Where the user of a Logon may come from, given [params]: the logon
    cookie (empty password, mode ["1"], same user name), the proxy header
    (equal to the user name, resolved by the backend), or the backend's
    check of a non-empty password (mode ["1"], no proxy header). *)
Definition fromCookie (i : Identifier) (req : Request) (params : list string)
    (p0 : string) (u : IdentifiedUser) : Prop :=
  params !! 1%nat = Some EmptyString /\ params !! 2%nat = Some "1"
  /\ (GetUserFromLogonCookie i req).1 = Some u /\ Username u = p0.

Definition fromProxy (i : Identifier) (req : Request) (p0 : string)
    (u : IdentifiedUser) : Prop :=
  Get (Headers req) "X-Forwarded-User" = p0 /\ p0 <> EmptyString
  /\ resolveUser i p0 = (Some u, None).

Definition fromPassword (i : Identifier) (req : Request) (params : list string)
    (p0 : string) (u : IdentifiedUser) : Prop :=
  Get (Headers req) "X-Forwarded-User" = EmptyString
  /\ exists p1 s,
       params !! 1%nat = Some p1 /\ p1 <> EmptyString /\ params !! 2%nat = Some "1"
       /\ backend_Logon i p0 p1 = (true, Some s, None)
       /\ u = {| sub := s; username := p0; displayName := EmptyString |}.

(** How many events of a trace satisfy [P]. *)
Definition count (P : Event -> bool) (t : list Event) : nat :=
  length (filter (fun e => P e = true) t).

Definition asksBackend (e : Event) : bool :=
  match e with CallBackendLogon _ _ => true | _ => false end.

Definition writesLogonJSON (e : Event) : bool :=
  match e with WriteLogonJSON _ _ => true | _ => false end.

Definition setsLogonCookie (e : Event) : bool :=
  match e with CallSetLogonCookie _ => true | _ => false end.

(** The identity a Hello starts from: the user handed in by the caller, or
    else the user of the logon cookie. *)
Definition knownUser (i : Identifier) (req : Request)
    (identifiedUser : option IdentifiedUser) : option IdentifiedUser :=
  match identifiedUser with
  | Some u => Some u
  | None => (GetUserFromLogonCookie i req).1
  end.

(** Whether consent is forced: asked for by prompt, or the client is not
    trusted. *)
Definition consentForced (c : Constants) (r : HelloRequest.t) (details : Details) : bool :=
  isSet (HelloRequest.Prompts r) (PromptConsent c) || negb (Trusted details).

End FurtherHandlerStatements.

Section FurtherBackendStatements.
Import ldap backends.

(** A call that returned no error. *)
Definition succeeds {E A} (r : result E A) : Prop := exists a, r = Ok a.

(** The attribute a logical name is mapped to: the one given for it when
    that is not empty, the default otherwise. *)
Definition mappedTo (mappedAttributes : gmap string string) (k v : string) : string :=
  match mappedAttributes !! k with
  | Some mapped => if decide (mapped <> EmptyString) then mapped else v
  | None => v
  end.

End FurtherBackendStatements.

(* ===================================================================== *)
(** * Sanity checks: the models run                                       *)
(* ===================================================================== *)

Example QueryEscape_ex :
  url.QueryEscape "a b&c=d/é" = "a+b%26c%3Dd%2F%C3%A9".
Proof. reflexivity. Qed.

Example ParseQuery_ex :
  url.ParseQuery "mail=a%40b&uid=x+y&uid=z"
  = ({[ "mail" := ["a@b"]; "uid" := ["x y"; "z"] ]}, None).
Proof. vm_compute. reflexivity. Qed.

Example CanonicalMIMEHeaderKey_ex :
  http.CanonicalMIMEHeaderKey "Kopano-Konnect-XSRF" = "Kopano-Konnect-Xsrf".
Proof. reflexivity. Qed.

Example handleLogon_alice_secret :
  identifier.handleLogon examples.constants
    (examples.runtime (examples.logonOf ["alice"; "secret"; "1"] None)
       (examples.helloOf [] ""))
    examples.identifier (examples.request examples.secured)
  = ([identifier.AddNoCacheResponseHeaders;
      identifier.CallBackendLogon "alice" "secret";
      identifier.CallUpdateUser
        {| identifier.sub := "uid=alice,dc=example";
           identifier.username := "alice"; identifier.displayName := "" |};
      identifier.CallSetLogonCookie
        {| identifier.sub := "uid=alice,dc=example";
           identifier.username := "alice"; identifier.displayName := "" |};
      identifier.WriteLogonJSON 200
        {| identifier.LogonResponse.State := "st8";
           identifier.LogonResponse.Success := true;
           identifier.LogonResponse.Hello := None |}], Ok tt).
Proof. vm_compute. reflexivity. Qed.

Example handleLogon_alice_empty :
  identifier.handleLogon examples.constants
    (examples.runtime (examples.logonOf ["alice"; ""; ""] None)
       (examples.helloOf [] ""))
    examples.identifier (examples.request examples.secured)
  = ([identifier.AddNoCacheResponseHeaders;
      identifier.HeaderSet "Kopano-Konnect-State" "st8";
      identifier.WriteHeader 204], Ok tt).
Proof. vm_compute. reflexivity. Qed.

Example Logon_alice_secret :
  backends.Logon directory.runtime directory.definitions (directory.backend None)
    directory.network "" "alice" "secret"
  = {| backends.success := true;
       backends.subject := Some "uid=alice,dc=example";
       backends.sessionRef := None;
       backends.claims := Some {[ "kc.identity" := "uid=alice,dc=example" ]};
       backends.err := None |}.
Proof. vm_compute. reflexivity. Qed.

Example entryIDFromEntry_alice :
  backends.entryIDFromEntry (directory.backend (Some ["uid"; "mail"; "cn"]))
    directory.aliceEntry
  = "mail=alice%40example.com&mail=a%26b%3Dc+d&uid=Alice".
Proof. vm_compute. reflexivity. Qed.

Example baseAndGetFilterFromEntryID_alice :
  backends.baseAndGetFilterFromEntryID directory.runtime
    (directory.backend (Some ["uid"; "mail"; "cn"]))
    "mail=alice%40example.com&mail=a%26b%3Dc+d&uid=Alice"
  = ("dc=example",
     "(&(objectClass=inetOrgPerson)(mail=alice@example.com)(mail=a&b=c d)(uid=Alice))").
Proof. vm_compute. reflexivity. Qed.

(* ===================================================================== *)
(** * Properties of [handlers.go]                                         *)
(* ===================================================================== *)

Section SecurityMiddleware.
Import http identifier.
Context (rt : Runtime) (handler : Request -> M unit).

Lemma secureHandler_Reject req reason :
  screen rt req = Reject (Some reason) ->
  secureHandler rt handler req = rejected reason.
Proof. intros H. unfold secureHandler. rewrite H. reflexivity. Qed.

Lemma secureHandler_Serve req :
  screen rt req = Serve false ->
  secureHandler rt handler req = handler req.
Proof.
  intros H. unfold secureHandler. rewrite H. cbn.
  destruct (handler req) as [t [a|f]]; reflexivity.
Qed.

(** C6: without the XSRF marker the request is rejected with a 400 page
    (whatever else it carries); with an Origin that does not parse to the
    request's Host it is rejected; with the marker and an Origin whose host
    is the request's Host the wrapped handler answers. *)
Theorem secureHandler_marker_and_origin (req : Request) :
  (Get (Headers req) "Kopano-Konnect-XSRF" <> "1" ->
     secureHandler rt handler req = rejected "missing xsrf header")
  /\ (Headers req !! "Kopano-Konnect-Xsrf" = None ->
     secureHandler rt handler req = rejected "missing xsrf header")
  /\ (Get (Headers req) "Origin" <> EmptyString ->
      url_Parse rt (Get (Headers req) "Origin") <> Ok (Host req) ->
      secureHandler rt handler req = rejected "missing xsrf header"
      \/ secureHandler rt handler req = rejected "origin does not match request URL"
      \/ exists e, url_Parse rt (Get (Headers req) "Origin") = Err e
            /\ secureHandler rt handler req = rejected ("invalid origin value: " +:+ e))
  /\ (Get (Headers req) "Kopano-Konnect-XSRF" = "1" ->
      Get (Headers req) "Origin" <> EmptyString ->
      url_Parse rt (Get (Headers req) "Origin") = Ok (Host req) ->
      secureHandler rt handler req = handler req).
Proof.
  assert (Hx : Get (Headers req) "Kopano-Konnect-XSRF" <> "1" ->
               secureHandler rt handler req = rejected "missing xsrf header").
  { intros H. apply secureHandler_Reject. unfold screen.
    destruct (decide _) as [_|n]; [reflexivity | contradiction]. }
  split; [exact Hx|]. split.
  { intros Hnone. apply Hx. unfold Get.
    change (CanonicalMIMEHeaderKey "Kopano-Konnect-XSRF") with "Kopano-Konnect-Xsrf".
    rewrite Hnone. discriminate. }
  split.
  - intros Ho Hp.
    destruct (decide (Get (Headers req) "Kopano-Konnect-XSRF" = "1")) as [Hm|Hm];
      [right | left; auto].
    assert (Hs : screen rt req
      = match url_Parse rt (Get (Headers req) "Origin") with
        | Err e => Reject (Some ("invalid origin value: " +:+ e))
        | Ok host => Reject (Some "origin does not match request URL")
        end).
    { unfold screen.
      destruct (decide (_ <> "1")) as [n|_]; [contradiction|].
      destruct (decide (_ /\ _)) as [[e _]|_]; [contradiction|].
      destruct (decide (_ <> EmptyString)) as [_|n]; [|contradiction].
      destruct (url_Parse rt _) as [host|e]; [|reflexivity].
      destruct (decide (host <> Host req)) as [_|n]; [reflexivity|].
      destruct Hp. f_equal. by destruct (decide (host = Host req)). }
    destruct (url_Parse rt (Get (Headers req) "Origin")) as [host|e].
    + left. by apply secureHandler_Reject.
    + right. exists e. split; [reflexivity | by apply secureHandler_Reject].
  - intros Hm Ho Hp. apply secureHandler_Serve. unfold screen.
    destruct (decide (_ <> "1")) as [n|_]; [contradiction|].
    destruct (decide (_ /\ _)) as [[e _]|_]; [contradiction|].
    destruct (decide (_ <> EmptyString)) as [_|n]; [|contradiction].
    rewrite Hp. destruct (decide (Host req <> Host req)); [contradiction | reflexivity].
Qed.

(** C2, as the code has it: a request with the XSRF marker and neither
    Origin nor Referer is rejected with a 400 page; the wrapped handler is
    not run and no "insecure" warning is logged. *)
Theorem secureHandler_no_origin_no_referer (req : Request) :
  Get (Headers req) "Kopano-Konnect-XSRF" = "1" ->
  Get (Headers req) "Origin" = EmptyString ->
  Get (Headers req) "Referer" = EmptyString ->
  secureHandler rt handler req = rejected "missing origin or referer header".
Proof.
  intros Hm Ho Hr. apply secureHandler_Reject. unfold screen.
  destruct (decide (_ <> "1")) as [n|_]; [contradiction|].
  destruct (decide (_ /\ _)) as [_|n]; [reflexivity|].
  exfalso. apply n. split; assumption.
Qed.

End SecurityMiddleware.

(** C6 on concrete requests: no marker, a foreign Origin, a matching
    Origin. *)
Lemma secureHandler_marker_and_origin_witness :
  identifier.secureHandler (examples.runtime (examples.logonOf [] None) (examples.helloOf [] ""))
    examples.okHandler (examples.request [("Origin", "https://idp.example")])
  = rejected "missing xsrf header"
  /\ identifier.secureHandler (examples.runtime (examples.logonOf [] None) (examples.helloOf [] ""))
    examples.okHandler
    (examples.request [("Kopano-Konnect-Xsrf", "1"); ("Origin", "https://evil.example")])
  = rejected "origin does not match request URL"
  /\ identifier.secureHandler (examples.runtime (examples.logonOf [] None) (examples.helloOf [] ""))
    examples.okHandler (examples.request examples.secured)
  = examples.okHandler (examples.request examples.secured).
Proof.
  split; [|split].
  - apply (proj1 (proj2 (secureHandler_marker_and_origin _ examples.okHandler
             (examples.request [("Origin", "https://idp.example")])))).
    vm_compute. reflexivity.
  - destruct (proj1 (proj2 (proj2 (secureHandler_marker_and_origin
        (examples.runtime (examples.logonOf [] None) (examples.helloOf [] ""))
        examples.okHandler
        (examples.request [("Kopano-Konnect-Xsrf", "1"); ("Origin", "https://evil.example")])))))
        as [H|[H|(e & H & _)]].
    + vm_compute. discriminate.
    + vm_compute. discriminate.
    + vm_compute in H. discriminate H.
    + exact H.
    + vm_compute in H. discriminate H.
  - apply (proj2 (proj2 (proj2 (secureHandler_marker_and_origin _ examples.okHandler
             (examples.request examples.secured))))); vm_compute; try reflexivity; discriminate.
Defined.

(** C2 as stated fails: the marker is there, Origin and Referer are not,
    and the request is blocked with a 400 page instead of being served. *)
Lemma secureHandler_no_origin_no_referer_blocked :
  identifier.secureHandler (examples.runtime (examples.logonOf [] None) (examples.helloOf [] ""))
    examples.okHandler (examples.request [("Kopano-Konnect-Xsrf", "1")])
  = ([identifier.Log identifier.Warn "rejecting identifier HTTP request"
        (Some "missing origin or referer header");
      identifier.ErrorPage 400 "" ""], Ok tt).
Proof. vm_compute. reflexivity. Qed.

(** C2, amended, on the same request. *)
Lemma secureHandler_no_origin_no_referer_witness :
  identifier.secureHandler (examples.runtime (examples.logonOf [] None) (examples.helloOf [] ""))
    examples.okHandler (examples.request [("Kopano-Konnect-Xsrf", "1")])
  = rejected "missing origin or referer header".
Proof.
  apply secureHandler_no_origin_no_referer; vm_compute; reflexivity.
Defined.

Section Hello.
Import http identifier.
Context (c : Constants) (rt : Runtime) (i : Identifier).

(** With prompt none the labelled loop returns the error at once. *)
Lemma newHelloResponse_none req r user :
  isSet (HelloRequest.Prompts r) (PromptNone c) = true ->
  newHelloResponse c i req r user = ([], Ok (None, Some "prompt none requested")).
Proof.
  intros H. unfold newHelloResponse, helloLoop. rewrite H. reflexivity.
Qed.

(** With prompt login (and not none) the loop is left before any source
    of identity is read. *)
Lemma newHelloResponse_login req r user :
  isSet (HelloRequest.Prompts r) (PromptNone c) = false ->
  isSet (HelloRequest.Prompts r) (PromptLogin c) = true ->
  newHelloResponse c i req r user
  = ([], Ok (Some (HelloResponse.new (HelloRequest.State r)), None)).
Proof.
  intros H0 H. unfold newHelloResponse, helloLoop. rewrite H0, H. reflexivity.
Qed.

(** C3, as the code has it: a Hello request whose prompts include none is
    answered with a 400 error page carrying "prompt none requested",
    whatever the cookie and the other collaborators say. *)
Theorem handleHello_prompt_none (req : Request) (r0 r : HelloRequest.t) :
  DecodeHelloRequest rt (Body req) = Ok r0 ->
  parse rt r0 = Ok r ->
  isSet (HelloRequest.Prompts r) (PromptNone c) = true ->
  handleHello c rt i req
  = ([AddNoCacheResponseHeaders;
      Log Debug "rejecting identifier hello request" (Some "prompt none requested");
      ErrorPage StatusBadRequest "" "prompt none requested"], Ok tt).
Proof.
  intros Hd Hp Hn. unfold handleHello. rewrite Hd, Hp.
  rewrite (newHelloResponse_none _ _ _ Hn). reflexivity.
Qed.

(** C7: when the prompts include login, [newHelloResponse] produces no
    event at all (so the logon cookie is never decoded) and its result is
    fixed by the request alone: the prompt-none error, or a response with
    no success and no user name. *)
Theorem newHelloResponse_prompt_login (req : Request) (r : HelloRequest.t)
    (user : option IdentifiedUser) :
  isSet (HelloRequest.Prompts r) (PromptLogin c) = true ->
  newHelloResponse c i req r user
  = ([], Ok (if isSet (HelloRequest.Prompts r) (PromptNone c)
             then (None, Some "prompt none requested")
             else (Some (HelloResponse.new (HelloRequest.State r)), None)))
  /\ CallGetUserFromLogonCookie ∉ trace (newHelloResponse c i req r user).
Proof.
  intros H.
  assert (E : newHelloResponse c i req r user
     = ([], Ok (if isSet (HelloRequest.Prompts r) (PromptNone c)
             then (None, Some "prompt none requested")
             else (Some (HelloResponse.new (HelloRequest.State r)), None)))).
  { destruct (isSet (HelloRequest.Prompts r) (PromptNone c)) eqn:Hn.
    - apply newHelloResponse_none, Hn.
    - apply newHelloResponse_login; assumption. }
  split; [exact E|]. rewrite E. apply not_elem_of_nil.
Qed.

(** C8, as the code has it: a success response to a Hello request whose
    flow is OAuth, consent or OIDC carries the authorization endpoint as
    continuation URI (and echoes the flow). *)
Theorem newHelloResponse_success_continue (req : Request) (r : HelloRequest.t)
    (user : option IdentifiedUser) (t : list Event) (response : HelloResponse.t) :
  newHelloResponse c i req r user = (t, Ok (Some response, None)) ->
  HelloResponse.Success response = true ->
  clientFlow c (HelloRequest.Flow r) ->
  HelloResponse.ContinueURI response = authorizationEndpointURI i
  /\ HelloResponse.Flow response = HelloRequest.Flow r.
Proof.
  unfold newHelloResponse, clientFlow. intros E Hs Hf.
  destruct (helloLoop c i req r user) as [t0 [[resp|e]|f]]; cbn in E;
    try discriminate E.
  destruct (HelloResponse.Success resp) eqn:Hresp; cbn in E.
  - destruct (decide _) as [_|n]; [|contradiction].
    cbn in E.
    destruct (clients_Lookup i _ _) as [details [e|]]; cbn in E.
    + try rewrite app_nil_r in E. inversion E.
    + destruct details as [d|]; cbn in E; [|discriminate E].
      inversion E; subst. split; reflexivity.
  - try rewrite app_nil_r in E. inversion E; subst. congruence.
Qed.

(** For any other flow the success response is returned as the loop left
    it, with an empty continuation URI. *)
Lemma newHelloResponse_success_other_flow req r user t response :
  newHelloResponse c i req r user = (t, Ok (Some response, None)) ->
  ~ clientFlow c (HelloRequest.Flow r) ->
  HelloResponse.ContinueURI response = EmptyString.
Proof.
  unfold newHelloResponse, clientFlow. intros E Hf.
  assert (L : forall t0 resp, helloLoop c i req r user = (t0, Ok (Ok resp)) ->
              HelloResponse.ContinueURI resp = EmptyString).
  { unfold helloLoop, logIf, bind, emit, ret. intros t0 resp H.
    repeat (case_match; simplify_eq/=); reflexivity. }
  destruct (helloLoop c i req r user) as [t0 [[resp|e]|f]] eqn:HL; cbn in E;
    try discriminate E.
  specialize (L _ _ eq_refl).
  destruct (HelloResponse.Success resp); cbn in E.
  - destruct (decide _) as [|_]; [contradiction|].
    try rewrite app_nil_r in E. inversion E; subst. exact L.
  - try rewrite app_nil_r in E. inversion E; subst. exact L.
Qed.

End Hello.

(** C3 as stated fails: with prompt none the client gets a 400 error page,
    not a 204 without content, although the cookie names a user. *)
Lemma handleHello_prompt_none_is_400 :
  identifier.handleHello examples.constants
    (examples.runtime (examples.logonOf [] None) (examples.helloOf ["none"] "oidc"))
    examples.identifier (examples.request examples.secured)
  = ([identifier.AddNoCacheResponseHeaders;
      identifier.Log identifier.Debug "rejecting identifier hello request"
        (Some "prompt none requested");
      identifier.ErrorPage 400 "" "prompt none requested"], Ok tt).
Proof. vm_compute. reflexivity. Qed.

(** C3, amended, on the same request. *)
Lemma handleHello_prompt_none_witness :
  identifier.handleHello examples.constants
    (examples.runtime (examples.logonOf [] None) (examples.helloOf ["none"] "oidc"))
    examples.identifier (examples.request examples.secured)
  = ([identifier.AddNoCacheResponseHeaders;
      identifier.Log identifier.Debug "rejecting identifier hello request"
        (Some "prompt none requested");
      identifier.ErrorPage http.StatusBadRequest "" "prompt none requested"], Ok tt).
Proof.
  apply (handleHello_prompt_none examples.constants _ examples.identifier
           (examples.request examples.secured)
           (examples.helloOf ["none"] "oidc") (examples.helloOf ["none"] "oidc"));
    vm_compute; reflexivity.
Defined.

(** C7 on a request with prompt login and a cookie that names alice: the
    response names nobody. *)
Lemma newHelloResponse_prompt_login_witness :
  identifier.newHelloResponse examples.constants examples.identifier
    (examples.request examples.secured) (examples.helloOf ["login"] "oidc") None
  = ([], Ok (Some (identifier.HelloResponse.new "st8"), None)).
Proof.
  apply (newHelloResponse_prompt_login examples.constants examples.identifier
           (examples.request examples.secured) (examples.helloOf ["login"] "oidc") None).
  vm_compute. reflexivity.
Defined.

(** C8 as stated fails: a Hello request with an empty flow and a valid
    cookie succeeds, and its response has no continuation URI. *)
Lemma newHelloResponse_success_without_continue :
  identifier.newHelloResponse examples.constants examples.identifier
    (examples.request examples.secured) (examples.helloOf [] "") None
  = ([identifier.CallGetUserFromLogonCookie],
     Ok (Some {| identifier.HelloResponse.State := "st8";
                 identifier.HelloResponse.Flow := "";
                 identifier.HelloResponse.Success := true;
                 identifier.HelloResponse.Username := "alice";
                 identifier.HelloResponse.DisplayName := "Alice";
                 identifier.HelloResponse.Next := "";
                 identifier.HelloResponse.ContinueURI := "";
                 identifier.HelloResponse.RequestedScopes := ∅;
                 identifier.HelloResponse.ClientDetails := None |}, None)).
Proof. vm_compute. reflexivity. Qed.

(** C8, amended, on the same request with the flow [oidc]. *)
Lemma newHelloResponse_success_continue_witness :
  identifier.HelloResponse.ContinueURI
    {| identifier.HelloResponse.State := "st8";
       identifier.HelloResponse.Flow := "oidc";
       identifier.HelloResponse.Success := true;
       identifier.HelloResponse.Username := "alice";
       identifier.HelloResponse.DisplayName := "Alice";
       identifier.HelloResponse.Next := "";
       identifier.HelloResponse.ContinueURI := "https://idp.example/authorize";
       identifier.HelloResponse.RequestedScopes := ∅;
       identifier.HelloResponse.ClientDetails := None |}
  = "https://idp.example/authorize"
  /\ "oidc" = "oidc".
Proof.
  apply (newHelloResponse_success_continue examples.constants examples.identifier
           (examples.request examples.secured) (examples.helloOf [] "oidc") None
           [identifier.CallGetUserFromLogonCookie;
            identifier.CallClientsLookup "client" "https://rp.example/cb"]).
  - vm_compute. reflexivity.
  - reflexivity.
  - right; right. reflexivity.
Defined.

Section Logon.
Import http identifier.
Context (c : Constants) (rt : Runtime) (i : Identifier).




End Logon.

Section LogonParams.
Import http identifier.
Context (c : Constants) (rt : Runtime) (i : Identifier).

Lemma outOfRange_bind {A B} (m : M A) (k : A -> M B) :
  outOfRange m = false ->
  (forall a, outOfRange (k a) = false) ->
  outOfRange (bind m k) = false.
Proof.
  unfold outOfRange, bind. destruct m as [t [a|f]]; cbn; intros Hm Hk.
  - specialize (Hk a). destruct (k a) as [t' r']. exact Hk.
  - exact Hm.
Qed.

Lemma outOfRange_logIf err level message : outOfRange (logIf err level message) = false.
Proof. destruct err; reflexivity. Qed.

Lemma outOfRange_deref {A} (p : option A) : outOfRange (deref p) = false.
Proof. destruct p; reflexivity. Qed.

Lemma len_cons x (l : list string) : len (x :: l) = 1 + len l.
Proof. unfold len. cbn [length]. lia. Qed.

Lemma len_nonneg (l : list string) : 0 <= len l.
Proof. unfold len. lia. Qed.

(** Decides the length tests of the loop on a list of known shape. *)
Ltac len_decide :=
  repeat match goal with
  | |- context [bool_decide (Z.of_nat ?n >= ?k)] =>
      first [ rewrite (bool_decide_eq_true_2 (Z.of_nat n >= k)) by lia
            | rewrite (bool_decide_eq_false_2 (Z.of_nat n >= k)) by lia ]
  end.

Lemma logonLoop_in_range req params : outOfRange (logonLoop i req params) = false.
Proof.
  unfold logonLoop, passiveReuse, andThen.
  destruct params as [|p0 [|p1 [|p2 rest]]].
  all: unfold len; cbn [length]; unfold index, logIf, deref, bind, emit, ret, panic, outOfRange.
  all: repeat first
    [ progress cbn -[Z.of_nat]
    | progress len_decide
    | case_bool_decide
    | case_decide
    | progress simplify_eq/=
    | case_match ]; done.
Qed.

Lemma newHelloResponse_in_range req r user :
  outOfRange (newHelloResponse c i req r user) = false.
Proof.
  unfold newHelloResponse, helloLoop, logIf, deref, bind, emit, ret, panic, outOfRange.
  repeat first [ progress cbn | case_decide | progress simplify_eq/= | case_match ]; done.
Qed.

Lemma logonHello_in_range req r user : outOfRange (logonHello c rt i req r user) = false.
Proof.
  unfold logonHello.
  destruct (LogonRequest.Hello r) as [h|]; [|reflexivity].
  destruct (parse rt h) as [h'|e]; [|reflexivity].
  apply outOfRange_bind; [apply newHelloResponse_in_range|].
  intros [hello [e|]]; [reflexivity|].
  apply outOfRange_bind; [apply outOfRange_deref|].
  intros resp. destruct (negb _); reflexivity.
Qed.

(** With fewer than three parameters and no proxy header naming
    [params[0]], every branch of the loop is passed over. *)
Lemma logonLoop_short req params :
  (length params < 3)%nat ->
  Get (Headers req) "X-Forwarded-User" = EmptyString
  \/ params !! 0%nat <> Some (Get (Headers req) "X-Forwarded-User") ->
  logonLoop i req params = ([], Ok (Break None)).
Proof.
  intros Hlen Hfwd. unfold logonLoop, passiveReuse, andThen.
  destruct params as [|p0 [|p1 [|p2 rest]]]; cbn in Hlen; try lia.
  all: unfold len; cbn [length]; len_decide; cbn.
  all: destruct (decide (Get (Headers req) "X-Forwarded-User" <> EmptyString))
         as [Hne|He]; cbn; try reflexivity.
  all: destruct Hfwd as [Hfwd|Hfwd]; try contradiction.
  all: try (case_bool_decide as Hp; [exfalso; apply Hfwd; cbn; congruence | reflexivity]).
  all: case_bool_decide; reflexivity.
Qed.

(** C10: for a parameter list of any length the handler never panics on an
    index, and with fewer than three parameters and no proxy header that
    names [params[0]] it answers 204 with only the echoed state. *)
Theorem handleLogon_params_guarded (req : Request) :
  outOfRange (handleLogon c rt i req) = false
  /\ (forall params, outOfRange (logonLoop i req params) = false)
  /\ (forall r,
        DecodeLogonRequest rt (Body req) = Ok r ->
        (length (LogonRequest.Params r) < 3)%nat ->
        Get (Headers req) "X-Forwarded-User" = EmptyString
        \/ LogonRequest.Params r !! 0%nat <> Some (Get (Headers req) "X-Forwarded-User") ->
        handleLogon c rt i req
        = answeredNoContent [AddNoCacheResponseHeaders] (LogonRequest.State r)).
Proof.
  split; [|split].
  - unfold handleLogon.
    destruct (DecodeLogonRequest rt (Body req)) as [r|e]; [|reflexivity].
    apply outOfRange_bind; [reflexivity|]. intros _.
    apply outOfRange_bind; [apply logonLoop_in_range|].
    intros [[user|]|]; try reflexivity.
    destruct (decide _); [reflexivity|].
    apply outOfRange_bind; [reflexivity|]. intros _.
    destruct (updateUser i user) as [user' e].
    apply outOfRange_bind; [apply outOfRange_logIf|]. intros _.
    apply outOfRange_bind; [apply logonHello_in_range|].
    intros [hello|]; [|reflexivity].
    apply outOfRange_bind; [reflexivity|]. intros _.
    destruct (setLogonCookie i user'); [reflexivity|].
    apply outOfRange_bind; [reflexivity|]. intros _. apply outOfRange_logIf.
  - intros params. apply logonLoop_in_range.
  - intros r Hd Hlen Hfwd. unfold handleLogon. rewrite Hd.
    rewrite (logonLoop_short _ _ Hlen Hfwd). reflexivity.
Qed.

End LogonParams.





(** C10 on the one-element parameter list [["alice"]]. *)
Lemma handleLogon_params_guarded_witness :
  identifier.handleLogon examples.constants
    (examples.runtime (examples.logonOf ["alice"] None) (examples.helloOf [] ""))
    examples.identifier (examples.request examples.secured)
  = answeredNoContent [identifier.AddNoCacheResponseHeaders] "st8".
Proof.
  refine (proj2 (proj2 (handleLogon_params_guarded examples.constants
            (examples.runtime (examples.logonOf ["alice"] None) (examples.helloOf [] ""))
            examples.identifier (examples.request examples.secured)))
            (examples.logonOf ["alice"] None) _ _ _).
  - reflexivity.
  - vm_compute. lia.
  - left. vm_compute. reflexivity.
Defined.

(* ===================================================================== *)
(** * Properties of [ldap.go]                                             *)
(* ===================================================================== *)

Section LdapLogon.
Import ldap backends.
Context (rt : Runtime) (defs : Definitions).
Context (b : LDAPIdentifierBackend) (net : Network).
Context (audience username password : string).

Local Abbreviation loginAttribute := (loginAttribute defs b).
Local Abbreviation usernameSearch := (usernameSearch rt defs b username).

Lemma failed_fatal e : fatal (failed e).
Proof. split; [eexists|]; reflexivity. Qed.

(** [Logon] after the connection [l] is there. *)
Lemma Logon_connected l :
  loginAttribute <> EmptyString ->
  connect b net = Ok l ->
  Logon rt defs b net audience username password
  = match searchUsername rt b l username (attributes rt defs (attributeMapping b)) with
    | Err err =>
        if IsErrorWithCode (Some err) LDAPResultNoSuchObject then nonMatch
        else failed (ErrorfErr "ldap identifier backend logon search error: %v" err)
    | Ok entry =>
        if negb (EqualFold rt (GetAttributeValue entry loginAttribute) username)
        then failed (Errorf "ldap identifier backend logon search returned wrong user")
        else
          match Bind l (DN entry) password with
          | Some err =>
              if IsErrorWithCode (Some err) LDAPResultInvalidCredentials
              then nonMatch
              else failed (ErrorfErr "ldap identifier backend logon error: %v" err)
          | None =>
              let entryID := entryIDFromEntry b entry in
              if decide (entryID = EmptyString) then
                failed (ErrorfStr "ldap identifier backend logon entry without entry ID: %v" (DN entry))
              else
                {| success := true; subject := Some entryID; sessionRef := None;
                   claims := Some {[ IdentifiedUserIDClaim defs := entryID ]};
                   err := None |}
          end
    end.
Proof.
  intros Hl Hc. unfold Logon. fold loginAttribute.
  destruct (decide (loginAttribute = EmptyString)) as [|_]; [contradiction|].
  rewrite Hc. reflexivity.
Qed.

Lemma searchUsername_eq l attrs :
  attrs = attributes rt defs (attributeMapping b) ->
  searchUsername rt b l username attrs
  = match Search l usernameSearch with
    | Err err => Err err
    | Ok sr =>
        match Entries sr with
        | [] => Err (NewError LDAPResultNoSuchObject None)
        | [entry] => Ok entry
        | _ => Err (Errorf "user too many entries returned")
        end
    end.
Proof. intros ->. reflexivity. Qed.

(** C1: [Logon] tells a non-match from a failure to attempt.  A success
    never comes with an error; a connect error is fatal; once connected, a
    search without entries (or with the result "no such object") and a bind
    refused with "invalid credentials" give [success=false] and a nil
    error, while two or more entries, any other search error and any other
    bind error are fatal. *)
Theorem Logon_non_match_or_fatal :
  let r := Logon rt defs b net audience username password in
  (success r = true -> err r = None)
  /\ (forall e, connect b net = Err e -> fatal r)
  /\ (forall l,
        loginAttribute <> EmptyString ->
        connect b net = Ok l ->
        (forall sr, Search l usernameSearch = Ok sr -> Entries sr = [] -> r = nonMatch)
        /\ (forall sr e1 e2 rest,
              Search l usernameSearch = Ok sr -> Entries sr = e1 :: e2 :: rest -> fatal r)
        /\ (forall e, Search l usernameSearch = Err e ->
              if IsErrorWithCode (Some e) LDAPResultNoSuchObject
              then r = nonMatch else fatal r)
        /\ (forall sr entry e,
              Search l usernameSearch = Ok sr -> Entries sr = [entry] ->
              EqualFold rt (GetAttributeValue entry loginAttribute) username = true ->
              Bind l (DN entry) password = Some e ->
              if IsErrorWithCode (Some e) LDAPResultInvalidCredentials
              then r = nonMatch else fatal r)).
Proof.
  intros r. split; [|split].
  - subst r. unfold Logon.
    repeat (case_match; try discriminate); cbn; try discriminate; reflexivity.
  - intros e He. subst r. unfold Logon.
    destruct (decide _); [apply failed_fatal|]. rewrite He. apply failed_fatal.
  - intros l Hl Hc. subst r. rewrite (Logon_connected l Hl Hc).
    rewrite (searchUsername_eq l _ eq_refl).
    split; [|split; [|split]].
    + intros sr Hs He. rewrite Hs, He. reflexivity.
    + intros sr e1 e2 rest Hs He. rewrite Hs, He. apply failed_fatal.
    + intros e Hs. rewrite Hs.
      destruct (IsErrorWithCode (Some e) LDAPResultNoSuchObject);
        [reflexivity | apply failed_fatal].
    + intros sr entry e Hs He Hf Hb. rewrite Hs, He, Hf, Hb. cbn [negb].
      destruct (IsErrorWithCode (Some e) LDAPResultInvalidCredentials);
        [reflexivity | apply failed_fatal].
Qed.

End LdapLogon.

(** C1 on the example directory: an unknown user, a wrong password, the
    ambiguous bob, a failing search and a failing dial. *)
Lemma Logon_non_match_or_fatal_witness :
  backends.Logon directory.runtime directory.definitions (directory.backend None)
    directory.network "" "carol" "secret" = backends.nonMatch
  /\ backends.Logon directory.runtime directory.definitions (directory.backend None)
    directory.network "" "alice" "guess" = backends.nonMatch
  /\ fatal (backends.Logon directory.runtime directory.definitions (directory.backend None)
    directory.network "" "bob" "secret")
  /\ fatal (backends.Logon directory.runtime directory.definitions (directory.backend None)
    directory.network "" "down" "secret")
  /\ fatal (backends.Logon directory.runtime directory.definitions (directory.backend None)
    directory.offline "" "alice" "secret").
Proof.
  pose proof (fun u p => proj2 (proj2 (Logon_non_match_or_fatal directory.runtime
    directory.definitions (directory.backend None) directory.network "" u p))
    directory.conn ltac:(vm_compute; discriminate) eq_refl) as H.
  split; [|split; [|split; [|split]]].
  - refine (proj1 (H "carol" "secret") {| ldap.Entries := [] |} _ _); reflexivity.
  - refine (proj2 (proj2 (proj2 (H "alice" "guess")))
              {| ldap.Entries := [directory.aliceEntry] |} directory.aliceEntry
              (ldap.NewError ldap.LDAPResultInvalidCredentials None) _ _ _ _);
      reflexivity.
  - refine (proj1 (proj2 (H "bob" "secret"))
              {| ldap.Entries := [directory.bobEntry "sales"; directory.bobEntry "dev"] |}
              _ _ [] _ _); reflexivity.
  - refine (proj1 (proj2 (proj2 (H "down" "secret")))
              (ldap.NewError 52 (Some (ldap.OtherError "unavailable"))) _); reflexivity.
  - refine (proj1 (proj2 (Logon_non_match_or_fatal directory.runtime
      directory.definitions (directory.backend None) directory.offline "" "alice" "secret"))
      (ldap.NewError ldap.ErrorNetwork (Some (ldap.OtherError "connection refused"))) _).
    reflexivity.
Defined.

(* ===================================================================== *)
(** * The entry ID: [Values.Encode] and [ParseQuery] undo each other      *)
(* ===================================================================== *)

Section QueryBytes.
Import url.

Lemma QueryEscape_cons c r :
  QueryEscape (String c r)
  = if Ascii.eqb c " " then String "+" (QueryEscape r)
    else if shouldEscape c then
      String "%" (String (upperhex (N.shiftr (N_of_ascii c) 4))
                    (String (upperhex (N.land (N_of_ascii c) 15)) (QueryEscape r)))
    else String c (QueryEscape r).
Proof. reflexivity. Qed.

Lemma QueryUnescape_cons c r :
  QueryUnescape (String c r)
  = if Ascii.eqb c "%" then
      match r with
      | String h (String l r') =>
          if ishex h && ishex l then
            String (ascii_of_N (N.lor (N.shiftl (unhex h) 4) (unhex l)))
              <$> QueryUnescape r'
          else None
      | _ => None
      end
    else if Ascii.eqb c "+" then String " "%char <$> QueryUnescape r
    else String c <$> QueryUnescape r.
Proof. reflexivity. Qed.

(** Unescaping undoes escaping, byte by byte (all 256 of them). *)
Lemma QueryUnescape_QueryEscape s : QueryUnescape (QueryEscape s) = Some s.
Proof.
  induction s as [|c r IH]; [reflexivity|].
  rewrite QueryEscape_cons.
  destruct c as [[] [] [] [] [] [] [] []];
    cbv -[QueryEscape QueryUnescape]; rewrite QueryUnescape_cons;
    cbv -[QueryEscape QueryUnescape]; rewrite IH; reflexivity.
Qed.

Lemma allPlain_cons c r : allPlain (String c r) = plain c && allPlain r.
Proof. reflexivity. Qed.

(** An escaped text has no [&], [;] or [=]. *)
Lemma QueryEscape_plain s : allPlain (QueryEscape s) = true.
Proof.
  induction s as [|c r IH]; [reflexivity|].
  rewrite QueryEscape_cons.
  destruct c as [[] [] [] [] [] [] [] []];
    cbv -[QueryEscape allPlain]; rewrite !allPlain_cons, IH; reflexivity.
Qed.

Lemma append_cons x (a b : string) : String x a +:+ b = String x (a +:+ b).
Proof. reflexivity. Qed.

Lemma append_assoc (a b c : string) : (a +:+ b) +:+ c = a +:+ (b +:+ c).
Proof.
  induction a as [|x a IH]; [reflexivity|]. rewrite !append_cons, IH. reflexivity.
Qed.


Lemma length_append (a b : string) :
  String.length (a +:+ b) = (String.length a + String.length b)%nat.
Proof.
  induction a as [|x a IH]; [reflexivity|].
  rewrite append_cons. cbn [String.length]. rewrite IH. reflexivity.
Qed.

Lemma Contains_cons x s c : Contains (String x s) c = Ascii.eqb x c || Contains s c.
Proof. reflexivity. Qed.

Lemma Contains_append a b c : Contains (a +:+ b) c = Contains a c || Contains b c.
Proof.
  induction a as [|x a IH]; [reflexivity|].
  rewrite append_cons, !Contains_cons, IH. apply orb_assoc.
Qed.

Lemma Cut_cons x s c :
  Cut (String x s) c
  = if Ascii.eqb x c then (EmptyString, s, true)
    else let '(before, after, found) := Cut s c in (String x before, after, found).
Proof. reflexivity. Qed.

Lemma allPlain_Contains s c :
  allPlain s = true -> plain c = false -> Contains s c = false.
Proof.
  intros Hs Hc. induction s as [|a r IH]; [reflexivity|].
  rewrite allPlain_cons in Hs. apply andb_true_iff in Hs as [Ha Hr].
  rewrite Contains_cons, (IH Hr), orb_false_r.
  destruct (Ascii.eqb_spec a c) as [->|]; [congruence | reflexivity].
Qed.

(** [Cut] finds the first separator: nothing when there is none, and the
    two sides of it when the text before has none. *)
Lemma Cut_absent s c : Contains s c = false -> Cut s c = (s, EmptyString, false).
Proof.
  induction s as [|a r IH]; [reflexivity|].
  rewrite Contains_cons, Cut_cons.
  intros H. apply orb_false_iff in H as [Ha Hr]. rewrite Ha, (IH Hr). reflexivity.
Qed.

Lemma Cut_first s c r :
  Contains s c = false -> Cut (s +:+ String c r) c = (s, r, true).
Proof.
  induction s as [|a s IH].
  - intros _. change (EmptyString +:+ String c r) with (String c r).
    rewrite Cut_cons, Ascii.eqb_refl. reflexivity.
  - rewrite Contains_cons, append_cons, Cut_cons.
    intros H. apply orb_false_iff in H as [Ha Hr]. rewrite Ha, (IH Hr). reflexivity.
Qed.

End QueryBytes.

Section QueryRoundTrip.
Import url.

Lemma segment_eq kv :
  segment kv = QueryEscape kv.1 +:+ String "=" (QueryEscape kv.2).
Proof. reflexivity. Qed.

Lemma segment_Contains kv c :
  plain c = false -> Ascii.eqb "=" c = false -> Contains (segment kv) c = false.
Proof.
  intros Hc He. rewrite segment_eq, Contains_append, Contains_cons, He.
  rewrite !(allPlain_Contains _ _ (QueryEscape_plain _) Hc). reflexivity.
Qed.

Lemma segment_nonempty kv : segment kv <> EmptyString.
Proof.
  rewrite segment_eq. destruct (QueryEscape kv.1); discriminate.
Qed.

Lemma parse_segment_segment m kv : parse_segment m None (segment kv) = (add m kv, None).
Proof.
  unfold parse_segment.
  rewrite (segment_Contains kv ";" eq_refl eq_refl).
  destruct (decide (segment kv = EmptyString)) as [e|_];
    [destruct (segment_nonempty _ e)|].
  rewrite segment_eq, (Cut_first _ "="%char _
    (allPlain_Contains _ "="%char (QueryEscape_plain _) eq_refl)).
  rewrite !QueryUnescape_QueryEscape. reflexivity.
Qed.

Lemma parseQuery_S fuel m err query :
  parseQuery (S fuel) m err query
  = if decide (query = EmptyString) then (m, err)
    else let '(key, query, _) := Cut query "&" in
         let '(m, err) := parse_segment m err key in
         parseQuery fuel m err query.
Proof. reflexivity. Qed.

Lemma parseQuery_empty fuel m err : parseQuery fuel m err EmptyString = (m, err).
Proof. destruct fuel; reflexivity. Qed.

Lemma concat_cons2 sep (x y : string) l :
  String.concat sep (x :: y :: l) = x +:+ sep +:+ String.concat sep (y :: l).
Proof. reflexivity. Qed.

(** [parseQuery] on segments joined by [&] adds their pairs from left to
    right and reports no error, given fuel for the length of the query. *)
Lemma parseQuery_segments kvs : forall m fuel,
  (String.length (String.concat "&" (segment <$> kvs)) <= fuel)%nat ->
  parseQuery fuel m None (String.concat "&" (segment <$> kvs)) = (foldl add m kvs, None).
Proof.
  induction kvs as [|kv rest IH]; intros m fuel Hfuel.
  - apply parseQuery_empty.
  - destruct rest as [|kv2 rest].
    + cbn [fmap list_fmap String.concat foldl] in *.
      destruct fuel as [|fuel].
      { pose proof (segment_nonempty kv). destruct (segment kv); [done | cbn in Hfuel; lia]. }
      rewrite parseQuery_S.
      destruct (decide (segment kv = EmptyString)) as [e|_];
        [destruct (segment_nonempty _ e)|].
      rewrite (Cut_absent _ _ (segment_Contains kv "&" eq_refl eq_refl)).
      rewrite parse_segment_segment. apply parseQuery_empty.
    + change (segment <$> kv :: kv2 :: rest)
        with (segment kv :: segment kv2 :: (segment <$> rest)) in *.
      rewrite concat_cons2 in *.
      change ("&" +:+ ?x) with (String "&" x) in *.
      rewrite length_append in Hfuel. cbn [String.length] in Hfuel.
      destruct fuel as [|fuel]; [lia|].
      rewrite parseQuery_S.
      destruct (decide (_ = EmptyString)) as [e|_].
      { pose proof (segment_nonempty kv). destruct (segment kv); [done | discriminate e]. }
      rewrite (Cut_first _ _ _ (segment_Contains kv "&" eq_refl eq_refl)).
      rewrite parse_segment_segment.
      apply (IH (add m kv) fuel).
      change (segment <$> kv2 :: rest) with (segment kv2 :: (segment <$> rest)). lia.
Qed.

Lemma append_nonempty (a b : string) : b <> EmptyString -> a +:+ b <> EmptyString.
Proof. destruct a; [done | discriminate]. Qed.

Lemma write_joined segs : forall buf,
  buf <> EmptyString ->
  Forall (fun s => s <> EmptyString) segs ->
  foldl write buf segs = String.concat "&" (buf :: segs).
Proof.
  induction segs as [|s segs IH]; intros buf Hbuf Hsegs; [reflexivity|].
  apply Forall_cons in Hsegs as [Hs Hsegs].
  cbn [foldl]. rewrite IH; [|by apply append_nonempty|done].
  unfold write. destruct (decide (buf = EmptyString)) as [|_]; [done|].
  rewrite concat_cons2. destruct segs as [|s2 segs].
  - cbn [String.concat]. apply append_assoc.
  - rewrite !concat_cons2, !append_assoc. reflexivity.
Qed.

Lemma write_all segs :
  Forall (fun s => s <> EmptyString) segs ->
  foldl write EmptyString segs = String.concat "&" segs.
Proof.
  destruct segs as [|s segs]; [reflexivity|]. intros H.
  apply Forall_cons in H as [Hs Hsegs]. cbn [foldl].
  change (write EmptyString s) with s. by apply write_joined.
Qed.

Lemma encode_key_write v buf k :
  encode_key v buf k = foldl write buf (segment <$> pairsOf v [k]).
Proof.
  unfold encode_key, pairsOf. cbn [flat_map]. rewrite app_nil_r.
  rewrite <- list_fmap_compose, foldl_fmap. reflexivity.
Qed.

Lemma pairsOf_cons v k keys : pairsOf v (k :: keys) = pairsOf v [k] ++ pairsOf v keys.
Proof. unfold pairsOf. cbn [flat_map]. rewrite app_nil_r. reflexivity. Qed.

Lemma encode_keys_write v keys : forall buf,
  foldl (encode_key v) buf keys = foldl write buf (segment <$> pairsOf v keys).
Proof.
  induction keys as [|k keys IH]; intros buf; [reflexivity|].
  cbn [foldl]. rewrite IH, encode_key_write, (pairsOf_cons v k keys), fmap_app, foldl_app.
  reflexivity.
Qed.

(** [Encode] writes the segments of [pairsOf v (sortedKeys v)] joined by
    [&]. *)
Lemma Encode_joined v :
  Encode v = String.concat "&" (segment <$> pairsOf v (sortedKeys v)).
Proof.
  unfold Encode. destruct (decide (v = ∅)) as [->|_].
  - reflexivity.
  - fold (sortedKeys v). rewrite encode_keys_write. apply write_all.
    apply Forall_fmap, Forall_forall. intros kv _. apply segment_nonempty.
Qed.

Lemma add_values m k vs :
  vs <> [] ->
  foldl add m (pair k <$> vs) = <[k := default [] (m !! k) ++ vs]> m.
Proof.
  revert m. induction vs as [|x vs IH]; intros m Hvs; [done|].
  cbn [fmap list_fmap foldl]. destruct vs as [|y vs]; [reflexivity|].
  rewrite IH by done. unfold add. cbn [fst snd].
  rewrite lookup_insert_eq, insert_insert_eq. cbn [default]. unfold id.
  rewrite <- app_assoc. reflexivity.
Qed.

(** Adding the pairs of distinct fresh keys stores each key's values. *)
Lemma add_pairs (v : Values) keys : forall m k,
  NoDup keys ->
  (forall x, x ∈ keys -> m !! x = None) ->
  (forall x, x ∈ keys -> exists vs, v !! x = Some vs /\ vs <> []) ->
  foldl add m (pairsOf v keys) !! k
  = if decide (k ∈ keys) then v !! k else m !! k.
Proof.
  induction keys as [|x keys IH]; intros m k Hnd Hfresh Hv.
  - rewrite decide_False by apply not_elem_of_nil. reflexivity.
  - apply NoDup_cons in Hnd as [Hx Hnd].
    destruct (Hv x) as (vs & Hvs & Hne); [left|].
    rewrite (pairsOf_cons v x keys), foldl_app.
    assert (E : pairsOf v [x] = pair x <$> vs).
    { unfold pairsOf. cbn [flat_map]. rewrite app_nil_r, Hvs. reflexivity. }
    rewrite E, (add_values _ _ _ Hne), (Hfresh x) by left. cbn [default app].
    rewrite IH; [|done| |].
    + destruct (decide (k ∈ keys)) as [Hk|Hk].
      * rewrite decide_True by (by right). reflexivity.
      * destruct (decide (k = x)) as [->|Hkx].
        -- rewrite decide_True by left. rewrite lookup_insert_eq. by rewrite Hvs.
        -- rewrite decide_False by (rewrite elem_of_cons; tauto).
           by rewrite lookup_insert_ne.
    + intros y Hy. rewrite lookup_insert_ne; [apply Hfresh; by right|].
      intros ->. contradiction.
    + intros y Hy. apply Hv. by right.
Qed.

Lemma sortedKeys_perm v : sortedKeys v ≡ₚ (map_to_list v).*1.
Proof. apply merge_sort_Permutation. Qed.

Lemma elem_of_sortedKeys v k : k ∈ sortedKeys v <-> is_Some (v !! k).
Proof.
  rewrite sortedKeys_perm, list_elem_of_fmap. split.
  - intros ([k' vs] & -> & H). apply elem_of_map_to_list in H. by exists vs.
  - intros [vs H]. exists (k, vs). split; [done|]. by apply elem_of_map_to_list.
Qed.


(** Adding the pairs [Encode] writes to the empty map gives [v] back. *)
Lemma add_pairsOf v : populated v -> foldl add ∅ (pairsOf v (sortedKeys v)) = v.
Proof.
  intros Hv. apply map_eq. intros k. rewrite add_pairs.
  - destruct (decide (k ∈ sortedKeys v)) as [|Hk]; [reflexivity|].
    rewrite lookup_empty. symmetry. apply eq_None_not_Some.
    by rewrite <- elem_of_sortedKeys.
  - rewrite sortedKeys_perm. apply NoDup_fst_map_to_list.
  - intros x _. apply lookup_empty.
  - intros x Hx. apply elem_of_sortedKeys in Hx as [vs Hvs].
    exists vs. split; [done|]. by apply (Hv x).
Qed.

(** [ParseQuery (Encode v)] is [v], without error. *)
Lemma ParseQuery_Encode v : populated v -> ParseQuery (Encode v) = (v, None).
Proof.
  intros Hv. unfold ParseQuery. rewrite Encode_joined.
  rewrite parseQuery_segments by lia. by rewrite add_pairsOf.
Qed.

End QueryRoundTrip.

Section EntryID.
Import url ldap backends.
Context (rt : Runtime) (defs : Definitions).

Lemma entryValues_fold mapping entry k : forall m0 : url.Values,
  foldl (fun values k =>
           let v := GetAttributeValues entry k in
           if decide (0 < length v)%nat then <[k := v]> values else values)
        m0 mapping !! k
  = match mappedValues mapping entry k with
    | Some vs => Some vs
    | None => m0 !! k
    end.
Proof.
  unfold mappedValues.
  induction mapping as [|x mapping IH]; intros m0.
  - rewrite decide_False; [reflexivity|]. intros [H _]. by apply elem_of_nil in H.
  - cbn [foldl]. rewrite IH. clear IH.
    destruct (decide (k ∈ mapping /\ GetAttributeValues entry k <> [])) as [[Hk Hv]|Hn];
      destruct (decide (k ∈ x :: mapping /\ GetAttributeValues entry k <> []))
        as [[Hk' Hv']|Hn']; try reflexivity.
    + exfalso. apply Hn'. split; [by right | done].
    + apply elem_of_cons in Hk' as [->|Hk']; [|tauto].
      rewrite decide_True; [by rewrite lookup_insert_eq|].
      destruct (GetAttributeValues entry x); [done | cbn; lia].
    + destruct (decide (0 < length (GetAttributeValues entry x))%nat) as [Hx|];
        [|reflexivity].
      rewrite lookup_insert_ne; [reflexivity|]. intros ->. apply Hn'.
      split; [left|]. destruct (GetAttributeValues entry k); [cbn in Hx; lia | done].
Qed.

(** The map [entryIDFromEntry] encodes holds exactly the mapped values. *)
Lemma entryValues_lookup mapping entry k :
  entryValues mapping entry !! k = mappedValues mapping entry k.
Proof.
  unfold entryValues. rewrite entryValues_fold.
  destruct (mappedValues mapping entry k); [reflexivity | apply lookup_empty].
Qed.

Lemma entryValues_populated mapping entry : populated (entryValues mapping entry).
Proof.
  intros k vs. rewrite entryValues_lookup. unfold mappedValues.
  destruct (decide _) as [[_ H]|_]; [|discriminate]. by intros [= <-].
Qed.








End EntryID.


(* ===================================================================== *)
(** * Further properties of [handlers.go]                                 *)
(* ===================================================================== *)

Section Middleware.
Import http identifier.
Context (rt : Runtime) (handler : Request -> M unit).

Lemma screen_cases req :
  screen rt req = Serve false /\ admitted rt req
  \/ exists reason, screen rt req = Reject (Some reason) /\ ~ admitted rt req.
Proof.
  unfold screen, admitted, provenance.
  destruct (decide (Get (Headers req) "Kopano-Konnect-XSRF" <> "1")) as [Hx|Hx].
  { right. eexists. split; [reflexivity|]. intros [H _]. contradiction. }
  apply dec_stable in Hx.
  destruct (decide (_ /\ _)) as [[Ho Hr]|Hn].
  { right. eexists. split; [reflexivity|]. intros (_ & H & _).
    rewrite decide_False in H by (rewrite Ho; auto). contradiction. }
  destruct (decide (Get (Headers req) "Origin" <> EmptyString)) as [Ho|Ho].
  - destruct (url_Parse rt _) as [host|e] eqn:Hp.
    + destruct (decide (host <> Host req)) as [Hh|Hh].
      * right. eexists. split; [reflexivity|]. intros (_ & _ & [= H]). contradiction.
      * apply dec_stable in Hh. subst host. left. auto.
    + right. eexists. split; [reflexivity|]. intros (_ & _ & H). discriminate H.
  - apply dec_stable in Ho.
    destruct (decide (Get (Headers req) "Referer" <> EmptyString)) as [Hr|Hr].
    + destruct (url_Parse rt _) as [host|e] eqn:Hp.
      * destruct (decide (host <> Host req)) as [Hh|Hh].
        -- right. eexists. split; [reflexivity|]. intros (_ & _ & [= H]). contradiction.
        -- apply dec_stable in Hh. subst host. left. auto.
      * right. eexists. split; [reflexivity|]. intros (_ & _ & H). discriminate H.
    + apply dec_stable in Hr. destruct Hn. auto.
Qed.

(** X1: the middleware lets a request through exactly when it carries the
    XSRF marker and its Origin (or, without Origin, its Referer) parses to
    the request's Host; then it adds nothing to what the wrapped handler
    does.  Every other request gets the logged reason and the bare 400
    page, whatever the wrapped handler is. *)
Theorem secureHandler_admits (req : Request) :
  (admitted rt req -> secureHandler rt handler req = handler req)
  /\ (~ admitted rt req ->
      exists reason, secureHandler rt handler req = rejected reason).
Proof.
  destruct (screen_cases req) as [[Hs Ha]|(reason & Hs & Hn)]; split.
  - intros _. by apply secureHandler_Serve.
  - intros Hn. contradiction.
  - intros Ha. contradiction.
  - intros _. exists reason. by apply secureHandler_Reject.
Qed.

(** X2: the loop of the middleware is never left through its last [else]:
    no request is served with the warning about a missing Origin and
    Referer, and every rejection has a reason to log. *)
Theorem screen_never_warns (req : Request) :
  screen rt req = Serve false
  \/ exists reason, screen rt req = Reject (Some reason).
Proof.
  destruct (screen_cases req) as [[Hs _]|(reason & Hs & _)]; eauto.
Qed.

(** X3: when Origin is present the Referer plays no part: two requests
    that differ only in their Referer are screened alike. *)
Theorem screen_origin_first (req : Request) (referer : list string) :
  Get (Headers req) "Origin" <> EmptyString ->
  screen rt {| Host := Host req;
               Headers := <["Referer" := referer]> (Headers req);
               Body := Body req |}
  = screen rt req.
Proof.
  intros Ho. unfold screen. cbn [Host Headers].
  assert (Hget : forall key, CanonicalMIMEHeaderKey key <> "Referer" ->
            Get (<["Referer" := referer]> (Headers req)) key = Get (Headers req) key).
  { intros key Hk. unfold Get. by rewrite lookup_insert_ne. }
  rewrite !(Hget "Kopano-Konnect-XSRF") by (vm_compute; discriminate).
  rewrite !(Hget "Origin") by (vm_compute; discriminate).
  destruct (decide (_ <> "1")); [reflexivity|].
  destruct (decide (_ /\ _)) as [[H _]|_]; [contradiction|].
  destruct (decide (_ /\ _)) as [[H _]|_]; [contradiction|].
  destruct (decide (Get (Headers req) "Origin" <> EmptyString)); [reflexivity | contradiction].
Qed.

End Middleware.

(** X1 on a request without Origin whose Referer names the host. *)
Lemma secureHandler_admits_witness :
  identifier.secureHandler (examples.runtime (examples.logonOf [] None) (examples.helloOf [] ""))
    examples.okHandler
    (examples.request [("Kopano-Konnect-Xsrf", "1"); ("Referer", "https://idp.example/signin")])
  = examples.okHandler
    (examples.request [("Kopano-Konnect-Xsrf", "1"); ("Referer", "https://idp.example/signin")]).
Proof.
  apply (proj1 (secureHandler_admits _ examples.okHandler _)).
  repeat split; vm_compute; solve [reflexivity | discriminate].
Defined.

(** X3 on a request with a matching Origin and a foreign Referer. *)
Lemma screen_origin_first_witness :
  identifier.screen (examples.runtime (examples.logonOf [] None) (examples.helloOf [] ""))
    {| http.Host := "idp.example";
       http.Headers := <["Referer" := ["https://evil.example/"]]>
                         (http.Headers (examples.request examples.secured));
       http.Body := "{}" |}
  = identifier.screen (examples.runtime (examples.logonOf [] None) (examples.helloOf [] ""))
      (examples.request examples.secured).
Proof.
  apply (screen_origin_first _ (examples.request examples.secured)).
  vm_compute. discriminate.
Defined.

Section Answers.
Import http identifier.
Context (c : Constants) (rt : Runtime) (i : Identifier).

Lemma responses_app t1 t2 : responses (t1 ++ t2) = (responses t1 + responses t2)%nat.
Proof. unfold responses. by rewrite filter_app, length_app. Qed.

Lemma responses_cons e t :
  responses (e :: t) = ((if isResponse e then 1 else 0) + responses t)%nat.
Proof. unfold responses. rewrite filter_cons. by destruct (isResponse e). Qed.

Lemma responses_logIf (e : option string) level message :
  responses (logIf e level message).1 = 0%nat.
Proof. by destruct e. Qed.

(** Counts the answers in a trace built from known pieces. *)
Ltac tally :=
  repeat first [ rewrite responses_app | rewrite responses_cons
               | rewrite responses_logIf ];
  change (responses []) with 0%nat; cbn [isResponse].

Lemma bind_trace {A B} (m : M A) (k : A -> M B) :
  trace (bind m k)
  = trace m ++ match m.2 with Ok a => trace (k a) | Err _ => [] end.
Proof.
  destruct m as [t [a|f]]; cbn; [|by rewrite app_nil_r].
  by destruct (k a).
Qed.

Lemma bind_result {A B} (m : M A) (k : A -> M B) :
  (bind m k).2 = match m.2 with Ok a => (k a).2 | Err f => Err f end.
Proof. destruct m as [t [a|f]]; cbn; [|reflexivity]. by destruct (k a). Qed.

(** The loop of [handleLogon] answers exactly when it returns. *)
Lemma logonLoop_responses req params :
  responses (trace (logonLoop i req params))
  = match (logonLoop i req params).2 with
    | Ok Return => 1%nat
    | _ => 0%nat
    end.
Proof.
  unfold logonLoop, passiveReuse, andThen.
  destruct params as [|p0 [|p1 [|p2 rest]]].
  all: unfold len; cbn [length]; unfold index, logIf, deref, bind, emit, ret, panic, trace.
  all: repeat first
    [ progress cbn -[Z.of_nat]
    | match goal with
      | |- context [bool_decide (Z.of_nat ?n >= ?k)] =>
          first [ rewrite (bool_decide_eq_true_2 (Z.of_nat n >= k)) by lia
                | rewrite (bool_decide_eq_false_2 (Z.of_nat n >= k)) by lia ]
      end
    | case_bool_decide
    | case_decide
    | progress simplify_eq/=
    | case_match ]; done.
Qed.

Lemma newHelloResponse_responses req r user :
  responses (trace (newHelloResponse c i req r user)) = 0%nat.
Proof.
  unfold newHelloResponse, helloLoop, logIf, deref, bind, emit, ret, panic, trace.
  repeat first [ progress cbn | case_decide | progress simplify_eq/= | case_match ]; done.
Qed.

(** The nested Hello of [handleLogon] answers exactly when it makes the
    handler return. *)
Lemma logonHello_responses req r user :
  responses (trace (logonHello c rt i req r user))
  = match (logonHello c rt i req r user).2 with
    | Ok None => 1%nat
    | _ => 0%nat
    end.
Proof.
  unfold logonHello.
  destruct (LogonRequest.Hello r) as [h|]; [|reflexivity].
  destruct (parse rt h) as [h'|e]; [|reflexivity].
  pose proof (newHelloResponse_responses req h' (Some user)) as Hn.
  destruct (newHelloResponse c i req h' (Some user)) as [t [[hello err]|f]];
    unfold trace in *; cbn -[responses] in *; [|done].
  destruct err as [e|]; cbn -[responses].
  - tally. rewrite Hn. reflexivity.
  - destruct hello as [hello|]; cbn -[responses]; [|tally; rewrite Hn; reflexivity].
    destruct (HelloResponse.Success hello); cbn -[responses]; tally; rewrite Hn;
      reflexivity.
Qed.

(** X4: [handleLogon] answers the client exactly once (an error page, a
    bare 204 or the JSON body) on every run that does not panic, and not at
    all on one that does. *)
Theorem handleLogon_answers_once (req : Request) :
  responses (trace (handleLogon c rt i req)) = answered (handleLogon c rt i req).
Proof.
  unfold handleLogon, answered.
  destruct (DecodeLogonRequest rt (Body req)) as [r|e]; [|reflexivity].
  pose proof (logonLoop_responses req (LogonRequest.Params r)) as HL.
  destruct (logonLoop i req (LogonRequest.Params r)) as [t [[user|]|f]];
    unfold trace in *; cbn -[responses] in *;
    try (tally; rewrite HL; reflexivity).
  destruct user as [user|]; cbn -[responses];
    [|tally; rewrite HL; reflexivity].
  destruct (decide (Subject user = EmptyString)); cbn -[responses];
    [tally; rewrite HL; reflexivity|].
  destruct (updateUser i user) as [user' uerr].
  pose proof (logonHello_responses req r user') as HH.
  destruct (logIf uerr Debug _) as [tl [[]|f]] eqn:Hlog.
  2: { destruct uerr; discriminate Hlog. }
  assert (Htl : responses tl = 0%nat).
  { destruct uerr; injection Hlog as <-; reflexivity. }
  cbn -[responses].
  destruct (logonHello c rt i req r user') as [th [[hello|]|f]];
    unfold trace in *; cbn -[responses] in *.
  - destruct (setLogonCookie i user') as [e|]; cbn -[responses];
      [tally; rewrite HL, Htl, HH; reflexivity|].
    destruct (WriteJSON rt); cbn -[responses]; tally; rewrite HL, Htl, HH; reflexivity.
  - tally; rewrite HL, Htl, HH; reflexivity.
  - tally; rewrite HL, Htl, HH; reflexivity.
Qed.

(** X5: [handleHello] answers the client exactly once on every run that
    does not panic, and not at all on one that does. *)
Theorem handleHello_answers_once (req : Request) :
  responses (trace (handleHello c rt i req)) = answered (handleHello c rt i req).
Proof.
  unfold handleHello, answered.
  destruct (DecodeHelloRequest rt (Body req)) as [r0|e]; [|reflexivity].
  destruct (parse rt r0) as [r|e]; [|reflexivity].
  pose proof (newHelloResponse_responses req r None) as Hn.
  destruct (newHelloResponse c i req r None) as [t [[hello err]|f]];
    unfold trace in *; cbn -[responses] in *; [|tally; rewrite Hn; reflexivity].
  destruct err as [e|]; cbn -[responses].
  - tally. rewrite Hn. reflexivity.
  - destruct hello as [hello|]; cbn -[responses]; [|tally; rewrite Hn; reflexivity].
    destruct (HelloResponse.Success hello); cbn -[responses];
      [|tally; rewrite Hn; reflexivity].
    destruct (WriteJSON rt); cbn -[responses]; tally; rewrite Hn; reflexivity.
Qed.

End Answers.

Section LogonSources.
Import http identifier.
Context (c : Constants) (rt : Runtime) (i : Identifier).

(** X6: whenever the loop of [handleLogon] is left with a user, that user
    was vouched for under the name [params[0]] by the logon cookie, by the
    proxy header together with the backend's lookup, or by the backend's
    check of the password; there is no other way to a session. *)
Theorem logonLoop_user_provenance (req : Request) (params : list string)
    (t : list Event) (u : IdentifiedUser) :
  logonLoop i req params = (t, Ok (Break (Some u))) ->
  exists p0, params !! 0%nat = Some p0
    /\ (fromCookie i req params p0 u \/ fromProxy i req p0 u
        \/ fromPassword i req params p0 u).
Proof.
  unfold fromCookie, fromProxy, fromPassword.
  unfold logonLoop, passiveReuse, andThen.
  destruct params as [|p0 [|p1 [|p2 rest]]].
  all: unfold len; cbn [length]; unfold index, logIf, deref, bind, emit, ret, panic.
  all: intros H.
  all: repeat first
    [ progress cbn -[Z.of_nat] in H
    | match type of H with
      | context [bool_decide (Z.of_nat ?n >= ?k)] =>
          first [ rewrite (bool_decide_eq_true_2 (Z.of_nat n >= k)) in H by lia
                | rewrite (bool_decide_eq_false_2 (Z.of_nat n >= k)) in H by lia ]
      end
    | case_bool_decide
    | case_decide
    | progress simplify_eq/=
    | case_match ].
  all: repeat match goal with Hn : ~ (_ <> _) |- _ => apply dec_stable in Hn end.
  all: naive_solver.
Qed.

End LogonSources.

(** X6 on the example identifier: alice with her password, mode ["1"]. *)
Lemma logonLoop_user_provenance_witness :
  exists p0, ["alice"; "secret"; "1"] !! 0%nat = Some p0
    /\ (fromCookie examples.identifier (examples.request examples.secured)
          ["alice"; "secret"; "1"] p0
          {| identifier.sub := "uid=alice,dc=example"; identifier.username := "alice";
             identifier.displayName := "" |}
        \/ fromProxy examples.identifier (examples.request examples.secured) p0
          {| identifier.sub := "uid=alice,dc=example"; identifier.username := "alice";
             identifier.displayName := "" |}
        \/ fromPassword examples.identifier (examples.request examples.secured)
          ["alice"; "secret"; "1"] p0
          {| identifier.sub := "uid=alice,dc=example"; identifier.username := "alice";
             identifier.displayName := "" |}).
Proof.
  eapply (logonLoop_user_provenance examples.identifier
            (examples.request examples.secured) ["alice"; "secret"; "1"]).
  vm_compute. reflexivity.
Defined.

Section LogonCalls.
Import http identifier.
Context (c : Constants) (rt : Runtime) (i : Identifier).

Lemma count_app P t1 t2 : count P (t1 ++ t2) = (count P t1 + count P t2)%nat.
Proof. unfold count. by rewrite filter_app, length_app. Qed.

Lemma count_cons P e t : count P (e :: t) = ((if P e then 1 else 0) + count P t)%nat.
Proof. unfold count. rewrite filter_cons. by destruct (P e). Qed.

Lemma count_elem P e t : e ∈ t -> P e = true -> (1 <= count P t)%nat.
Proof.
  intros Hin HP. induction Hin as [e t|e x t Hin IH]; rewrite count_cons.
  - rewrite HP. lia.
  - specialize (IH HP). lia.
Qed.

(** [handleLogon] after a decoded request, by the way its loop ends. *)
Lemma handleLogon_shape req r :
  DecodeLogonRequest rt (Body req) = Ok r ->
  handleLogon c rt i req
  = match logonLoop i req (LogonRequest.Params r) with
    | (t, Err f) => (AddNoCacheResponseHeaders :: t, Err f)
    | (t, Ok Return) => (AddNoCacheResponseHeaders :: t, Ok tt)
    | (t, Ok (Break None)) =>
        answeredNoContent (AddNoCacheResponseHeaders :: t) (LogonRequest.State r)
    | (t, Ok (Break (Some u))) =>
        if decide (Subject u = EmptyString) then
          answeredNoContent (AddNoCacheResponseHeaders :: t) (LogonRequest.State r)
        else
          let u' := (updateUser i u).1 in
          let before :=
            AddNoCacheResponseHeaders :: t ++ CallUpdateUser u
              :: trace (logIf (updateUser i u).2 Debug
                          "identifier failed to update user data in logon request") in
          match logonHello c rt i req r u' with
          | (th, Err f) => (before ++ th, Err f)
          | (th, Ok None) => (before ++ th, Ok tt)
          | (th, Ok (Some hello)) =>
              match setLogonCookie i u' with
              | Some e =>
                  (before ++ th ++
                     [CallSetLogonCookie u';
                      Log Error "failed to serialize logon ticket" (Some e);
                      ErrorPage StatusInternalServerError "" "failed to serialize logon ticket"],
                   Ok tt)
              | None =>
                  (before ++ th ++
                     [CallSetLogonCookie u';
                      WriteLogonJSON StatusOK
                        {| LogonResponse.State := LogonRequest.State r;
                           LogonResponse.Success := true;
                           LogonResponse.Hello := hello |}]
                     ++ trace (logIf (WriteJSON rt) Error "logon request failed writing response"),
                   Ok tt)
              end
          end
    end.
Proof.
  intros Hd. unfold handleLogon. rewrite Hd.
  destruct (logonLoop i req (LogonRequest.Params r)) as [t [[[u|]|]|f]];
    unfold answeredNoContent; cbn; rewrite ?app_nil_r; try reflexivity.
  destruct (decide (Subject u = EmptyString)); cbn; [reflexivity|].
  destruct (updateUser i u) as [u' ue]. cbn [fst snd].
  destruct (logonHello c rt i req r u') as [th [[hello|]|f]].
  - destruct (setLogonCookie i u') as [e|]; destruct ue; cbn;
      try destruct (WriteJSON rt); cbn;
      rewrite <- ?app_assoc; cbn; rewrite ?app_nil_r; reflexivity.
  - destruct ue; cbn; rewrite <- ?app_assoc; cbn; rewrite ?app_nil_r; reflexivity.
  - destruct ue; cbn; rewrite <- ?app_assoc; cbn; rewrite ?app_nil_r; reflexivity.
Qed.

(** What the parts of [handleLogon] never do: the loop writes no JSON and
    sets no cookie; the nested Hello asks no backend, writes no Logon JSON
    and sets no cookie. *)
Lemma logonLoop_quiet req params :
  count writesLogonJSON (trace (logonLoop i req params)) = 0%nat
  /\ count setsLogonCookie (trace (logonLoop i req params)) = 0%nat
  /\ (count asksBackend (trace (logonLoop i req params)) <= 1)%nat
  /\ (params !! 1%nat = Some EmptyString
       \/ Get (Headers req) "X-Forwarded-User" <> EmptyString ->
      count asksBackend (trace (logonLoop i req params)) = 0%nat).
Proof.
  unfold logonLoop, passiveReuse, andThen.
  destruct params as [|p0 [|p1 [|p2 rest]]].
  all: unfold len; cbn [length]; unfold index, logIf, deref, bind, emit, ret, panic, trace.
  all: repeat first
    [ progress cbn -[Z.of_nat]
    | match goal with
      | |- context [bool_decide (Z.of_nat ?n >= ?k)] =>
          first [ rewrite (bool_decide_eq_true_2 (Z.of_nat n >= k)) by lia
                | rewrite (bool_decide_eq_false_2 (Z.of_nat n >= k)) by lia ]
      end
    | case_bool_decide
    | case_decide
    | progress simplify_eq/=
    | case_match ].
  all: repeat split; try reflexivity; try (cbn; lia); intros [?|?]; simplify_eq; done.
Qed.

Lemma newHelloResponse_quiet req r user :
  count writesLogonJSON (trace (newHelloResponse c i req r user)) = 0%nat
  /\ count setsLogonCookie (trace (newHelloResponse c i req r user)) = 0%nat
  /\ count asksBackend (trace (newHelloResponse c i req r user)) = 0%nat.
Proof.
  unfold newHelloResponse, helloLoop, logIf, deref, bind, emit, ret, panic, trace.
  repeat first [ progress cbn | case_decide | progress simplify_eq/= | case_match ]; done.
Qed.

Lemma logonHello_quiet req r user :
  count writesLogonJSON (trace (logonHello c rt i req r user)) = 0%nat
  /\ count setsLogonCookie (trace (logonHello c rt i req r user)) = 0%nat
  /\ count asksBackend (trace (logonHello c rt i req r user)) = 0%nat.
Proof.
  unfold logonHello.
  destruct (LogonRequest.Hello r) as [h|]; [|done].
  destruct (parse rt h) as [h'|e]; [|done].
  destruct (newHelloResponse_quiet req h' (Some user)) as (H1 & H2 & H3).
  destruct (newHelloResponse c i req h' (Some user)) as [t [[hello err]|f]];
    unfold trace in *; cbn -[count] in *; [|done].
  destruct err as [e|]; cbn -[count].
  - rewrite !count_app, H1, H2, H3. done.
  - destruct hello as [hello|]; cbn -[count]; [|by rewrite app_nil_r].
    destruct (HelloResponse.Success hello); cbn -[count];
      rewrite !count_app, H1, H2, H3; done.
Qed.

Lemma count_none P e t : count P t = 0%nat -> P e = true -> e ∉ t.
Proof. intros H0 HP Hin. pose proof (count_elem P e t Hin HP). lia. Qed.

Lemma count_logs P (e : option string) level message :
  (forall l m x, P (Log l m x) = false) ->
  count P (trace (logIf e level message)) = 0%nat.
Proof.
  intros HP. destruct e; [|reflexivity].
  unfold logIf, emit, trace. cbn [fst]. by rewrite count_cons, HP.
Qed.

(** Counts the events of one kind in a trace built from known pieces. *)
Ltac census :=
  unfold answeredNoContent, trace;
  cbn [fst snd];
  repeat first [ rewrite count_app | rewrite count_cons ];
  change (count ?P []) with 0%nat;
  cbn [asksBackend writesLogonJSON setsLogonCookie].

(** X7: [handleLogon] shows the password to the backend at most once, and
    not at all when the password is empty or a proxy header is present. *)
Theorem handleLogon_backend_calls (req : Request) :
  (count asksBackend (trace (handleLogon c rt i req)) <= 1)%nat
  /\ (forall r,
        DecodeLogonRequest rt (Body req) = Ok r ->
        LogonRequest.Params r !! 1%nat = Some EmptyString
        \/ Get (Headers req) "X-Forwarded-User" <> EmptyString ->
        count asksBackend (trace (handleLogon c rt i req)) = 0%nat).
Proof.
  destruct (DecodeLogonRequest rt (Body req)) as [r|e] eqn:Hd.
  2: { unfold handleLogon. rewrite Hd. split; [cbn -[count]; census; lia | intros r [=]]. }
  assert (HS := handleLogon_shape req r Hd).
  destruct (logonLoop_quiet req (LogonRequest.Params r)) as (_ & _ & Hle & Hz).
  assert (Hgen : forall n, count asksBackend (trace (logonLoop i req (LogonRequest.Params r))) = n ->
            count asksBackend (trace (handleLogon c rt i req)) = n).
  { intros n Hn. rewrite HS.
    destruct (logonLoop i req (LogonRequest.Params r)) as [t [[[u|]|]|f]];
      unfold trace in Hn; cbn [fst] in Hn; try (census; rewrite Hn; lia).
    destruct (decide (Subject u = EmptyString)); [census; rewrite Hn; lia|].
    cbv zeta.
    destruct (logonHello_quiet req r (updateUser i u).1) as (_ & _ & Hh).
    pose proof (count_logs asksBackend (updateUser i u).2 Debug
      "identifier failed to update user data in logon request" (fun _ _ _ => eq_refl)) as Hl.
    pose proof (count_logs asksBackend (WriteJSON rt) Error
      "logon request failed writing response" (fun _ _ _ => eq_refl)) as Hw.
    unfold trace in Hl, Hw, Hh.
    destruct (logonHello c rt i req r (updateUser i u).1) as [th [[hello|]|f]];
      cbn [fst] in Hh; [destruct (setLogonCookie i (updateUser i u).1)|..];
      census; rewrite ?Hn, ?Hl, ?Hh, ?Hw; lia. }
  split.
  - rewrite (Hgen _ eq_refl). exact Hle.
  - intros r' Hd' Hc. injection Hd' as <-. apply Hgen, Hz, Hc.
Qed.

(** X8: a logon cookie is set at most once, and only for the user the loop
    resolved, as [updateUser] left it, when that user's subject was not
    empty before the update. *)
Theorem handleLogon_cookie_user (req : Request) :
  (count setsLogonCookie (trace (handleLogon c rt i req)) <= 1)%nat
  /\ (forall u', CallSetLogonCookie u' ∈ trace (handleLogon c rt i req) ->
      exists r t u,
        DecodeLogonRequest rt (Body req) = Ok r
        /\ logonLoop i req (LogonRequest.Params r) = (t, Ok (Break (Some u)))
        /\ Subject u <> EmptyString
        /\ u' = (updateUser i u).1).
Proof.
  destruct (DecodeLogonRequest rt (Body req)) as [r|e] eqn:Hd.
  2: { unfold handleLogon. rewrite Hd. split; [cbn -[count]; census; lia|].
       intros u' Hin. cbn in Hin. rewrite !elem_of_cons in Hin.
       destruct Hin as [[=]|[[=]|Hin]]. by apply elem_of_nil in Hin. }
  rewrite (handleLogon_shape req r Hd).
  destruct (logonLoop_quiet req (LogonRequest.Params r)) as (_ & Hc & _ & _).
  pose proof (count_logs setsLogonCookie (WriteJSON rt) Error
    "logon request failed writing response" (fun _ _ _ => eq_refl)) as Hw.
  destruct (logonLoop i req (LogonRequest.Params r)) as [t [[[u|]|]|f]] eqn:HL;
    unfold trace in Hc, Hw; cbn [fst] in Hc.
  2-4: split; [census; rewrite Hc; lia|];
       intros u' Hin; exfalso; revert Hin; apply (count_none setsLogonCookie);
       [census; rewrite Hc; lia | reflexivity].
  destruct (decide (Subject u = EmptyString)) as [|Hs].
  { split; [census; rewrite Hc; lia|].
    intros u' Hin; exfalso; revert Hin; apply (count_none setsLogonCookie);
      [census; rewrite Hc; lia | reflexivity]. }
  cbv zeta.
  destruct (logonHello_quiet req r (updateUser i u).1) as (_ & Hh & _).
  pose proof (count_logs setsLogonCookie (updateUser i u).2 Debug
    "identifier failed to update user data in logon request" (fun _ _ _ => eq_refl)) as Hl.
  unfold trace in Hl, Hh.
  assert (Hbefore : forall u' th,
            count setsLogonCookie th = 0%nat ->
            CallSetLogonCookie u' ∉
              (AddNoCacheResponseHeaders :: t ++ CallUpdateUser u
                 :: (logIf (updateUser i u).2 Debug
                       "identifier failed to update user data in logon request").1) ++ th).
  { intros u' th Hth. apply (count_none setsLogonCookie); [|reflexivity].
    census. rewrite Hc, Hl, Hth. lia. }
  destruct (logonHello c rt i req r (updateUser i u).1) as [th [[hello|]|f]];
    cbn [fst] in Hh.
  - destruct (setLogonCookie i (updateUser i u).1) as [e|].
    + split; [census; rewrite Hc, Hl, Hh; lia|].
      intros u' Hin. exists r, t, u. split; [done|]. split; [done|]. split; [done|].
      rewrite app_assoc in Hin. apply elem_of_app in Hin as [Hin|Hin].
      * by apply Hbefore in Hin.
      * rewrite !elem_of_cons in Hin. destruct Hin as [[= ->]|[[=]|[[=]|Hin]]]; [done|].
        by apply elem_of_nil in Hin.
    + split; [census; rewrite Hc, Hl, Hh, Hw; lia|].
      intros u' Hin. exists r, t, u. split; [done|]. split; [done|]. split; [done|].
      rewrite app_assoc in Hin. apply elem_of_app in Hin as [Hin|Hin].
      * by apply Hbefore in Hin.
      * apply elem_of_app in Hin as [Hin|Hin].
        -- rewrite !elem_of_cons in Hin. destruct Hin as [[= ->]|[[=]|Hin]]; [done|].
           by apply elem_of_nil in Hin.
        -- exfalso. revert Hin. by apply (count_none setsLogonCookie).
  - split; [census; rewrite Hc, Hl, Hh; lia|].
    intros u' Hin. by apply Hbefore in Hin.
  - split; [census; rewrite Hc, Hl, Hh; lia|].
    intros u' Hin. by apply Hbefore in Hin.
Qed.

(** X9: [handleLogon] writes its JSON body only with status 200 and
    [success=true], echoing the request's state, and only after
    [setLogonCookie] was called and returned no error. *)
Theorem handleLogon_success_after_cookie (req : Request) (status : Z)
    (response : LogonResponse.t) :
  WriteLogonJSON status response ∈ trace (handleLogon c rt i req) ->
  status = StatusOK
  /\ LogonResponse.Success response = true
  /\ exists r u',
       DecodeLogonRequest rt (Body req) = Ok r
       /\ LogonResponse.State response = LogonRequest.State r
       /\ CallSetLogonCookie u' ∈ trace (handleLogon c rt i req)
       /\ setLogonCookie i u' = None.
Proof.
  destruct (DecodeLogonRequest rt (Body req)) as [r|e] eqn:Hd.
  2: { unfold handleLogon. rewrite Hd. intros Hin. cbn in Hin.
       rewrite !elem_of_cons in Hin.
       destruct Hin as [[=]|[[=]|Hin]]. by apply elem_of_nil in Hin. }
  rewrite (handleLogon_shape req r Hd).
  destruct (logonLoop_quiet req (LogonRequest.Params r)) as (Hc & _ & _ & _).
  pose proof (count_logs writesLogonJSON (WriteJSON rt) Error
    "logon request failed writing response" (fun _ _ _ => eq_refl)) as Hw.
  destruct (logonLoop i req (LogonRequest.Params r)) as [t [[[u|]|]|f]] eqn:HL;
    unfold trace in Hc, Hw; cbn [fst] in Hc.
  2-4: intros Hin; exfalso; revert Hin; apply (count_none writesLogonJSON);
       [census; rewrite Hc; lia | reflexivity].
  destruct (decide (Subject u = EmptyString)) as [|Hs].
  { intros Hin; exfalso; revert Hin; apply (count_none writesLogonJSON);
      [census; rewrite Hc; lia | reflexivity]. }
  cbv zeta.
  destruct (logonHello_quiet req r (updateUser i u).1) as (Hh & _ & _).
  pose proof (count_logs writesLogonJSON (updateUser i u).2 Debug
    "identifier failed to update user data in logon request" (fun _ _ _ => eq_refl)) as Hl.
  unfold trace in Hl, Hh.
  destruct (logonHello c rt i req r (updateUser i u).1) as [th [[hello|]|f]];
    cbn [fst] in Hh.
  2-3: intros Hin; exfalso; revert Hin; apply (count_none writesLogonJSON);
       [census; rewrite Hc, Hl, Hh; lia | reflexivity].
  destruct (setLogonCookie i (updateUser i u).1) as [e|] eqn:Hset.
  { intros Hin; exfalso; revert Hin; apply (count_none writesLogonJSON);
      [census; rewrite Hc, Hl, Hh; lia | reflexivity]. }
  intros Hin. unfold trace in Hin |- *. cbn [fst] in Hin |- *.
  assert (Hjson : WriteLogonJSON status response
                  = WriteLogonJSON StatusOK
                      {| LogonResponse.State := LogonRequest.State r;
                         LogonResponse.Success := true;
                         LogonResponse.Hello := hello |}).
  { rewrite app_assoc in Hin. apply elem_of_app in Hin as [Hin|Hin].
    - exfalso. revert Hin. apply (count_none writesLogonJSON); [|reflexivity].
      census. rewrite Hc, Hl, Hh. lia.
    - apply elem_of_app in Hin as [Hin|Hin].
      + rewrite !elem_of_cons in Hin. destruct Hin as [[=]|[E|Hin]]; [exact E|].
        by apply elem_of_nil in Hin.
      + exfalso. revert Hin. by apply (count_none writesLogonJSON). }
  injection Hjson as -> ->. split; [reflexivity|]. split; [reflexivity|].
  exists r, (updateUser i u).1. split; [reflexivity|]. split; [reflexivity|].
  split; [|exact Hset].
  rewrite app_assoc. apply elem_of_app. right. apply elem_of_app. left. left.
Qed.

End LogonCalls.

(** X7 on alice's logon with an empty password: the backend is not asked. *)
Lemma handleLogon_backend_calls_witness :
  count asksBackend
    (identifier.trace
       (identifier.handleLogon examples.constants
          (examples.runtime (examples.logonOf ["alice"; ""; "1"] None)
             (examples.helloOf [] ""))
          examples.identifier (examples.request examples.secured))) = 0%nat.
Proof.
  apply (proj2 (handleLogon_backend_calls examples.constants
           (examples.runtime (examples.logonOf ["alice"; ""; "1"] None)
              (examples.helloOf [] ""))
           examples.identifier (examples.request examples.secured))
           (examples.logonOf ["alice"; ""; "1"] None) eq_refl).
  left. reflexivity.
Defined.

(** X8 on alice's logon with her password. *)
Lemma handleLogon_cookie_user_witness :
  exists r t u,
    identifier.DecodeLogonRequest
      (examples.runtime (examples.logonOf ["alice"; "secret"; "1"] None)
         (examples.helloOf [] ""))
      (http.Body (examples.request examples.secured)) = Ok r
    /\ identifier.logonLoop examples.identifier (examples.request examples.secured)
         (identifier.LogonRequest.Params r) = (t, Ok (identifier.Break (Some u)))
    /\ identifier.Subject u <> EmptyString
    /\ {| identifier.sub := "uid=alice,dc=example"; identifier.username := "alice";
          identifier.displayName := "" |}
       = (identifier.updateUser examples.identifier u).1.
Proof.
  apply (proj2 (handleLogon_cookie_user examples.constants
           (examples.runtime (examples.logonOf ["alice"; "secret"; "1"] None)
              (examples.helloOf [] ""))
           examples.identifier (examples.request examples.secured))).
  apply list_elem_of_In. vm_compute. auto 10.
Defined.

(** X9 on alice's logon with her password. *)
Lemma handleLogon_success_after_cookie_witness :
  exists r u',
    identifier.DecodeLogonRequest
      (examples.runtime (examples.logonOf ["alice"; "secret"; "1"] None)
         (examples.helloOf [] ""))
      (http.Body (examples.request examples.secured)) = Ok r
    /\ identifier.LogonResponse.State
         {| identifier.LogonResponse.State := "st8";
            identifier.LogonResponse.Success := true;
            identifier.LogonResponse.Hello := None |}
       = identifier.LogonRequest.State r
    /\ identifier.CallSetLogonCookie u'
       ∈ identifier.trace
           (identifier.handleLogon examples.constants
              (examples.runtime (examples.logonOf ["alice"; "secret"; "1"] None)
                 (examples.helloOf [] ""))
              examples.identifier (examples.request examples.secured))
    /\ identifier.setLogonCookie examples.identifier u' = None.
Proof.
  apply (handleLogon_success_after_cookie examples.constants
           (examples.runtime (examples.logonOf ["alice"; "secret"; "1"] None)
              (examples.helloOf [] ""))
           examples.identifier (examples.request examples.secured) 200).
  apply list_elem_of_In. vm_compute. auto 10.
Defined.

Section HelloDecisions.
Import http identifier.
Context (c : Constants) (rt : Runtime) (i : Identifier).

(** X10: without prompt none or login, a Hello names the user it was handed
    or else the cookie's user, when that user has a user name, and falls
    back to the proxy header's user otherwise; without any of them it
    reports no success and no name.  The cookie is decoded exactly when no
    user was handed in. *)
Theorem helloLoop_resolution (req : Request) (r : HelloRequest.t)
    (identifiedUser : option IdentifiedUser) :
  isSet (HelloRequest.Prompts r) (PromptNone c) = false ->
  isSet (HelloRequest.Prompts r) (PromptLogin c) = false ->
  exists t response,
    helloLoop c i req r identifiedUser = (t, Ok (Ok response))
    /\ (CallGetUserFromLogonCookie ∈ t <-> identifiedUser = None)
    /\ HelloResponse.State response = HelloRequest.State r
    /\ (forall u, knownUser i req identifiedUser = Some u ->
          Username u <> EmptyString ->
          HelloResponse.Success response = true
          /\ HelloResponse.Username response = Username u
          /\ HelloResponse.DisplayName response = Name u)
    /\ ((forall u, knownUser i req identifiedUser = Some u -> Username u = EmptyString) ->
        HelloResponse.Username response = Get (Headers req) "X-Forwarded-User"
        /\ (HelloResponse.Success response = true
            <-> Get (Headers req) "X-Forwarded-User" <> EmptyString)).
Proof.
  intros Hn Hl. unfold helloLoop, knownUser. rewrite Hn, Hl.
  destruct identifiedUser as [u|]; [|destruct (GetUserFromLogonCookie i req) as [[u|] [e|]]].
  all: unfold logIf, bind, emit, ret; cbn.
  all: repeat case_decide; cbn.
  all: eexists _, _; (split; [reflexivity|]); cbn.
  all: rewrite ?elem_of_cons, ?elem_of_nil.
  all: repeat match goal with
       | H : ~ (is_Some (Some _) /\ ?x <> EmptyString) |- _ =>
           assert (x = EmptyString)
             by (destruct (decide (x = EmptyString)); [done | exfalso; apply H; eauto]);
           clear H
       end.
  all: naive_solver congruence.
Qed.

(** What the loop leaves untouched in the response. *)
Lemma helloLoop_untouched req r user t response :
  helloLoop c i req r user = (t, Ok (Ok response)) ->
  HelloResponse.Next response = EmptyString
  /\ HelloResponse.RequestedScopes response = ∅
  /\ HelloResponse.ClientDetails response = None
  /\ HelloResponse.ContinueURI response = EmptyString.
Proof.
  unfold helloLoop, logIf, bind, emit, ret. intros H.
  repeat (case_match; simplify_eq/=); done.
Qed.

(** X11: in a success response for the OAuth, consent or OIDC flow, consent
    is the next step exactly when the consent prompt was asked for or the
    client is not trusted; then the response carries the requested scopes
    and the client's details, and otherwise neither. *)
Theorem newHelloResponse_consent (req : Request) (r : HelloRequest.t)
    (user : option IdentifiedUser) (t : list Event) (response : HelloResponse.t) :
  newHelloResponse c i req r user = (t, Ok (Some response, None)) ->
  HelloResponse.Success response = true ->
  clientFlow c (HelloRequest.Flow r) ->
  exists details,
    clients_Lookup i (HelloRequest.ClientID r) (HelloRequest.RedirectURI r)
    = (Some details, None)
    /\ if consentForced c r details
       then HelloResponse.Next response = FlowConsent c
            /\ HelloResponse.RequestedScopes response = HelloRequest.Scopes r
            /\ HelloResponse.ClientDetails response = Some details
       else HelloResponse.Next response = EmptyString
            /\ HelloResponse.RequestedScopes response = ∅
            /\ HelloResponse.ClientDetails response = None.
Proof.
  unfold newHelloResponse, clientFlow, consentForced. intros E Hs Hf.
  destruct (helloLoop c i req r user) as [t0 [[resp|e]|f]] eqn:HL; cbn in E;
    try discriminate E.
  destruct (helloLoop_untouched _ _ _ _ _ HL) as (Hnext & Hsc & Hcd & _).
  destruct (HelloResponse.Success resp) eqn:Hresp; cbn in E.
  2: { try rewrite app_nil_r in E. inversion E; subst. congruence. }
  destruct (decide _) as [_|n]; [|contradiction]. cbn in E.
  destruct (clients_Lookup i _ _) as [details [e|]]; cbn in E; [inversion E|].
  destruct details as [d|]; cbn in E; [|discriminate E].
  exists d. split; [reflexivity|].
  destruct (isSet (HelloRequest.Prompts r) (PromptConsent c)), (Trusted d);
    cbn in E |- *; inversion E; subst; cbn; auto.
Qed.

(** X12: with no prompt none, no user in the logon cookie and no proxy
    header, [handleHello] answers 204 with the echoed state; it writes no
    body and does not look the client up. *)
Theorem handleHello_anonymous (req : Request) (r0 r : HelloRequest.t)
    (cookieErr : option string) :
  DecodeHelloRequest rt (Body req) = Ok r0 ->
  parse rt r0 = Ok r ->
  isSet (HelloRequest.Prompts r) (PromptNone c) = false ->
  GetUserFromLogonCookie i req = (None, cookieErr) ->
  Get (Headers req) "X-Forwarded-User" = EmptyString ->
  handleHello c rt i req
  = answeredNoContent
      (AddNoCacheResponseHeaders
         :: if isSet (HelloRequest.Prompts r) (PromptLogin c) then []
            else CallGetUserFromLogonCookie
                   :: trace (logIf cookieErr Debug
                               "identifier failed to decode logon cookie in hello"))
      (HelloRequest.State r).
Proof.
  intros Hd Hp Hn Hc Hf. unfold handleHello. rewrite Hd, Hp.
  unfold newHelloResponse, helloLoop. rewrite Hn, Hc, Hf.
  destruct (isSet (HelloRequest.Prompts r) (PromptLogin c)); [reflexivity|].
  destruct cookieErr; reflexivity.
Qed.

End HelloDecisions.

(** X10 on a Hello without prompts: the cookie names alice. *)
Lemma helloLoop_resolution_witness :
  exists t response,
    identifier.helloLoop examples.constants examples.identifier
      (examples.request examples.secured) (examples.helloOf [] "oauth") None
    = (t, Ok (Ok response))
    /\ identifier.HelloResponse.Success response = true
    /\ identifier.HelloResponse.Username response = "alice"
    /\ identifier.HelloResponse.DisplayName response = "Alice".
Proof.
  destruct (helloLoop_resolution examples.constants examples.identifier
              (examples.request examples.secured) (examples.helloOf [] "oauth") None
              eq_refl eq_refl) as (t & response & E & _ & _ & H & _).
  exists t, response. split; [exact E|].
  apply (H examples.alice); [reflexivity | discriminate].
Defined.

(** X11 on a Hello with the consent prompt for the trusted client. *)
Lemma newHelloResponse_consent_witness :
  exists t response,
    identifier.newHelloResponse examples.constants examples.identifier
      (examples.request examples.secured) (examples.helloOf ["consent"] "oauth") None
    = (t, Ok (Some response, None))
    /\ identifier.HelloResponse.Next response = "consent"
    /\ identifier.HelloResponse.RequestedScopes response = {[ "openid" := true ]}
    /\ identifier.HelloResponse.ClientDetails response
       = Some {| identifier.ID := "client"; identifier.Trusted := true |}.
Proof.
  eexists _, _. split; [vm_compute; reflexivity|].
  edestruct (newHelloResponse_consent examples.constants examples.identifier
              (examples.request examples.secured) (examples.helloOf ["consent"] "oauth") None)
    as (details & Hl & H).
  - vm_compute. reflexivity.
  - reflexivity.
  - left. reflexivity.
  - injection Hl as <-. exact H.
Defined.

(** X12 on a Hello without prompts and without cookie. *)
Lemma handleHello_anonymous_witness :
  identifier.handleHello examples.constants
    (examples.runtime (examples.logonOf [] None) (examples.helloOf [] "oauth"))
    {| identifier.GetUserFromLogonCookie := fun _ => (None, None);
       identifier.resolveUser := identifier.resolveUser examples.identifier;
       identifier.updateUser := identifier.updateUser examples.identifier;
       identifier.setLogonCookie := identifier.setLogonCookie examples.identifier;
       identifier.backend_Logon := identifier.backend_Logon examples.identifier;
       identifier.clients_Lookup := identifier.clients_Lookup examples.identifier;
       identifier.authorizationEndpointURI := "https://idp.example/authorize" |}
    (examples.request examples.secured)
  = answeredNoContent
      [identifier.AddNoCacheResponseHeaders; identifier.CallGetUserFromLogonCookie] "st8".
Proof.
  apply (handleHello_anonymous examples.constants
           (examples.runtime (examples.logonOf [] None) (examples.helloOf [] "oauth")) _
           (examples.request examples.secured) (examples.helloOf [] "oauth")
           (examples.helloOf [] "oauth") None); reflexivity.
Defined.

Section TicketHandlers.
Import http identifier tickets.
Context (rt : Runtime) (tk : Tickets).

(** The events of the shared runtime are none of the ticket events. *)
Lemma logWrite_base message e : e ∈ logWrite rt message -> exists b, e = Base b.
Proof.
  unfold logWrite. destruct (WriteJSON rt); intros H.
  - apply list_elem_of_singleton in H. eauto.
  - by apply elem_of_nil in H.
Qed.

(** X13: [handleLogoff] tries to remove the logon cookie exactly when the
    body decodes, and writes a body only with status 200 and
    [success=true], echoing the request's state, after the cookie was
    removed without error. *)
Theorem handleLogoff_removes_first (req : Request) :
  (CallRemoveLogonCookie ∈ handleLogoff rt tk req
   <-> succeeds (DecodeStateRequest tk (Body req)))
  /\ (forall status response,
        WriteStateJSON status response ∈ handleLogoff rt tk req ->
        status = StatusOK /\ Success response = true
        /\ removeLogonCookie tk = None
        /\ exists r, DecodeStateRequest tk (Body req) = Ok r
             /\ ResponseState response = State r).
Proof.
  unfold handleLogoff, succeeds.
  destruct (DecodeStateRequest tk (Body req)) as [r|e].
  - split.
    + split; [eauto|]. intros _. right. left.
    + intros status response Hin.
      rewrite !elem_of_cons in Hin. destruct Hin as [[=]|[[=]|Hin]].
      destruct (removeLogonCookie tk) as [e|].
      * rewrite !elem_of_cons in Hin. destruct Hin as [[=]|[[=]|Hin]].
        by apply elem_of_nil in Hin.
      * rewrite elem_of_cons in Hin. destruct Hin as [[= -> ->]|Hin]; [eauto 10|].
        apply logWrite_base in Hin as [b [=]].
  - split.
    + split; [|intros [a [=]]]. intros Hin.
      rewrite !elem_of_cons in Hin. destruct Hin as [[=]|[[=]|Hin]].
      by apply elem_of_nil in Hin.
    + intros status response Hin.
      rewrite !elem_of_cons in Hin. destruct Hin as [[=]|[[=]|Hin]].
      by apply elem_of_nil in Hin.
Qed.

(** X14: [handleConsent] seals a consent cookie only for a request that
    allows, with the request's own scope; a request that does not allow
    leaves no cookie and gets no body.  The body is written only with
    status 200 and [success=true], echoing the request's state, after the
    cookie was sealed without error. *)
Theorem handleConsent_sealed_first (req : Request) :
  (forall r consent,
     CallSetConsentCookie r consent ∈ handleConsent rt tk req ->
     DecodeConsentRequest tk (Body req) = Ok r /\ Allow r = true
     /\ consent = {| ConsentAllow := true; ConsentRawScope := RawScope r |})
  /\ (forall status response,
        WriteStateJSON status response ∈ handleConsent rt tk req ->
        status = StatusOK /\ Success response = true
        /\ exists r, DecodeConsentRequest tk (Body req) = Ok r
             /\ ResponseState response = ConsentState r
             /\ Allow r = true
             /\ setConsentCookie tk req r
                  {| ConsentAllow := true; ConsentRawScope := RawScope r |} = None).
Proof.
  unfold handleConsent.
  destruct (DecodeConsentRequest tk (Body req)) as [r|e].
  2: { split; intros ? ? Hin; rewrite !elem_of_cons in Hin;
       destruct Hin as [[=]|[[=]|Hin]]; by apply elem_of_nil in Hin. }
  destruct (Allow r) eqn:Ha; cbn [negb].
  2: { split; intros ? ? Hin; rewrite !elem_of_cons in Hin;
       destruct Hin as [[=]|[[=]|[[=]|Hin]]]; by apply elem_of_nil in Hin. }
  destruct (setConsentCookie tk req r _) as [e|] eqn:Hs.
  - split; intros ? ? Hin; rewrite !elem_of_cons in Hin.
    + destruct Hin as [[=]|[[= <- <-]|[[=]|[[=]|Hin]]]]; [auto|].
      by apply elem_of_nil in Hin.
    + destruct Hin as [[=]|[[=]|[[=]|[[=]|Hin]]]]. by apply elem_of_nil in Hin.
  - split; intros ? ? Hin; rewrite !elem_of_cons in Hin.
    + destruct Hin as [[=]|[[= <- <-]|[[=]|Hin]]]; [auto|].
      apply logWrite_base in Hin as [b [=]].
    + destruct Hin as [[=]|[[=]|[[= -> ->]|Hin]]]; [eauto 10|].
      apply logWrite_base in Hin as [b [=]].
Qed.

End TicketHandlers.

(** X13 on a logoff whose cookie is removed. *)
Lemma handleLogoff_removes_first_witness :
  tickets.removeLogonCookie (setup.tickets "st8" true) = None
  /\ exists r,
       tickets.DecodeStateRequest (setup.tickets "st8" true)
         (http.Body (examples.request examples.secured)) = Ok r
       /\ "st8" = tickets.State r.
Proof.
  apply (proj2 (handleLogoff_removes_first
           (examples.runtime (examples.logonOf [] None) (examples.helloOf [] ""))
           (setup.tickets "st8" true) (examples.request examples.secured))
           200 {| tickets.ResponseState := "st8"; tickets.Success := true |}).
  apply list_elem_of_In. vm_compute. auto 10.
Defined.

(** X14 on a consent request that allows. *)
Lemma handleConsent_sealed_first_witness :
  exists r,
    tickets.DecodeConsentRequest (setup.tickets "st8" true)
      (http.Body (examples.request examples.secured)) = Ok r
    /\ "st8" = tickets.ConsentState r
    /\ tickets.Allow r = true
    /\ tickets.setConsentCookie (setup.tickets "st8" true)
         (examples.request examples.secured) r
         {| tickets.ConsentAllow := true; tickets.ConsentRawScope := tickets.RawScope r |}
       = None.
Proof.
  apply (proj2 (handleConsent_sealed_first
           (examples.runtime (examples.logonOf [] None) (examples.helloOf [] ""))
           (setup.tickets "st8" true) (examples.request examples.secured))
           200 {| tickets.ResponseState := "st8"; tickets.Success := true |}).
  apply list_elem_of_In. vm_compute. auto 10.
Defined.

(* ===================================================================== *)
(** * Further properties of [ldap.go]                                     *)
(* ===================================================================== *)

Section LdapSoundness.
Import ldap backends configuration.
Context (rt : Runtime) (defs : Definitions).
Context (b : LDAPIdentifierBackend) (net : Network).

Local Abbreviation loginAttribute := (loginAttribute defs b).

(** X15: [Logon] reports success only when the connection was made, the
    search gave exactly one entry whose login attribute folds to the user
    name, and the bind as that entry with the password was accepted; it
    then returns the entry's ID, which is not empty, as subject and as the
    one backend claim, with no session reference and no error. *)
Theorem Logon_success_sound (audience username password : string) :
  success (Logon rt defs b net audience username password) = true ->
  exists l sr entry,
    connect b net = Ok l
    /\ Search l (usernameSearch rt defs b username) = Ok sr
    /\ Entries sr = [entry]
    /\ EqualFold rt (GetAttributeValue entry loginAttribute) username = true
    /\ Bind l (DN entry) password = None
    /\ entryIDFromEntry b entry <> EmptyString
    /\ Logon rt defs b net audience username password
       = {| success := true;
            subject := Some (entryIDFromEntry b entry);
            sessionRef := None;
            claims := Some {[ IdentifiedUserIDClaim defs := entryIDFromEntry b entry ]};
            err := None |}.
Proof.
  unfold Logon. fold loginAttribute.
  destruct (decide (loginAttribute = EmptyString)); [discriminate|].
  destruct (connect b net) as [l|e]; [|discriminate].
  rewrite (searchUsername_eq rt defs b username l _ eq_refl).
  destruct (Search l _) as [sr|e] eqn:Hs.
  2: { destruct (IsErrorWithCode _ _); discriminate. }
  destruct (Entries sr) as [|entry [|e2 rest]] eqn:He; try discriminate.
  destruct (EqualFold rt _ username) eqn:Hf; [|discriminate]. cbn [negb].
  destruct (Bind l (DN entry) password) as [e|] eqn:Hb.
  { destruct (IsErrorWithCode _ _); discriminate. }
  cbv zeta. destruct (decide (entryIDFromEntry b entry = EmptyString)); [discriminate|].
  intros _. exists l, sr, entry. auto 10.
Qed.

(** X16: with a sub-attribute mapping none of whose attributes has a value
    in the entry found, [Logon] fails with an error although the search
    and the bind with the password went through: a user without an entry
    ID is never logged on. *)
Theorem Logon_without_entry_id (audience username password : string)
    (mapping : list string) (l : Conn) (entry : Entry) :
  entryIDMapping b = Some mapping ->
  Forall (fun k => GetAttributeValues entry k = []) mapping ->
  loginAttribute <> EmptyString ->
  connect b net = Ok l ->
  Search l (usernameSearch rt defs b username) = Ok {| Entries := [entry] |} ->
  EqualFold rt (GetAttributeValue entry loginAttribute) username = true ->
  Bind l (DN entry) password = None ->
  Logon rt defs b net audience username password
  = failed (ErrorfStr "ldap identifier backend logon entry without entry ID: %v" (DN entry)).
Proof.
  intros Hm Hall Hl Hc Hs Hf Hb.
  rewrite (Logon_connected rt defs b net audience username password l Hl Hc).
  rewrite (searchUsername_eq rt defs b username l _ eq_refl), Hs. cbn [Entries].
  rewrite Hf, Hb. cbn [negb]. cbv zeta.
  assert (Hv : entryValues mapping entry = ∅).
  { apply map_eq. intros k. rewrite entryValues_lookup, lookup_empty. unfold mappedValues.
    apply decide_False. intros [Hk Hne]. apply Hne.
    by apply (proj1 (Forall_forall _ _) Hall). }
  assert (Hid : entryIDFromEntry b entry = EmptyString).
  { unfold entryIDFromEntry. rewrite Hm, Hv. reflexivity. }
  rewrite Hid. reflexivity.
Qed.

(** X17: [GetUser] returns a user only under the ID of the entry it found,
    and only when that ID folds to the ID asked for, which is not empty. *)
Theorem GetUser_sound (entryID newEntryID : string) (entry : Entry) :
  GetUser rt defs b net entryID = Ok (newEntryID, entry) ->
  newEntryID = entryIDFromEntry b entry
  /\ EqualFold rt newEntryID entryID = true
  /\ entryID <> EmptyString
  /\ (baseAndGetFilterFromEntryID rt b entryID).1 <> EmptyString.
Proof.
  unfold GetUser, getUser.
  destruct (connect b net) as [l|e]; [|discriminate].
  destruct (baseAndGetFilterFromEntryID rt b entryID) as [base filter].
  destruct (decide (_ \/ _ \/ _)) as [|Hn]; [discriminate|].
  destruct (Search l _) as [sr|e]; [|discriminate].
  destruct (Entries sr) as [|e1 [|e2 rest]]; try discriminate.
  cbv zeta. destruct (EqualFold rt _ entryID) eqn:Hf; [|discriminate].
  cbn [negb]. intros [= <- <-]. cbn [fst]. tauto.
Qed.

(** X18: [getUser] turns down an entry ID it cannot decode before anything
    is sent to the server: the empty ID, in mapping mode an ID that
    [url.ParseQuery] rejects, and without a mapping an ID that is no DN. *)
Theorem getUser_invalid_id (l : Conn) (entryID : string) (attrs : list string) :
  let invalid :=
    Err (ErrorfStr "ldap identifier backend get user invalid user ID: %v" entryID) in
  (entryID = EmptyString -> getUser rt b l entryID attrs = invalid)
  /\ (is_Some (entryIDMapping b) -> is_Some (url.ParseQuery entryID).2 ->
      getUser rt b l entryID attrs = invalid)
  /\ (entryIDMapping b = None -> is_Some (ParseDN rt entryID) ->
      getUser rt b l entryID attrs = invalid).
Proof.
  intros invalid. subst invalid. unfold getUser. split; [|split].
  - intros ->. destruct (baseAndGetFilterFromEntryID rt b EmptyString) as [base filter].
    rewrite decide_True by auto. reflexivity.
  - intros [m Hm] [e He]. unfold baseAndGetFilterFromEntryID. rewrite Hm.
    destruct (url.ParseQuery entryID) as [values [e'|]]; [|discriminate He].
    rewrite decide_True by auto. reflexivity.
  - intros Hm [e He]. unfold baseAndGetFilterFromEntryID. rewrite Hm, He.
    rewrite decide_True by auto. reflexivity.
Qed.

(** X19: without a sub-attribute mapping the entry ID is the DN, and
    [getUser] looks a well-formed ID up as the base object itself, with the
    get-filter, whatever search scope the backend is configured with. *)
Theorem getUser_base_object (l : Conn) (entryID : string) (attrs : list string)
    (entry : Entry) :
  entryIDMapping b = None ->
  entryIDFromEntry b entry = DN entry
  /\ (entryID <> EmptyString -> getFilter b <> EmptyString -> ParseDN rt entryID = None ->
      getUser rt b l entryID attrs
      = match Search l (NewSearchRequest entryID ScopeBaseObject NeverDerefAliases 1
                          (timeout b) false (getFilter b) attrs []) with
        | Err err => Err err
        | Ok sr =>
            match Entries sr with
            | [found] => Ok found
            | _ => Err (Errorf "user does not exist or too many entries returned")
            end
        end).
Proof.
  intros Hm. split.
  - unfold entryIDFromEntry. by rewrite Hm.
  - intros Hid Hf Hp. unfold getUser, baseAndGetFilterFromEntryID. rewrite Hm, Hp.
    rewrite decide_False by (intros [?|[?|?]]; done).
    rewrite decide_True by done. reflexivity.
Qed.

End LdapSoundness.

(** X15 on the example directory: alice with her password. *)
Lemma Logon_success_sound_witness :
  exists l sr entry,
    backends.connect (directory.backend None) directory.network = Ok l
    /\ ldap.Search l
         (usernameSearch directory.runtime directory.definitions (directory.backend None)
            "alice") = Ok sr
    /\ ldap.Entries sr = [entry]
    /\ backends.EqualFold directory.runtime
         (ldap.GetAttributeValue entry
            (loginAttribute directory.definitions (directory.backend None))) "alice" = true
    /\ ldap.Bind l (ldap.DN entry) "secret" = None
    /\ backends.entryIDFromEntry (directory.backend None) entry <> EmptyString
    /\ backends.Logon directory.runtime directory.definitions (directory.backend None)
         directory.network "" "alice" "secret"
       = {| backends.success := true;
            backends.subject := Some (backends.entryIDFromEntry (directory.backend None) entry);
            backends.sessionRef := None;
            backends.claims :=
              Some {[ backends.IdentifiedUserIDClaim directory.definitions
                      := backends.entryIDFromEntry (directory.backend None) entry ]};
            backends.err := None |}.
Proof.
  apply (Logon_success_sound directory.runtime directory.definitions
           (directory.backend None) directory.network "" "alice" "secret").
  vm_compute. reflexivity.
Defined.

(** X16 on the example directory: the ID is to be made of [cn], which
    alice's entry does not have. *)
Lemma Logon_without_entry_id_witness :
  backends.Logon directory.runtime directory.definitions (directory.backend (Some ["cn"]))
    directory.network "" "alice" "secret"
  = backends.failed
      (ldap.ErrorfStr "ldap identifier backend logon entry without entry ID: %v"
         "uid=alice,dc=example").
Proof.
  apply (Logon_without_entry_id directory.runtime directory.definitions
           (directory.backend (Some ["cn"])) directory.network "" "alice" "secret"
           ["cn"] directory.conn directory.aliceEntry).
  - reflexivity.
  - repeat constructor.
  - vm_compute. discriminate.
  - vm_compute. reflexivity.
  - vm_compute. reflexivity.
  - vm_compute. reflexivity.
  - vm_compute. reflexivity.
Defined.

(** X17 on alice's entry ID under the mapping [uid, mail, cn]. *)
Lemma GetUser_sound_witness :
  "mail=alice%40example.com&mail=a%26b%3Dc+d&uid=Alice"
  = backends.entryIDFromEntry (directory.backend (Some ["uid"; "mail"; "cn"]))
      directory.aliceEntry
  /\ backends.EqualFold directory.runtime
       "mail=alice%40example.com&mail=a%26b%3Dc+d&uid=Alice"
       "mail=alice%40example.com&mail=a%26b%3Dc+d&uid=Alice" = true
  /\ "mail=alice%40example.com&mail=a%26b%3Dc+d&uid=Alice" <> EmptyString
  /\ (backends.baseAndGetFilterFromEntryID directory.runtime
        (directory.backend (Some ["uid"; "mail"; "cn"]))
        "mail=alice%40example.com&mail=a%26b%3Dc+d&uid=Alice").1 <> EmptyString.
Proof.
  apply (GetUser_sound directory.runtime directory.definitions
           (directory.backend (Some ["uid"; "mail"; "cn"])) directory.network).
  vm_compute. reflexivity.
Defined.

(** X18 on the example backend with the mapping [uid]: the empty ID and an
    ID with a semicolon. *)
Lemma getUser_invalid_id_witness :
  backends.getUser directory.runtime (directory.backend (Some ["uid"])) directory.conn
    "" ["dn"; "uid"]
  = Err (ldap.ErrorfStr "ldap identifier backend get user invalid user ID: %v" "")
  /\ backends.getUser directory.runtime (directory.backend (Some ["uid"])) directory.conn
       "uid=alice;uid=bob" ["dn"; "uid"]
     = Err (ldap.ErrorfStr "ldap identifier backend get user invalid user ID: %v"
              "uid=alice;uid=bob").
Proof.
  split.
  - apply (proj1 (getUser_invalid_id directory.runtime (directory.backend (Some ["uid"]))
                    directory.conn "" ["dn"; "uid"])).
    reflexivity.
  - apply (proj1 (proj2 (getUser_invalid_id directory.runtime
                    (directory.backend (Some ["uid"])) directory.conn
                    "uid=alice;uid=bob" ["dn"; "uid"]))).
    + eexists. reflexivity.
    + eexists. vm_compute. reflexivity.
Defined.

(** X19 on the example backend without mapping. *)
Lemma getUser_base_object_witness :
  backends.entryIDFromEntry (directory.backend None) directory.aliceEntry
  = "uid=alice,dc=example"
  /\ backends.getUser directory.runtime (directory.backend None) directory.conn
       "uid=alice,dc=example" ["dn"; "uid"]
     = match ldap.Search directory.conn
               (ldap.NewSearchRequest "uid=alice,dc=example" ldap.ScopeBaseObject
                  ldap.NeverDerefAliases 1 60 false "(objectClass=inetOrgPerson)"
                  ["dn"; "uid"] []) with
       | Err err => Err err
       | Ok sr =>
           match ldap.Entries sr with
           | [found] => Ok found
           | _ => Err (ldap.Errorf "user does not exist or too many entries returned")
           end
       end.
Proof.
  destruct (getUser_base_object directory.runtime (directory.backend None)
              directory.conn "uid=alice,dc=example" ["dn"; "uid"] directory.aliceEntry
              eq_refl) as [Hid Hget].
  split; [exact Hid|].
  apply Hget; [discriminate | discriminate | reflexivity].
Defined.

Section EntryIDs.
Import ldap backends configuration.
Context (rt : Runtime) (defs : Definitions).

(** X20: under one sub-attribute mapping two entries get the same entry ID
    exactly when they have the same values, in the same order, for every
    mapped attribute that has any: distinct users never share an ID. *)
Theorem entryID_injective (b : LDAPIdentifierBackend) (mapping : list string)
    (e1 e2 : Entry) :
  entryIDMapping b = Some mapping ->
  entryIDFromEntry b e1 = entryIDFromEntry b e2
  <-> forall k, k ∈ mapping -> GetAttributeValues e1 k = GetAttributeValues e2 k.
Proof.
  intros Hm. unfold entryIDFromEntry. rewrite Hm. split.
  - intros He k Hk.
    assert (Hv : entryValues mapping e1 = entryValues mapping e2).
    { pose proof (ParseQuery_Encode _ (entryValues_populated mapping e1)) as H1.
      pose proof (ParseQuery_Encode _ (entryValues_populated mapping e2)) as H2.
      rewrite He in H1. rewrite H1 in H2. by injection H2. }
    assert (Hl : mappedValues mapping e1 k = mappedValues mapping e2 k).
    { by rewrite <- !entryValues_lookup, Hv. }
    unfold mappedValues in Hl.
    destruct (GetAttributeValues e1 k) as [|v1 vs1] eqn:E1;
      destruct (GetAttributeValues e2 k) as [|v2 vs2] eqn:E2; [done|..].
    + rewrite decide_False in Hl by (intros [_ ?]; done).
      rewrite decide_True in Hl by done. discriminate Hl.
    + rewrite decide_True in Hl by done.
      rewrite decide_False in Hl by (intros [_ ?]; done). discriminate Hl.
    + rewrite !decide_True in Hl by done. by injection Hl as -> ->.
  - intros Hk. f_equal. apply map_eq. intros k. rewrite !entryValues_lookup.
    unfold mappedValues.
    destruct (decide (k ∈ mapping)) as [Hin|Hin].
    + rewrite (Hk k Hin). reflexivity.
    + rewrite !decide_False by (intros [? _]; done). reflexivity.
Qed.

(** X21: the entry ID depends on the sub-attribute mapping only through
    the set of its attributes: listing them in another order, or twice,
    gives the same ID. *)
Theorem entryID_mapping_order (b1 b2 : LDAPIdentifierBackend)
    (m1 m2 : list string) (entry : Entry) :
  entryIDMapping b1 = Some m1 ->
  entryIDMapping b2 = Some m2 ->
  (forall k, k ∈ m1 <-> k ∈ m2) ->
  entryIDFromEntry b1 entry = entryIDFromEntry b2 entry.
Proof.
  intros H1 H2 Hk. unfold entryIDFromEntry. rewrite H1, H2. f_equal.
  apply map_eq. intros k. rewrite !entryValues_lookup. unfold mappedValues.
  destruct (decide (k ∈ m1 /\ _)) as [[Hin Hv]|Hn].
  - rewrite decide_True; [reflexivity|]. split; [by apply Hk | done].
  - rewrite decide_False; [reflexivity|]. intros [Hin Hv]. apply Hn.
    split; [by apply Hk | done].
Qed.

(** X22: [ResolveUserByUsername] tells "no such user" from a failure: no
    entry (or the result "no such object") gives no user and no error; two
    or more entries, any other search error and a connect error give an
    error; and a user is returned only for the single entry found, whose
    login attribute folds to the user name, under that entry's DN. *)
Theorem ResolveUserByUsername_cases (b : LDAPIdentifierBackend) (net : Network)
    (username : string) :
  let r := ResolveUserByUsername rt defs b net username in
  (forall e, connect b net = Err e -> exists e', r = Err e')
  /\ (forall l,
        loginAttribute defs b <> EmptyString ->
        connect b net = Ok l ->
        (forall sr, Search l (usernameSearch rt defs b username) = Ok sr ->
                    Entries sr = [] -> r = Ok None)
        /\ (forall sr e1 e2 rest,
              Search l (usernameSearch rt defs b username) = Ok sr ->
              Entries sr = e1 :: e2 :: rest -> exists e', r = Err e')
        /\ (forall e, Search l (usernameSearch rt defs b username) = Err e ->
              if IsErrorWithCode (Some e) LDAPResultNoSuchObject
              then r = Ok None else exists e', r = Err e'))
  /\ (forall entryID entry, r = Ok (Some (entryID, entry)) ->
        entryID = DN entry
        /\ EqualFold rt (GetAttributeValue entry (loginAttribute defs b)) username = true
        /\ exists l sr, connect b net = Ok l
             /\ Search l (usernameSearch rt defs b username) = Ok sr
             /\ Entries sr = [entry]).
Proof.
  intros r. subst r. unfold ResolveUserByUsername. fold (loginAttribute defs b).
  split; [|split].
  - intros e He. destruct (decide _); [eauto|]. rewrite He. eauto.
  - intros l Hl Hc. destruct (decide _) as [|_]; [contradiction|]. rewrite Hc.
    rewrite (searchUsername_eq rt defs b username l _ eq_refl).
    split; [|split].
    + intros sr Hs He. rewrite Hs, He. reflexivity.
    + intros sr e1 e2 rest Hs He. rewrite Hs, He. cbn. eauto.
    + intros e Hs. rewrite Hs. destruct (IsErrorWithCode _ _); eauto.
  - intros entryID entry. destruct (decide _); [discriminate|].
    destruct (connect b net) as [l|e]; [|discriminate].
    rewrite (searchUsername_eq rt defs b username l _ eq_refl).
    destruct (Search l _) as [sr|e] eqn:Hs.
    2: { destruct (IsErrorWithCode _ _); discriminate. }
    destruct (Entries sr) as [|e1 [|e2 rest]] eqn:He; try discriminate.
    destruct (EqualFold rt _ username) eqn:Hf; [|discriminate].
    cbn [negb]. intros [= <- <-]. eauto 10.
Qed.

(** What a successful [Logon] and a successful lookup each found. *)
Lemma Logon_success_entry (b : LDAPIdentifierBackend) (net : Network)
    (audience username password : string) :
  success (Logon rt defs b net audience username password) = true ->
  exists l sr entry,
    connect b net = Ok l
    /\ Search l (usernameSearch rt defs b username) = Ok sr
    /\ Entries sr = [entry]
    /\ subject (Logon rt defs b net audience username password)
       = Some (entryIDFromEntry b entry).
Proof.
  unfold Logon.
  destruct (decide _); [discriminate|].
  destruct (connect b net) as [l|e]; [|discriminate].
  rewrite (searchUsername_eq rt defs b username l _ eq_refl).
  destruct (Search l _) as [sr|e] eqn:Hs.
  2: { destruct (IsErrorWithCode _ _); discriminate. }
  destruct (Entries sr) as [|entry [|e2 rest]] eqn:He; try discriminate.
  destruct (negb _); [discriminate|].
  destruct (Bind l (DN entry) password) as [e|].
  { destruct (IsErrorWithCode _ _); discriminate. }
  cbv zeta. destruct (decide _); [discriminate|]. intros _.
  exists l, sr, entry. auto.
Qed.

Lemma Resolve_found_entry (b : LDAPIdentifierBackend) (net : Network)
    (username entryID : string) (entry : Entry) :
  ResolveUserByUsername rt defs b net username = Ok (Some (entryID, entry)) ->
  entryID = DN entry
  /\ exists l sr, connect b net = Ok l
       /\ Search l (usernameSearch rt defs b username) = Ok sr
       /\ Entries sr = [entry].
Proof.
  unfold ResolveUserByUsername.
  destruct (decide _); [discriminate|].
  destruct (connect b net) as [l|e]; [|discriminate].
  rewrite (searchUsername_eq rt defs b username l _ eq_refl).
  destruct (Search l _) as [sr|e] eqn:Hs.
  2: { destruct (IsErrorWithCode _ _); discriminate. }
  destruct (Entries sr) as [|e1 [|e2 rest]] eqn:He; try discriminate.
  destruct (negb _); [discriminate|]. intros [= <- <-]. eauto 10.
Qed.

(** X23: when [Logon] succeeds and [ResolveUserByUsername] finds a user for
    the same user name, both speak of the same entry, but [Logon] names it
    by its entry ID and the lookup by its DN, also when a sub-attribute
    mapping is configured. *)
Theorem Logon_and_Resolve_name_one_entry (b : LDAPIdentifierBackend) (net : Network)
    (audience username password entryID : string) (entry : Entry) :
  success (Logon rt defs b net audience username password) = true ->
  ResolveUserByUsername rt defs b net username = Ok (Some (entryID, entry)) ->
  entryID = DN entry
  /\ subject (Logon rt defs b net audience username password)
     = Some (entryIDFromEntry b entry).
Proof.
  intros HL HR.
  destruct (Logon_success_entry b net audience username password HL)
    as (l & sr & e & Hc & Hs & He & Heq).
  destruct (Resolve_found_entry b net username entryID entry HR)
    as (-> & l' & sr' & Hc' & Hs' & He').
  rewrite Hc in Hc'. injection Hc' as <-. rewrite Hs in Hs'. injection Hs' as <-.
  rewrite He in He'. injection He' as ->.
  split; [reflexivity | exact Heq].
Qed.

End EntryIDs.

(** X20 on alice's entry and an entry elsewhere with the same [uid]. *)
Lemma entryID_injective_witness :
  backends.entryIDFromEntry (directory.backend (Some ["uid"])) directory.aliceEntry
  = backends.entryIDFromEntry (directory.backend (Some ["uid"]))
      {| ldap.DN := "uid=alice,ou=archive,dc=example";
         ldap.Attributes := [ {| ldap.Name := "uid"; ldap.Values := ["Alice"] |} ] |}
  <-> forall k, k ∈ ["uid"] ->
        ldap.GetAttributeValues directory.aliceEntry k
        = ldap.GetAttributeValues
            {| ldap.DN := "uid=alice,ou=archive,dc=example";
               ldap.Attributes := [ {| ldap.Name := "uid"; ldap.Values := ["Alice"] |} ] |} k.
Proof.
  apply (entryID_injective (directory.backend (Some ["uid"])) ["uid"]). reflexivity.
Defined.

(** X21 on alice's entry: [uid, mail] against [mail, uid, mail]. *)
Lemma entryID_mapping_order_witness :
  backends.entryIDFromEntry (directory.backend (Some ["uid"; "mail"])) directory.aliceEntry
  = backends.entryIDFromEntry (directory.backend (Some ["mail"; "uid"; "mail"]))
      directory.aliceEntry.
Proof.
  apply (entryID_mapping_order (directory.backend (Some ["uid"; "mail"]))
           (directory.backend (Some ["mail"; "uid"; "mail"]))
           ["uid"; "mail"] ["mail"; "uid"; "mail"]); [reflexivity | reflexivity |].
  intros k. rewrite !elem_of_cons. pose proof (not_elem_of_nil k). tauto.
Defined.

(** X22 on the example directory: carol is unknown, bob is ambiguous, the
    dialer of [offline] fails. *)
Lemma ResolveUserByUsername_cases_witness :
  configuration.ResolveUserByUsername directory.runtime directory.definitions
    (directory.backend None) directory.network "carol" = Ok None
  /\ (exists e, configuration.ResolveUserByUsername directory.runtime directory.definitions
                  (directory.backend None) directory.network "bob" = Err e)
  /\ (exists e, configuration.ResolveUserByUsername directory.runtime directory.definitions
                  (directory.backend None) directory.offline "alice" = Err e).
Proof.
  pose proof (fun u => proj1 (proj2 (ResolveUserByUsername_cases directory.runtime
    directory.definitions (directory.backend None) directory.network u))
    directory.conn ltac:(vm_compute; discriminate) eq_refl) as H.
  split; [|split].
  - refine (proj1 (H "carol") {| ldap.Entries := [] |} _ _); reflexivity.
  - refine (proj1 (proj2 (H "bob"))
              {| ldap.Entries := [directory.bobEntry "sales"; directory.bobEntry "dev"] |}
              _ _ [] _ _); reflexivity.
  - refine (proj1 (ResolveUserByUsername_cases directory.runtime directory.definitions
              (directory.backend None) directory.offline "alice")
              (ldap.NewError ldap.ErrorNetwork (Some (ldap.OtherError "connection refused")))
              _).
    reflexivity.
Defined.

(** X23 on the example directory with the mapping [uid]: the lookup names
    alice by her DN, [Logon] by [uid=Alice]. *)
Lemma Logon_and_Resolve_name_one_entry_witness :
  "uid=alice,dc=example" = ldap.DN directory.aliceEntry
  /\ backends.subject
       (backends.Logon directory.runtime directory.definitions
          (directory.backend (Some ["uid"])) directory.network "" "alice" "secret")
     = Some (backends.entryIDFromEntry (directory.backend (Some ["uid"]))
               directory.aliceEntry).
Proof.
  apply (Logon_and_Resolve_name_one_entry directory.runtime directory.definitions
           (directory.backend (Some ["uid"])) directory.network "" "alice" "secret");
    vm_compute; reflexivity.
Defined.

Section Construction.
Import ldap backends configuration.
Context (rt : Runtime) (defs : Definitions) (names : AttributeNames) (parser : Parser).

Lemma checkArguments_Ok uriString bindDN bindPassword baseDN scopeString scope uri :
  checkArguments parser uriString bindDN bindPassword baseDN scopeString = Ok (scope, uri)
  <-> uriString <> EmptyString
      /\ Parse parser uriString = Ok uri
      /\ ~ (bindDN = EmptyString /\ bindPassword <> EmptyString)
      /\ baseDN <> EmptyString
      /\ (scopeString = "sub" /\ scope = ScopeWholeSubtree
          \/ scopeString = "one" /\ scope = ScopeSingleLevel
          \/ scopeString = "base" /\ scope = ScopeBaseObject
          \/ scopeString = EmptyString /\ scope = ScopeWholeSubtree).
Proof.
  unfold checkArguments. split.
  - destruct (decide (uriString = EmptyString)) as [|Hu]; [discriminate|].
    destruct (Parse parser uriString) as [uri'|e]; [|discriminate].
    destruct (decide (_ /\ _)) as [|Hb]; [discriminate|].
    destruct (decide (baseDN = EmptyString)) as [|Hd]; [discriminate|].
    destruct (decide (scopeString = "sub")) as [Hs|_];
      [intros [= <- <-]; auto 10|].
    destruct (decide (scopeString = "one")) as [Hs|_];
      [intros [= <- <-]; auto 10|].
    destruct (decide (scopeString = "base")) as [Hs|_];
      [intros [= <- <-]; auto 10|].
    destruct (decide (scopeString = EmptyString)) as [Hs|_];
      [intros [= <- <-]; auto 10 | discriminate].
  - intros (Hu & Hp & Hb & Hd & Hs). rewrite Hp.
    rewrite (decide_False _ _ Hu), (decide_False _ _ Hb), (decide_False _ _ Hd).
    destruct Hs as [[-> ->]|[[-> ->]|[[-> ->]|[-> ->]]]]; reflexivity.
Qed.

Lemma address_Ok uri addr isTLS :
  address parser uri = Ok (addr, isTLS)
  <-> (Scheme uri = EmptyString \/ Scheme uri = "ldap" \/ Scheme uri = "ldaps")
      /\ isTLS = bool_decide (Scheme uri = "ldaps")
      /\ addr = if decide (Port parser uri = EmptyString)
                then Host uri +:+ (if isTLS then ":636" else ":389")
                else Host uri.
Proof.
  unfold address.
  destruct (decide (Scheme uri = EmptyString \/ Scheme uri = "ldap")) as [Hl|Hn].
  - assert (Hs : Scheme uri <> "ldaps") by (destruct Hl as [-> | ->]; discriminate).
    rewrite (bool_decide_eq_false_2 _ Hs). split.
    + intros [= <- <-]. split; [tauto|]. split; [reflexivity|].
      destruct (decide _); reflexivity.
    + intros (_ & -> & ->). destruct (decide _); reflexivity.
  - destruct (decide (Scheme uri = "ldaps")) as [Hs|Hs].
    + rewrite (bool_decide_eq_true_2 _ Hs). split.
      * intros [= <- <-]. split; [tauto|]. split; [reflexivity|].
        destruct (decide _); reflexivity.
      * intros (_ & -> & ->). destruct (decide _); reflexivity.
    + split; [discriminate|]. intros ([?|[?|?]] & _); tauto.
Qed.

(** X24: [NewLDAPIdentifierBackend] accepts its arguments exactly when the
    server URI is not empty and parses, with no scheme or the scheme
    [ldap] or [ldaps]; a bind password comes with a bind DN; the base DN
    is not empty; and the scope is [sub], [one], [base] or empty. *)
Theorem NewLDAPIdentifierBackend_accepts
    (uriString bindDN bindPassword baseDN scopeString filter : string)
    (subAttributes : list string) (mappedAttributes : gmap string string) :
  succeeds (NewLDAPIdentifierBackend rt defs names parser uriString bindDN bindPassword
              baseDN scopeString filter subAttributes mappedAttributes)
  <-> uriString <> EmptyString
      /\ (exists uri, Parse parser uriString = Ok uri
            /\ (Scheme uri = EmptyString \/ Scheme uri = "ldap" \/ Scheme uri = "ldaps"))
      /\ (bindPassword <> EmptyString -> bindDN <> EmptyString)
      /\ baseDN <> EmptyString
      /\ (scopeString = "sub" \/ scopeString = "one" \/ scopeString = "base"
          \/ scopeString = EmptyString).
Proof.
  unfold succeeds, NewLDAPIdentifierBackend. split.
  - intros [b Hb].
    destruct (checkArguments _ _ _ _ _ _) as [[scope uri]|e] eqn:Hc; [|discriminate].
    apply checkArguments_Ok in Hc as (Hu & Hp & Hbind & Hd & Hs).
    destruct (address parser uri) as [[addr isTLS]|e] eqn:Ha; [|discriminate].
    apply address_Ok in Ha as (Hsch & _ & _).
    split; [done|]. split; [eauto|]. split; [|split; [done|]].
    + intros Hpw Hdn. apply Hbind. auto.
    + destruct Hs as [[? _]|[[? _]|[[? _]|[? _]]]]; auto.
  - intros (Hu & (uri & Hp & Hsch) & Hbind & Hd & Hs).
    assert (exists scope, checkArguments parser uriString bindDN bindPassword baseDN scopeString
                          = Ok (scope, uri)) as [scope Hc].
    { assert (Hb : ~ (bindDN = EmptyString /\ bindPassword <> EmptyString))
        by (intros [? ?]; by apply Hbind).
      destruct Hs as [Hs|[Hs|[Hs|Hs]]]; eexists; apply checkArguments_Ok;
        (split; [done|]); (split; [done|]); (split; [done|]); (split; [done|]); eauto 10. }
    rewrite Hc.
    assert (exists a, address parser uri = Ok a) as [[addr isTLS] Ha].
    { eexists (_, _). apply address_Ok. eauto. }
    rewrite Ha. eauto.
Qed.

(** Inserting the pairs of a list with distinct keys stores, under each
    key of the list, the value made from its pair. *)
Lemma insert_pairs (f : string -> string -> string) (l : list (string * string)) :
  forall (m0 : gmap string string) k,
  NoDup l.*1 ->
  foldl (fun m kv => <[kv.1 := f kv.1 kv.2]> m) m0 l !! k
  = match list_to_map (M := gmap string string) l !! k with
    | Some v => Some (f k v)
    | None => m0 !! k
    end.
Proof.
  induction l as [|[k' v'] l IH]; intros m0 k Hnd; [reflexivity|].
  rewrite fmap_cons in Hnd. apply NoDup_cons in Hnd as [Hk' Hnd]. cbn [fst] in Hk'.
  cbn [foldl fst snd]. rewrite IH by done.
  change (list_to_map ((k', v') :: l)) with (<[k' := v']> (list_to_map l : gmap string string)).
  destruct (decide (k = k')) as [->|Hne].
  - rewrite (not_elem_of_list_to_map_1 (M := gmap string)) by done.
    rewrite !lookup_insert_eq. reflexivity.
  - rewrite !lookup_insert_ne by done. reflexivity.
Qed.

Lemma mapAttributes_get (mappedAttributes : gmap string string) (k : string) :
  mapAttributes rt defs names mappedAttributes !! k
  = mappedTo mappedAttributes k <$> ldapDefaultAttributeMapping defs names !! k.
Proof.
  unfold mapAttributes.
  assert (Hnd : NoDup (range rt (ldapDefaultAttributeMapping defs names)).*1).
  { rewrite (range_visits rt). apply NoDup_fst_map_to_list. }
  rewrite (insert_pairs (mappedTo mappedAttributes) _ ∅ k Hnd).
  assert (Hl : list_to_map (M := gmap string string)
                 (range rt (ldapDefaultAttributeMapping defs names))
               = ldapDefaultAttributeMapping defs names).
  { apply map_eq. intros j. apply option_eq. intros v.
    rewrite <- elem_of_list_to_map by done.
    rewrite (range_visits rt). apply elem_of_map_to_list. }
  rewrite Hl. destruct (_ !! k); reflexivity.
Qed.

Lemma new_backend_mapping
    (uriString bindDN bindPassword baseDN scopeString filter : string)
    (subAttributes : list string) (mappedAttributes : gmap string string)
    (b : LDAPIdentifierBackend) :
  NewLDAPIdentifierBackend rt defs names parser uriString bindDN bindPassword
    baseDN scopeString filter subAttributes mappedAttributes = Ok b ->
  attributeMapping b = mapAttributes rt defs names mappedAttributes.
Proof.
  unfold NewLDAPIdentifierBackend.
  destruct (checkArguments _ _ _ _ _ _) as [[sc uri]|e]; [|discriminate].
  destruct (address parser uri) as [[a tls]|e]; [|discriminate].
  by intros [= <-].
Qed.

(** X25: the attribute mapping of a new backend has the logical names of
    the default mapping and no others, in whatever order the default
    mapping is visited: a name outside the defaults is dropped even when
    an attribute is given for it; a default name is mapped to the attribute
    given for it when that is not empty, and to its default when none or
    the empty one is given. *)
Theorem mapAttributes_overrides (mappedAttributes : gmap string string) (k : string) :
  (ldapDefaultAttributeMapping defs names !! k = None ->
     mapAttributes rt defs names mappedAttributes !! k = None)
  /\ (forall v mapped,
        ldapDefaultAttributeMapping defs names !! k = Some v ->
        mappedAttributes !! k = Some mapped -> mapped <> EmptyString ->
        mapAttributes rt defs names mappedAttributes !! k = Some mapped)
  /\ (forall v,
        ldapDefaultAttributeMapping defs names !! k = Some v ->
        mappedAttributes !! k = None \/ mappedAttributes !! k = Some EmptyString ->
        mapAttributes rt defs names mappedAttributes !! k = Some v).
Proof.
  rewrite mapAttributes_get. unfold mappedTo. split; [|split].
  - intros ->. reflexivity.
  - intros v mapped -> -> Hne. cbn. by rewrite decide_True.
  - intros v -> [-> | ->]; [reflexivity|]. cbn. by rewrite decide_False by auto.
Qed.

(** X26: what [NewLDAPIdentifierBackend] hands out: the bind and base
    arguments as given, with a bind password only beside a bind DN and a
    base DN that is not empty; the scope named by the scope string,
    subtree when it is empty; a get-filter that is never empty and a search
    filter that conjoins it with the login attribute; TLS and the default
    port 636 for [ldaps], port 389 otherwise, only when the URI has no
    port; a sub-attribute mapping that is nil or not empty; and the
    timeout 60. *)
Theorem NewLDAPIdentifierBackend_result
    (uriString bindDN bindPassword baseDN scopeString filter : string)
    (subAttributes : list string) (mappedAttributes : gmap string string)
    (b : LDAPIdentifierBackend) :
  NewLDAPIdentifierBackend rt defs names parser uriString bindDN bindPassword
    baseDN scopeString filter subAttributes mappedAttributes = Ok b ->
  backends.bindDN b = bindDN /\ backends.bindPassword b = bindPassword
  /\ (backends.bindDN b = EmptyString -> backends.bindPassword b = EmptyString)
  /\ backends.baseDN b = baseDN /\ backends.baseDN b <> EmptyString
  /\ scope b = (if decide (scopeString = "one") then ScopeSingleLevel
                else if decide (scopeString = "base") then ScopeBaseObject
                else ScopeWholeSubtree)
  /\ getFilter b = (if decide (filter = EmptyString)
                    then "(objectClass=inetOrgPerson)" else filter)
  /\ getFilter b <> EmptyString
  /\ searchFilter b = "(&(" +:+ getFilter b +:+ ")(" +:+ loginAttribute defs b +:+ "=%s))"
  /\ attributeMapping b = mapAttributes rt defs names mappedAttributes
  /\ entryIDMapping b = (if decide (subAttributes = []) then None else Some subAttributes)
  /\ entryIDMapping b <> Some []
  /\ timeout b = 60
  /\ exists uri, Parse parser uriString = Ok uri
       /\ isTLS b = bool_decide (Scheme uri = "ldaps")
       /\ addr b = if decide (Port parser uri = EmptyString)
                   then Host uri +:+ (if isTLS b then ":636" else ":389")
                   else Host uri.
Proof.
  unfold NewLDAPIdentifierBackend. intros Hb.
  destruct (checkArguments _ _ _ _ _ _) as [[sc uri]|e] eqn:Hc; [|discriminate].
  apply checkArguments_Ok in Hc as (Hu & Hp & Hbind & Hd & Hs).
  destruct (address parser uri) as [[a tls]|e] eqn:Ha; [|discriminate].
  apply address_Ok in Ha as (Hsch & Htls & Haddr).
  injection Hb as <-. cbn [backends.bindDN backends.bindPassword backends.baseDN
    scope getFilter searchFilter attributeMapping entryIDMapping timeout isTLS addr].
  unfold loginAttribute. cbn [attributeMapping].
  split; [reflexivity|]. split; [reflexivity|].
  split. { intros ->. destruct (decide (bindPassword = EmptyString)); [done|].
           destruct Hbind. auto. }
  split; [reflexivity|]. split; [done|].
  split. { destruct Hs as [[-> ->]|[[-> ->]|[[-> ->]|[-> ->]]]]; reflexivity. }
  split; [reflexivity|].
  split. { destruct (decide (filter = EmptyString)); [discriminate | done]. }
  split; [reflexivity|]. split; [reflexivity|].
  split. { destruct subAttributes; reflexivity. }
  split. { destruct subAttributes; [discriminate|]. cbn. discriminate. }
  split; [reflexivity|]. exists uri. auto.
Qed.

(** X27: when the login name of [ldapDefinitions] is not empty (and is not
    the name of the UUID type entry), every backend made by
    [NewLDAPIdentifierBackend] has a login attribute, so its [Logon] never
    ends with "logon impossible as no login attribute is set": a user name
    that matches no entry then gives [success=false] without error as soon
    as the connection is made. *)
Theorem new_backend_has_login_attribute
    (uriString bindDN bindPassword baseDN scopeString filter : string)
    (subAttributes : list string) (mappedAttributes : gmap string string)
    (b : LDAPIdentifierBackend) :
  AttributeLogin defs <> EmptyString ->
  AttributeLogin defs <> AttributeUUID names +:+ "_type" ->
  NewLDAPIdentifierBackend rt defs names parser uriString bindDN bindPassword
    baseDN scopeString filter subAttributes mappedAttributes = Ok b ->
  loginAttribute defs b
  = mappedTo mappedAttributes (AttributeLogin defs) (AttributeLogin defs)
  /\ loginAttribute defs b <> EmptyString
  /\ (forall net l audience username password sr,
        connect b net = Ok l ->
        Search l (usernameSearch rt defs b username) = Ok sr ->
        Entries sr = [] ->
        Logon rt defs b net audience username password = nonMatch).
Proof.
  intros Hlogin Htype Hb.
  pose proof (new_backend_mapping _ _ _ _ _ _ _ _ _ Hb) as Hmap.
  assert (Hdef : ldapDefaultAttributeMapping defs names !! AttributeLogin defs
                 = Some (AttributeLogin defs)).
  { unfold ldapDefaultAttributeMapping.
    rewrite lookup_insert_ne by done.
    repeat (rewrite lookup_insert; destruct (decide _) as [E|?]; [congruence|]).
    congruence. }
  assert (Heq : loginAttribute defs b
                = mappedTo mappedAttributes (AttributeLogin defs) (AttributeLogin defs)).
  { unfold loginAttribute. rewrite Hmap, mapAttributes_get, Hdef. reflexivity. }
  assert (Hne : loginAttribute defs b <> EmptyString).
  { rewrite Heq. unfold mappedTo. destruct (mappedAttributes !! _) as [m|]; [|done].
    destruct (decide (m <> EmptyString)); done. }
  split; [exact Heq|]. split; [exact Hne|].
  intros net l audience username password sr Hc Hs He.
  rewrite (Logon_connected rt defs b net audience username password l Hne Hc).
  rewrite (searchUsername_eq rt defs b username l _ eq_refl), Hs, He. reflexivity.
Qed.

End Construction.

(** X24 on an [ldaps] URI with defaults for the rest. *)
Lemma NewLDAPIdentifierBackend_accepts_witness :
  succeeds
    (configuration.NewLDAPIdentifierBackend directory.runtime directory.definitions
       setup.names setup.parser "ldaps://ldap.example" "cn=reader,dc=example" "readonly"
       "dc=example" "" "" [] ∅).
Proof.
  apply (proj2 (NewLDAPIdentifierBackend_accepts directory.runtime directory.definitions
           setup.names setup.parser "ldaps://ldap.example" "cn=reader,dc=example"
           "readonly" "dc=example" "" "" [] ∅)).
  split; [discriminate|]. split.
  { eexists. split; [vm_compute; reflexivity|]. right. right. reflexivity. }
  split; [discriminate|]. split; [discriminate|]. auto.
Defined.

(** X25 on a mapping that renames [uid], gives the empty attribute for
    [mail] and names an attribute for the unknown [phone]. *)
Lemma mapAttributes_overrides_witness :
  configuration.mapAttributes directory.runtime directory.definitions setup.names
    {[ "uid" := "sAMAccountName"; "mail" := ""; "phone" := "telephoneNumber" ]} !! "uid"
  = Some "sAMAccountName"
  /\ configuration.mapAttributes directory.runtime directory.definitions setup.names
       {[ "uid" := "sAMAccountName"; "mail" := ""; "phone" := "telephoneNumber" ]} !! "mail"
     = Some "mail"
  /\ configuration.mapAttributes directory.runtime directory.definitions setup.names
       {[ "uid" := "sAMAccountName"; "mail" := ""; "phone" := "telephoneNumber" ]} !! "phone"
     = None.
Proof.
  pose proof (mapAttributes_overrides directory.runtime directory.definitions setup.names
    {[ "uid" := "sAMAccountName"; "mail" := ""; "phone" := "telephoneNumber" ]}) as H.
  split; [|split].
  - apply (proj1 (proj2 (H "uid")) "uid"); [reflexivity | reflexivity | discriminate].
  - apply (proj2 (proj2 (H "mail")) "mail"); [reflexivity | right; reflexivity].
  - apply (proj1 (H "phone")). reflexivity.
Defined.

(** X26 on an [ldaps] URI without port, with defaults for the rest. *)
Lemma NewLDAPIdentifierBackend_result_witness :
  exists b,
    configuration.NewLDAPIdentifierBackend directory.runtime directory.definitions
      setup.names setup.parser "ldaps://ldap.example" "cn=reader,dc=example" "readonly"
      "dc=example" "" "" [] ∅ = Ok b
    /\ backends.addr b = "ldap.example:636"
    /\ backends.isTLS b = true
    /\ backends.scope b = ldap.ScopeWholeSubtree
    /\ backends.getFilter b = "(objectClass=inetOrgPerson)"
    /\ backends.entryIDMapping b = None
    /\ backends.timeout b = 60.
Proof.
  destruct (configuration.NewLDAPIdentifierBackend directory.runtime directory.definitions
      setup.names setup.parser "ldaps://ldap.example" "cn=reader,dc=example" "readonly"
      "dc=example" "" "" [] ∅) as [b|e] eqn:E; [|vm_compute in E; discriminate E].
  exists b. split; [reflexivity|].
  destruct (NewLDAPIdentifierBackend_result _ _ _ _ _ _ _ _ _ _ _ _ _ E)
    as (_ & _ & _ & _ & _ & Hscope & Hget & _ & _ & _ & Hid & _ & Htime
        & uri & Hp & Htls & Haddr).
  injection Hp as <-. rewrite Haddr, Htls.
  repeat split; assumption || reflexivity.
Defined.

(** X27 on a backend whose login attribute is mapped to [sAMAccountName]:
    carol, whom the directory does not know. *)
Lemma new_backend_has_login_attribute_witness :
  exists b,
    configuration.NewLDAPIdentifierBackend directory.runtime directory.definitions
      setup.names setup.parser "ldap://ldap.example:389" "cn=reader,dc=example" "readonly"
      "dc=example" "sub" "" [] {[ "uid" := "sAMAccountName" ]} = Ok b
    /\ loginAttribute directory.definitions b = "sAMAccountName"
    /\ backends.Logon directory.runtime directory.definitions b directory.network
         "" "carol" "secret" = backends.nonMatch.
Proof.
  destruct (configuration.NewLDAPIdentifierBackend directory.runtime directory.definitions
      setup.names setup.parser "ldap://ldap.example:389" "cn=reader,dc=example" "readonly"
      "dc=example" "sub" "" [] {[ "uid" := "sAMAccountName" ]}) as [b|e] eqn:E;
    [|vm_compute in E; discriminate E].
  exists b. split; [reflexivity|].
  destruct (new_backend_has_login_attribute directory.runtime directory.definitions
              setup.names setup.parser _ _ _ _ _ _ _ _ b
              ltac:(discriminate) ltac:(discriminate) E)
    as (Hlogin & _ & Hnon).
  split; [rewrite Hlogin; reflexivity|].
  vm_compute in E. injection E as <-.
  apply (Hnon directory.network directory.conn "" "carol" "secret"
           {| ldap.Entries := [] |}); vm_compute; reflexivity.
Defined.
